(** * Voice Sampler: the terminal loop (main.py) and the reactive form (app.py)

    A shallow embedding of the two front-ends of the voice sampler and the
    properties of its session logic: clamping of the voice settings, the
    generation counter, the retry path, saving, voice selection and the
    voice-list cache.

    Layout:
    - [Py]: the Python built-ins the program calls ([str.strip],
      [str.lower], [str.isdigit], [int], [float], [min], [max]);
    - [Terminal]: main.py, as a small error/state monad over a machine that
      holds standard input, the printed lines, the provider call logs and
      the files, plus a step function for the two nested [while True] loops;
    - [Reactive]: app.py, one script run per user interaction;
    - the properties. *)

From Stdlib Require Import ZArith QArith Ascii String List Bool Lia.
From stdpp Require Import base option list gmap strings.
Import ListNotations.

Local Open Scope Z_scope.
Local Open Scope string_scope.

(* ===================================================================== *)
(** * Python built-ins *)
(* ===================================================================== *)

Module Py.

(** A [str] is a sequence of code points.  The model covers the code points
    0..255 (one [ascii] each); on those, whitespace, digits and case mapping
    are the interpreter's. *)

Definition code (c : ascii) : N := N_of_ascii c.

(** [str.isspace] on one code point: TAB, LF, VT, FF, CR, FS, GS, RS, US,
    SPACE, NEL and NBSP. *)
Definition is_space (c : ascii) : bool :=
  let n := code c in
  ((9 <=? n) && (n <=? 13) || (28 <=? n) && (n <=? 32)
   || (n =? 133) || (n =? 160))%N.

Fixpoint lstrip (s : string) : string :=
  match s with
  | String c s' => if is_space c then lstrip s' else s
  | EmptyString => EmptyString
  end.

Fixpoint rstrip (s : string) : string :=
  match s with
  | String c s' =>
      match rstrip s' with
      | EmptyString => if is_space c then EmptyString else String c EmptyString
      | r => String c r
      end
  | EmptyString => EmptyString
  end.

(** [s.strip()] *)
Definition strip (s : string) : string := rstrip (lstrip s).

(** [c.lower()] on one code point: A-Z, and the upper-case letters of the
    Latin-1 block (U+00C0..U+00DE without the multiplication sign). *)
Definition lower_char (c : ascii) : ascii :=
  let n := code c in
  if ((65 <=? n) && (n <=? 90)
      || (192 <=? n) && (n <=? 222) && negb (n =? 215))%N
  then ascii_of_N (n + 32) else c.

Fixpoint lower (s : string) : string :=
  match s with
  | String c s' => String (lower_char c) (lower s')
  | EmptyString => EmptyString
  end.

(** Truth value of a string: [if s:] *)
Definition truthy (s : string) : bool :=
  match s with EmptyString => false | _ => true end.

(** The ASCII decimal digits. *)
Definition is_ascii_digit (c : ascii) : bool :=
  ((48 <=? code c) && (code c <=? 57))%N.

(** [str.isdigit] on one code point: the ASCII digits and the superscripts
    two, three and one (U+00B2, U+00B3, U+00B9). *)
Definition is_digit_char (c : ascii) : bool :=
  is_ascii_digit c
  || (code c =? 178)%N || (code c =? 179)%N || (code c =? 185)%N.

Fixpoint all_chars (p : ascii -> bool) (s : string) : bool :=
  match s with
  | String c s' => p c && all_chars p s'
  | EmptyString => true
  end.

(** [s.isdigit()]: at least one character, all of them digits. *)
Definition isdigit (s : string) : bool := truthy s && all_chars is_digit_char s.

Definition digit_val (c : ascii) : Z := Z.of_N (code c) - 48.

(** Digits after the first one of a [digitpart]: a single underscore is
    allowed between two digits.  Returns the digits read and the rest. *)
Fixpoint more_digits (l : list ascii) : list Z * list ascii :=
  match l with
  | c :: l' =>
      if is_ascii_digit c then
        let '(ds, r) := more_digits l' in (digit_val c :: ds, r)
      else if Ascii.eqb c "_" then
        match l' with
        | d :: l'' =>
            if is_ascii_digit d then
              let '(ds, r) := more_digits l'' in (digit_val d :: ds, r)
            else ([], l)
        | [] => ([], l)
        end
      else ([], l)
  | [] => ([], [])
  end.

Definition digitpart (l : list ascii) : option (list Z * list ascii) :=
  match l with
  | c :: l' =>
      if is_ascii_digit c then
        let '(ds, r) := more_digits l' in Some (digit_val c :: ds, r)
      else None
  | [] => None
  end.

Definition digits_value (ds : list Z) : Z :=
  fold_left (fun acc d => 10 * acc + d) ds 0.

(** An optional sign: [true] for a minus. *)
Definition sign (l : list ascii) : bool * list ascii :=
  match l with
  | c :: l' =>
      if Ascii.eqb c "-" then (true, l')
      else if Ascii.eqb c "+" then (false, l')
      else (false, l)
  | [] => (false, [])
  end.

Definition chars (s : string) : list ascii := list_ascii_of_string s.

(** [sys.get_int_max_str_digits()]: the interpreter's default. *)
Definition int_max_str_digits : nat := 4300.

(** [int(s)] in base ten; [None] is [ValueError].  A literal of more than
    [int_max_str_digits] digits is refused: leading zeros count, the sign,
    the underscores and the surrounding whitespace do not. *)
Definition int (s : string) : option Z :=
  let '(neg, l) := sign (chars (strip s)) in
  match digitpart l with
  | Some (ds, []) =>
      if (List.length ds <=? int_max_str_digits)%nat
      then Some (if neg then - digits_value ds else digits_value ds)
      else None
  | _ => None
  end.

(** ** Floats

    A [float] is a binary64 number, modelled by its value: a rational, an
    infinity or NaN.  The order is the order of the values and the two zeros
    compare equal.  [float(s)] and a float literal give the binary64 nearest
    to the decimal they spell, ties to even, and an infinity on overflow. *)

Inductive float := Fin (q : Q) | PosInf | NegInf | NaN.

Definition Qltb (p q : Q) : bool := (Qnum p * QDen q <? Qnum q * QDen p)%Z.

(** [a < b] *)
Definition lt (a b : float) : bool :=
  match a, b with
  | NaN, _ | _, NaN => false
  | Fin p, Fin q => Qltb p q
  | Fin _, PosInf => true
  | NegInf, Fin _ => true
  | NegInf, PosInf => true
  | _, _ => false
  end.

(** [a == b] *)
Definition eq (a b : float) : bool :=
  match a, b with
  | Fin p, Fin q => Qeq_bool p q
  | PosInf, PosInf | NegInf, NegInf => true
  | _, _ => false
  end.

(** [a <= b] *)
Definition le (a b : float) : bool := lt a b || eq a b.

(** [min(a, b)]: the first argument unless the second is smaller. *)
Definition min (a b : float) : float := if lt b a then b else a.

(** [max(a, b)]: the first argument unless the second is greater. *)
Definition max (a b : float) : float := if lt a b then b else a.

(** The value [m * 10^e]. *)
Definition decimal (m e : Z) : Q :=
  if (0 <=? e)%Z then Qred (m * 10 ^ e # 1)
  else Qred (m # Z.to_pos (10 ^ (- e))).

Definition neg (x : float) : float :=
  match x with
  | Fin q => Fin (Qred (- q))
  | PosInf => NegInf
  | NegInf => PosInf
  | NaN => NaN
  end.

(** [n / d] rounded to the nearest integer, ties to even, for [0 <= n] and
    [0 < d]. *)
Definition round_half_even (n d : Z) : Z :=
  let q := (n / d)%Z in
  let r := (n mod d)%Z in
  if (2 * r <? d)%Z then q
  else if (d <? 2 * r)%Z then (q + 1)%Z
  else if Z.even q then q else (q + 1)%Z.

(** [2^k <= n / d], for [0 < d]. *)
Definition reaches (n d k : Z) : bool :=
  if (0 <=? k)%Z then (d * 2 ^ k <=? n)%Z else (d <=? n * 2 ^ (- k))%Z.

(** The binary64 nearest to [n / d], for [0 < n] and [0 < d]: with
    [2^e <= n / d < 2^(e+1)] the last bit kept weighs [2^p], [p] the larger
    of [e - 52] and [-1074]; a result of [2^1024] or more is an infinity. *)
Definition binary64_pos (n d : Z) : float :=
  let e0 := (Z.log2 n - Z.log2 d)%Z in
  let e := if reaches n d e0 then e0 else (e0 - 1)%Z in
  let p := Z.max (e - 52) (-1074) in
  let m := if (0 <=? p)%Z then round_half_even n (d * 2 ^ p)
           else round_half_even (n * 2 ^ (- p)) d in
  if (1024 <=? e)%Z || (p =? 971)%Z && (m =? 2 ^ 53)%Z then PosInf
  else if (0 <=? p)%Z then Fin (m * 2 ^ p # 1)
  else Fin (Qred (m # Z.to_pos (2 ^ (- p)))).

(** The binary64 nearest to [q]. *)
Definition binary64 (q : Q) : float :=
  let n := Qnum q in
  let d := Z.pos (Qden q) in
  if (n =? 0)%Z then Fin 0
  else if (0 <? n)%Z then binary64_pos n d
  else neg (binary64_pos (- n) d).

Definition starts_with_ci (kw : string) (l : list ascii) : option (list ascii) :=
  let k := chars kw in
  if String.eqb (lower (string_of_list_ascii (take (List.length k) l))) kw
  then Some (drop (List.length k) l) else None.

(** The exponent part: [e] or [E], an optional sign, a [digitpart]. *)
Definition exponent (l : list ascii) : option (Z * list ascii) :=
  match l with
  | c :: l' =>
      if Ascii.eqb (lower_char c) "e" then
        let '(neg, l'') := sign l' in
        match digitpart l'' with
        | Some (ds, r) =>
            Some (if neg then - digits_value ds else digits_value ds, r)
        | None => None
        end
      else Some (0, l)
  | [] => Some (0, [])
  end.

(** The unsigned part of a float literal; [None] is [ValueError]. *)
Definition unsigned_float (l : list ascii) : option float :=
  match starts_with_ci "infinity" l, starts_with_ci "inf" l,
        starts_with_ci "nan" l with
  | Some [], _, _ => Some PosInf
  | _, Some [], _ => Some PosInf
  | _, _, Some [] => Some NaN
  | _, _, _ =>
      let '(ip, r1) :=
        match digitpart l with Some (ds, r) => (Some ds, r) | None => (None, l) end in
      let '(fp, r2) :=
        match r1 with
        | c :: r =>
            if Ascii.eqb c "." then
              match digitpart r with
              | Some (ds, r') => (Some ds, r')
              | None => (if ip is Some _ then Some [] else None, r)
              end
            else (if ip is Some _ then Some [] else None, r1)
        | [] => (if ip is Some _ then Some [] else None, r1)
        end in
      match fp with
      | None => None
      | Some fs =>
          match exponent r2 with
          | Some (e, []) =>
              let m := digits_value (default [] ip ++ fs) in
              Some (binary64 (decimal m (e - Z.of_nat (List.length fs))))
          | _ => None
          end
      end
  end.

(** [float(s)]; [None] is [ValueError]. *)
Definition float_of (s : string) : option float :=
  let '(n, l) := sign (chars (strip s)) in
  match unsigned_float l with
  | Some x => Some (if n then neg x else x)
  | None => None
  end.

End Py.

(* ===================================================================== *)
(** * The client library and the exceptions *)
(* ===================================================================== *)

Definition bytes := list Byte.byte.

(** A value held in a settings dictionary. *)
Inductive value := VFloat (x : Py.float) | VBool (b : bool).

(** An attribute of an object of the client library: the object has no
    such attribute, or it holds [None], or a string. *)
Inductive attribute := NoAttribute | IsNone | Text (s : string).

(** An entry of [response.voices].  The client's objects carry [category]
    always, with the value [None] when the provider sent none. *)
Record Voice := {
  voice_id : string;
  name : string;
  category : attribute
}.

(** [getattr(voice, 'category', 'unknown')] as an f-string shows it: the
    default only for an object without the attribute, the text [None] for
    the value [None]. *)
Definition category_of (v : Voice) : string :=
  match category v with
  | NoAttribute => "unknown"
  | IsNone => "None"
  | Text s => s
  end.

Record VoiceSettings := {
  stability : value;
  similarity_boost : value;
  style : value;
  use_speaker_boost : value;
  speed : option value
}.

(** The arguments of one [client.text_to_speech.convert] call. *)
Record tts_request := {
  rq_voice_id : string;
  rq_text : string;
  rq_model_id : string;
  rq_voice_settings : VoiceSettings
}.

Inductive exn :=
| ValueError
| KeyError (key : string)
| IndexError
| EOFError
| OSError (path : string)
| ApiError (cause : string)
| CalledProcessError (cmd : string)
| SystemExit (code : Z).

(** [except Exception] does not catch [SystemExit]. *)
Definition is_Exception (e : exn) : bool :=
  match e with SystemExit _ => false | _ => true end.

(** Where the path of a recording leads.  The save branch of main.py joins
    the name the user typed to the recordings directory, so an absolute name
    or one with [..] can lead into the temporary directory. *)
Inductive location :=
| WorkingCopy       (* to output.mp3 in the temporary directory *)
| TempDirectory     (* to another entry of the temporary directory *)
| Elsewhere.

(** What lies outside the program: the environment, the command line, the
    provider (the answer to its k-th call of each kind), the audio player and
    the disk.  The recordings directory exists or can be made when
    [recordings_dir] holds.  A write to a path succeeds when it is
    [writable].  One that fails is [torn] at [Some k] when the file could be
    opened, which creates or empties it, and [k] bytes reached it before the
    failure; at [None] the file was not opened and is as before. *)
Record world := {
  env_api_key : option string;
  argv : list string;
  platform : string;
  convert : nat -> tts_request -> exn + list bytes;
  get_all : nat -> exn + list Voice;
  player : nat -> string -> option exn;
  recordings_dir : bool;
  writable : string -> bool;
  torn : string -> option nat;
  place : string -> location
}.

(** [b"".join(chunks)] *)
Definition join_bytes (chunks : list bytes) : bytes := concat chunks.

(* ===================================================================== *)
(** * main.py *)
(* ===================================================================== *)

Module Terminal.

(** ** Output *)

Inductive prompt :=
| AskPhrase                      (* "Enter the phrase to generate: " *)
| AskVoiceNumber                 (* "Voice #: " *)
| AskTryAgain                    (* "Try again? [y/n]: " *)
| AskChoice                      (* "\nYour choice: " *)
| AskSaveAs                      (* "Save as (filename without extension): " *)
| AskNewPhrase                   (* "Enter new phrase: " *)
| AskStability (cur : value)     (* "  Stability [0.50]: " *)
| AskSimilarity (cur : value)
| AskStyle (cur : value).

(** What the program writes to the terminal, one constructor per [print]
    (a run of consecutive fixed prints counts as one) and one for the prompt
    of each [input]. *)
Inductive line :=
| Ask (p : prompt)
| SayApiKeyNotSet                                   (* lines 24-25 *)
| SayNoPlayback (path : string)                     (* lines 40-41 *)
| SayVoicesHeader (with_id : bool)                  (* lines 52-54, 68-70 *)
| SayVoiceListRow (i : nat) (v : Voice) (cat : string)
| SayVoiceRow (i : nat) (v : Voice) (cat : string) (marker : bool)
| SayBlank
| SaySelectHint                                     (* line 77 *)
| SaySelected (name : string)                       (* line 84 *)
| SayInvalidNumber                                  (* line 87 *)
| SayGenerating (text voice : string) (stab sim sty : value)
| SaySettings (stab sim sty : value)                (* lines 128-131 *)
| SayNoPhraseProvided                               (* line 150 *)
| SayPlaying (generation : Z)                       (* line 181 *)
| SayError (e : exn)                                (* line 185 *)
| SayOptions                                        (* lines 193-201 *)
| SayRegenerating                                   (* line 207 *)
| SayPlayingAgain                                   (* line 211 *)
| SaySaved (path : string)                          (* line 223 *)
| SayNoPhraseEntered                                (* line 230 *)
| SayRegeneratingVoice                              (* line 234 *)
| SayEnterNewValues                                 (* line 239 *)
| SayRegeneratingSettings                           (* line 254 *)
| SayGoodbye                                        (* line 258 *)
| SayInvalidChoice.                                 (* line 266 *)

(** ** The machine and its monad *)

Record machine := {
  stdin : list string;            (* the lines [input] has yet to read *)
  stdout : list line;             (* what was written, oldest first *)
  tts_log : list tts_request;     (* the [convert] calls made so far *)
  catalog_calls : nat;            (* the number of [get_all] calls so far *)
  player_calls : nat;             (* the number of player runs so far *)
  temp_dir : bool;                (* the directory made by [mkdtemp] exists *)
  temp_file : option bytes;       (* the content of output.mp3, if it exists *)
  temp_others : gmap string bytes; (* the other files of that directory *)
  recordings : gmap string bytes  (* the files outside it, by path *)
}.

Definition boot (inp : list string) (files : gmap string bytes) : machine :=
  {| stdin := inp; stdout := []; tts_log := []; catalog_calls := 0;
     player_calls := 0; temp_dir := false; temp_file := None;
     temp_others := ∅; recordings := files |}.

Inductive result (A : Type) := Ret (a : A) | Raise (e : exn).
Arguments Ret {A} a.
Arguments Raise {A} e.

Definition M (A : Type) : Type := machine -> result A * machine.

Definition ret {A} (a : A) : M A := fun m => (Ret a, m).
Definition raise {A} (e : exn) : M A := fun m => (Raise e, m).
Definition bind {A B} (c : M A) (k : A -> M B) : M B :=
  fun m => match c m with
           | (Ret a, m') => k a m'
           | (Raise e, m') => (Raise e, m')
           end.

(** [try: c  except Exception as e: h e] *)
Definition try_except {A} (c : M A) (h : exn -> M A) : M A :=
  fun m => match c m with
           | (Raise e, m') => if is_Exception e then h e m' else (Raise e, m')
           | r => r
           end.

Notation "'do' x <- c ; k" := (bind c (fun x => k))
  (at level 10, x name, c at level 100, k at level 200).

Definition when (b : bool) (c : M unit) : M unit := if b then c else ret tt.

Fixpoint for_each {A} (l : list A) (body : A -> M unit) : M unit :=
  match l with
  | [] => ret tt
  | x :: l' => do _ <- body x; for_each l' body
  end.

(** [enumerate(l, 1)] *)
Definition enumerate1 {A} (l : list A) : list (nat * A) :=
  imap (fun i x => (S i, x)) l.

Definition print (l : line) : M unit := fun m =>
  (Ret tt,
   {| stdin := stdin m; stdout := stdout m ++ [l]; tts_log := tts_log m;
      catalog_calls := catalog_calls m; player_calls := player_calls m;
      temp_dir := temp_dir m; temp_file := temp_file m;
      temp_others := temp_others m; recordings := recordings m |}).

Definition read_line : M string := fun m =>
  match stdin m with
  | [] => (Raise EOFError, m)
  | s :: rest =>
      (Ret s,
       {| stdin := rest; stdout := stdout m; tts_log := tts_log m;
          catalog_calls := catalog_calls m; player_calls := player_calls m;
          temp_dir := temp_dir m; temp_file := temp_file m;
          temp_others := temp_others m; recordings := recordings m |})
  end.

(** [input(prompt)]: writes the prompt, reads one line. *)
Definition input (p : prompt) : M string := do _ <- print (Ask p); read_line.

(** [sys.exit(code)] *)
Definition sys_exit {A} (code : Z) : M A := raise (SystemExit code).

Definition of_option {A} (o : option A) (e : exn) : M A :=
  match o with Some a => ret a | None => raise e end.

Section Program.

Variable w : world.

(** ** The collaborators *)

(** [client.text_to_speech.convert(...)], consumed by [b"".join]. *)
Definition text_to_speech_convert (rq : tts_request) : M bytes := fun m =>
  let m' :=
    {| stdin := stdin m; stdout := stdout m; tts_log := tts_log m ++ [rq];
       catalog_calls := catalog_calls m; player_calls := player_calls m;
       temp_dir := temp_dir m; temp_file := temp_file m;
       temp_others := temp_others m; recordings := recordings m |} in
  match convert w (List.length (tts_log m)) rq with
  | inl e => (Raise e, m')
  | inr chunks => (Ret (join_bytes chunks), m')
  end.

(** [client.voices.get_all().voices] *)
Definition voices_get_all : M (list Voice) := fun m =>
  let m' :=
    {| stdin := stdin m; stdout := stdout m; tts_log := tts_log m;
       catalog_calls := S (catalog_calls m); player_calls := player_calls m;
       temp_dir := temp_dir m; temp_file := temp_file m;
       temp_others := temp_others m; recordings := recordings m |} in
  match get_all w (catalog_calls m) with
  | inl e => (Raise e, m')
  | inr vs => (Ret vs, m')
  end.

(** [subprocess.run([cmd, path], check=True)] and [winsound.PlaySound]. *)
Definition run_player (cmd : string) : M unit := fun m =>
  let m' :=
    {| stdin := stdin m; stdout := stdout m; tts_log := tts_log m;
       catalog_calls := catalog_calls m; player_calls := S (player_calls m);
       temp_dir := temp_dir m; temp_file := temp_file m;
       temp_others := temp_others m; recordings := recordings m |} in
  match player w (player_calls m) cmd with
  | Some e => (Raise e, m')
  | None => (Ret tt, m')
  end.

(** ** The files *)

Definition audio_path : string := "output.mp3".

(** The directory [mkdtemp] makes; its name goes on with random characters. *)
Definition temp_path : string := "voice_sampler_".

(** [tempfile.mkdtemp(prefix="voice_sampler_")]: a new, empty directory. *)
Definition mkdtemp : M unit := fun m =>
  (Ret tt,
   {| stdin := stdin m; stdout := stdout m; tts_log := tts_log m;
      catalog_calls := catalog_calls m; player_calls := player_calls m;
      temp_dir := true; temp_file := None;
      temp_others := ∅; recordings := recordings m |}).

(** A file the program writes. *)
Inductive file :=
| Working                      (* output.mp3 in the temporary directory *)
| Other (path : string)        (* another entry of the temporary directory *)
| Recording (path : string).   (* a file outside the temporary directory *)

(** The file the path of a recording leads to. *)
Definition file_at (save_path : string) : file :=
  match place w save_path with
  | WorkingCopy => Working
  | TempDirectory => Other save_path
  | Elsewhere => Recording save_path
  end.

(** The machine in which the file [f] holds [data]. *)
Definition put (f : file) (data : bytes) (m : machine) : machine :=
  {| stdin := stdin m; stdout := stdout m; tts_log := tts_log m;
     catalog_calls := catalog_calls m; player_calls := player_calls m;
     temp_dir := temp_dir m;
     temp_file := match f with Working => Some data | _ => temp_file m end;
     temp_others :=
       match f with
       | Other path => <[path := data]> (temp_others m)
       | _ => temp_others m
       end;
     recordings :=
       match f with
       | Recording path => <[path := data]> (recordings m)
       | _ => recordings m
       end |}.

(** [open(path, "wb")]: the file is created or emptied. *)
Definition open_wb (path : string) (f : file) : M unit := fun m =>
  if writable w path then (Ret tt, put f [] m)
  else match torn w path with
       | Some _ => (Ret tt, put f [] m)
       | None => (Raise (OSError path), m)
       end.

(** [f.write(data)] on the file opened at [path], to the end of its [with]
    block. *)
Definition write (path : string) (f : file) (data : bytes) : M unit := fun m =>
  if writable w path then (Ret tt, put f data m)
  else match torn w path with
       | Some k => (Raise (OSError path), put f (take k data) m)
       | None => (Raise (OSError path), m)
       end.

(** [with open(audio_path, "wb") as f: f.write(data)] *)
Definition write_temp (data : bytes) : M unit :=
  do _ <- open_wb audio_path Working;
  write audio_path Working data.

(** [open(audio_path, "rb")] *)
Definition open_rb : M unit := fun m =>
  match temp_file m with
  | Some _ => (Ret tt, m)
  | None => (Raise (OSError audio_path), m)
  end.

(** [src.read()] *)
Definition read_temp : M bytes := fun m =>
  match temp_file m with
  | Some data => (Ret data, m)
  | None => (Raise (OSError audio_path), m)
  end.

(** The path of a recording, below the recordings directory. *)
Definition recording (save_name : string) : string := save_name ++ ".mp3".

(** [recordings_dir.mkdir(exist_ok=True)] *)
Definition mkdir_recordings : M unit := fun m =>
  if recordings_dir w then (Ret tt, m) else (Raise (OSError "recordings"), m).

(** Lines 220-222: the working copy is opened for reading, then the
    recording for writing, and what is then read from the first is written
    to the second. *)
Definition copy_to (save_path : string) : M unit :=
  do _ <- open_rb;
  do _ <- open_wb save_path (file_at save_path);
  do data <- read_temp;
  write save_path (file_at save_path) data.

(** [if audio_path.exists(): audio_path.unlink()] *)
Definition unlink_temp : M unit := fun m =>
  (Ret tt,
   {| stdin := stdin m; stdout := stdout m; tts_log := tts_log m;
      catalog_calls := catalog_calls m; player_calls := player_calls m;
      temp_dir := temp_dir m; temp_file := None;
      temp_others := temp_others m; recordings := recordings m |}).

(** [os.rmdir(temp_dir)]: refused while the directory has an entry. *)
Definition rmdir_temp : M unit := fun m =>
  if bool_decide (temp_others m = ∅) then
    (Ret tt,
     {| stdin := stdin m; stdout := stdout m; tts_log := tts_log m;
        catalog_calls := catalog_calls m; player_calls := player_calls m;
        temp_dir := false; temp_file := temp_file m;
        temp_others := temp_others m; recordings := recordings m |})
  else (Raise (OSError temp_path), m).

(** Lines 260-262 and 269-271. *)
Definition cleanup : M unit :=
  do _ <- unlink_temp;
  rmdir_temp.

(** ** The functions of main.py *)

Definition get_api_key : M string :=
  match env_api_key w with
  | Some api_key =>
      if Py.truthy api_key then ret api_key
      else do _ <- print SayApiKeyNotSet; sys_exit 1
  | None => do _ <- print SayApiKeyNotSet; sys_exit 1
  end.

Definition play_audio (file_path : string) : M unit :=
  if String.eqb (platform w) "darwin" then run_player "afplay"
  else if String.eqb (platform w) "linux" then run_player "aplay"
  else if String.eqb (platform w) "win32" then run_player "winsound"
  else print (SayNoPlayback file_path).

Definition get_voices : M (list Voice) := voices_get_all.

Definition list_voices : M unit :=
  do _ <- print (SayVoicesHeader true);
  do voices <- get_voices;
  do _ <- for_each (enumerate1 voices)
            (fun iv => print (SayVoiceListRow iv.1 iv.2 (category_of iv.2)));
  print SayBlank.

Definition select_voice (current_voice : string) : M string :=
  do voices <- get_voices;
  do _ <- print (SayVoicesHeader false);
  do _ <- for_each (enumerate1 voices)
            (fun iv => print (SayVoiceRow iv.1 iv.2 (category_of iv.2)
                                (String.eqb (voice_id iv.2) current_voice)));
  do _ <- print SaySelectHint;
  do answer <- input AskVoiceNumber;
  let choice := Py.strip answer in
  if Py.truthy choice && Py.isdigit choice then
    do n <- of_option (Py.int choice) ValueError;
    let idx := n - 1 in
    if (0 <=? idx)%Z && (idx <? Z.of_nat (List.length voices))%Z then
      do selected <- of_option (voices !! Z.to_nat idx) IndexError;
      do _ <- print (SaySelected (name selected));
      ret (voice_id selected)
    else
      do _ <- print SayInvalidNumber;
      ret current_voice
  else ret current_voice.

Definition f_0_0 : Py.float := Py.Fin 0.
Definition f_0_5 : Py.float := Py.Fin (1 # 2).
Definition f_0_75 : Py.float := Py.Fin (3 # 4).
Definition f_1_0 : Py.float := Py.Fin 1.

(** [settings.get(key, dflt)] *)
Definition get (settings : gmap string value) (key : string) (dflt : value) : value :=
  default dflt (settings !! key).

Definition generate_audio (text voice : string) (settings : gmap string value)
  : M bytes :=
  do _ <- print (SayGenerating text voice
                   (get settings "stability" (VFloat f_0_5))
                   (get settings "similarity_boost" (VFloat f_0_75))
                   (get settings "style" (VFloat f_0_0)));
  let voice_settings :=
    {| stability := get settings "stability" (VFloat f_0_5);
       similarity_boost := get settings "similarity_boost" (VFloat f_0_75);
       style := get settings "style" (VFloat f_0_0);
       use_speaker_boost := get settings "use_speaker_boost" (VBool true);
       speed := None |} in
  text_to_speech_convert
    {| rq_voice_id := voice; rq_text := text;
       rq_model_id := "eleven_multilingual_v2";
       rq_voice_settings := voice_settings |}.

Definition print_settings (settings : gmap string value) : M unit :=
  print (SaySettings (get settings "stability" (VFloat f_0_5))
           (get settings "similarity_boost" (VFloat f_0_75))
           (get settings "style" (VFloat f_0_0))).

(** ** The local variables of [main] *)

Record locals := {
  phrase : string;
  current_voice : string;
  settings : gmap string value;
  generation_count : Z
}.

Definition initial_settings : gmap string value :=
  <["stability" := VFloat f_0_5]>
  (<["similarity_boost" := VFloat f_0_75]>
  (<["style" := VFloat f_0_0]>
  (<["use_speaker_boost" := VBool true]> ∅))).

Definition set_phrase (p : string) (l : locals) : locals :=
  {| phrase := p; current_voice := current_voice l; settings := settings l;
     generation_count := generation_count l |}.
Definition set_current_voice (v : string) (l : locals) : locals :=
  {| phrase := phrase l; current_voice := v; settings := settings l;
     generation_count := generation_count l |}.
Definition set_settings (s : gmap string value) (l : locals) : locals :=
  {| phrase := phrase l; current_voice := current_voice l; settings := s;
     generation_count := generation_count l |}.
Definition set_generation_count (n : Z) (l : locals) : locals :=
  {| phrase := phrase l; current_voice := current_voice l;
     settings := settings l; generation_count := n |}.

(** Lines 134-168: everything before the outer loop. *)
Definition prologue : M locals :=
  do api_key <- get_api_key;
  if (1 <? List.length (argv w))%nat
     && bool_decide (argv w !! 1%nat = Some "--list-voices")
  then do _ <- list_voices; sys_exit 0
  else
    do phrase <-
      (if (1 <? List.length (argv w))%nat
       then ret (String.concat " " (drop 1 (argv w)))
       else do answer <- input AskPhrase;
            let phrase := Py.strip answer in
            if Py.truthy phrase then ret phrase
            else do _ <- print SayNoPhraseProvided; sys_exit 1);
    do _ <- mkdtemp;
    ret {| phrase := phrase; current_voice := "bIHbv24MWmeRgasZH58o";
           settings := initial_settings; generation_count := 0 |}.

(** Where control goes after a piece of the loop body. *)
Inductive next :=
| Again   (* to the head of the outer loop: [continue], or [break] of the menu loop *)
| Stay    (* to the head of the menu loop *)
| Leave.  (* [break] of the outer loop *)

(** Lines 171-201: one pass from the head of the outer loop to the menu. *)
Definition attempt (l0 : locals) : M (next * locals) :=
  let l := set_generation_count (generation_count l0 + 1) l0 in
  do n <- try_except
            (do audio_data <- generate_audio (phrase l) (current_voice l) (settings l);
             do _ <- write_temp audio_data;
             do _ <- print (SayPlaying (generation_count l));
             do _ <- play_audio audio_path;
             ret Stay)
            (fun e =>
               do _ <- print (SayError e);
               do answer <- input AskTryAgain;
               let retry := Py.lower (Py.strip answer) in
               if String.eqb retry "y" then ret Again else ret Leave);
  match n with
  | Stay => do _ <- print SayOptions; ret (Stay, l)
  | _ => ret (n, l)
  end.

(** One of the three blocks of lines 241-251: prompt with the current value,
    and on a non-empty answer store the clamped number. *)
Definition edit_setting (key : string) (ask : value -> prompt)
    (settings : gmap string value) : M (gmap string value) :=
  do cur <- of_option (settings !! key) (KeyError key);
  do answer <- input (ask cur);
  let val := Py.strip answer in
  if Py.truthy val then
    do x <- of_option (Py.float_of val) ValueError;
    ret (<[key := VFloat (Py.max f_0_0 (Py.min f_1_0 x))]> settings)
  else ret settings.

(** Lines 204-266: one pass of the menu loop. *)
Definition menu (l : locals) : M (next * locals) :=
  do answer <- input AskChoice;
  let choice := Py.lower (Py.strip answer) in
  if String.eqb choice "r" then
    do _ <- print SayRegenerating;
    ret (Again, l)
  else if String.eqb choice "p" then
    do _ <- print SayPlayingAgain;
    do _ <- play_audio audio_path;
    ret (Stay, l)
  else if String.eqb choice "s" then
    do answer <- input AskSaveAs;
    let save_name := Py.strip answer in
    do _ <- when (Py.truthy save_name)
              (do _ <- mkdir_recordings;
               do _ <- copy_to (recording save_name);
               print (SaySaved (recording save_name)));
    ret (Stay, l)
  else if String.eqb choice "n" then
    do answer <- input AskNewPhrase;
    let l := set_phrase (Py.strip answer) l in
    if Py.truthy (phrase l) then ret (Again, set_generation_count 0 l)
    else do _ <- print SayNoPhraseEntered; ret (Stay, l)
  else if String.eqb choice "v" then
    do v <- select_voice (current_voice l);
    do _ <- print SayRegeneratingVoice;
    ret (Again, set_current_voice v l)
  else if String.eqb choice "e" then
    do _ <- print_settings (settings l);
    do _ <- print SayEnterNewValues;
    do s1 <- edit_setting "stability" AskStability (settings l);
    do s2 <- edit_setting "similarity_boost" AskSimilarity s1;
    do s3 <- edit_setting "style" AskStyle s2;
    do _ <- print_settings s3;
    do _ <- print SayRegeneratingSettings;
    ret (Again, set_settings s3 l)
  else if String.eqb choice "q" then
    do _ <- print SayGoodbye;
    do _ <- cleanup;
    sys_exit 0
  else
    do _ <- print SayInvalidChoice;
    ret (Stay, l).

(** ** The two loops as a step function *)

Inductive pc := LoopHead | Menu.

Inductive status :=
| Running (at_ : pc) (l : locals)
| Finished (r : result unit).     (* [Ret tt]: [main] returned *)

Record config := { status_of : status; machine_of : machine }.

Definition after (r : result (next * locals) * machine) : config :=
  match r with
  | (Ret (Again, l), m) => {| status_of := Running LoopHead l; machine_of := m |}
  | (Ret (Stay, l), m) => {| status_of := Running Menu l; machine_of := m |}
  | (Ret (Leave, l), m) =>
      {| status_of := Finished (cleanup m).1; machine_of := (cleanup m).2 |}
  | (Raise e, m) => {| status_of := Finished (Raise e); machine_of := m |}
  end.

Definition step (c : config) : config :=
  match status_of c with
  | Running LoopHead l => after (attempt l (machine_of c))
  | Running Menu l => after (menu l (machine_of c))
  | Finished _ => c
  end.

Fixpoint steps (n : nat) (c : config) : config :=
  match n with
  | O => c
  | S n' => steps n' (step c)
  end.

(** [main()], up to the head of the outer loop. *)
Definition start (m : machine) : config :=
  match prologue m with
  | (Ret l, m') => {| status_of := Running LoopHead l; machine_of := m' |}
  | (Raise e, m') => {| status_of := Finished (Raise e); machine_of := m' |}
  end.

End Program.

End Terminal.

(* ===================================================================== *)
(** * app.py *)
(* ===================================================================== *)

Module Reactive.

(** What a script run puts on the page. *)
Inductive element :=
| ErrorNoApiKey                    (* line 45 *)
| WarnEnterPhrase                  (* line 167 *)
| ErrorGenerating (e : exn)        (* line 183 *)
| AudioPlayer (data : bytes)       (* line 189 *)
| SuccessSaved (path : string)     (* line 205 *)
| WarnEnterFilename                (* line 207 *)
| DownloadButton (data : bytes).   (* lines 210-216 *)

(** A row of the cached voice list: [(voice_id, name, category)]. *)
Definition row : Type := string * string * string.

(** What outlives a script run: the entry of [st.cache_data] for
    [get_voices] with the time it was stored, [st.session_state], the
    provider call logs and the recordings directory; [page] is what the
    current run has rendered. *)
Record server := {
  page : list element;
  voices_cache : option (Z * list row);
  audio_data : option bytes;          (* st.session_state.audio_data *)
  last_phrase : option string;        (* st.session_state.last_phrase *)
  catalog_calls : nat;
  tts_log : list tts_request;
  recordings : gmap string bytes
}.

Definition initial (files : gmap string bytes) : server :=
  {| page := []; voices_cache := None; audio_data := None;
     last_phrase := None; catalog_calls := 0; tts_log := [];
     recordings := files |}.

(** The declaration of a slider. *)
Record slider := {
  min_value : Py.float;
  max_value : Py.float;
  value : Py.float;
  step : Py.float
}.

(** The float literal that spells [m * 10^e]. *)
Definition dec (m e : Z) : Py.float := Py.binary64 (Py.decimal m e).

Definition stability_slider : slider :=
  {| min_value := dec 0 0; max_value := dec 1 0; value := dec 5 (-1);
     step := dec 5 (-2) |}.
Definition similarity_slider : slider :=
  {| min_value := dec 0 0; max_value := dec 1 0; value := dec 75 (-2);
     step := dec 5 (-2) |}.
Definition style_slider : slider :=
  {| min_value := dec 0 0; max_value := dec 1 0; value := dec 0 0;
     step := dec 5 (-2) |}.
Definition speed_slider : slider :=
  {| min_value := dec 7 (-1); max_value := dec 12 (-1); value := dec 1 0;
     step := dec 5 (-2) |}.

(** A position the widget can deliver: inside the declared range. *)
Definition in_range (s : slider) (x : Py.float) : bool :=
  Py.le (min_value s) x && Py.le x (max_value s).

(** The state of the widgets when a run starts: where the sliders stand,
    which option of the select box is chosen, the two text fields, and the
    button that was clicked, if any. *)
Record widgets := {
  w_stability : Py.float;
  w_similarity : Py.float;
  w_style : Py.float;
  w_speed : Py.float;
  w_refresh : bool;
  w_selected : nat;
  w_phrase : string;
  w_generate : bool;
  w_regenerate : bool;
  w_save_name : string;
  w_save : bool
}.

(** The positions are ones the four sliders can deliver. *)
Definition delivered (ws : widgets) : bool :=
  in_range stability_slider (w_stability ws)
  && in_range similarity_slider (w_similarity ws)
  && in_range style_slider (w_style ws)
  && in_range speed_slider (w_speed ws).

(** How a script run ends. *)
Inductive ending :=
| Completed
| Stopped                (* [st.stop()] *)
| Rerun                  (* [st.rerun()] *)
| Uncaught (e : exn).

Inductive result (A : Type) := Ret (a : A) | End (x : ending).
Arguments Ret {A} a.
Arguments End {A} x.

Definition M (A : Type) : Type := server -> result A * server.

Definition ret {A} (a : A) : M A := fun s => (Ret a, s).
Definition finish {A} (x : ending) : M A := fun s => (End x, s).
Definition raise {A} (e : exn) : M A := finish (Uncaught e).
Definition bind {A B} (c : M A) (k : A -> M B) : M B :=
  fun s => match c s with
           | (Ret a, s') => k a s'
           | (End x, s') => (End x, s')
           end.

(** [try: c  except Exception as e: h e] *)
Definition try_except {A} (c : M A) (h : exn -> M A) : M A :=
  fun s => match c s with
           | (End (Uncaught e), s') =>
               if is_Exception e then h e s' else (End (Uncaught e), s')
           | r => r
           end.

Notation "'do' x <- c ; k" := (bind c (fun x => k))
  (at level 10, x name, c at level 100, k at level 200).

Definition when (b : bool) (c : M unit) : M unit := if b then c else ret tt.

Definition of_option {A} (o : option A) (e : exn) : M A :=
  match o with Some a => ret a | None => raise e end.

Definition show (x : element) : M unit := fun s =>
  (Ret tt,
   {| page := page s ++ [x]; voices_cache := voices_cache s;
      audio_data := audio_data s; last_phrase := last_phrase s;
      catalog_calls := catalog_calls s; tts_log := tts_log s;
      recordings := recordings s |}).

Definition set_voices_cache (c : option (Z * list row)) : M unit := fun s =>
  (Ret tt,
   {| page := page s; voices_cache := c;
      audio_data := audio_data s; last_phrase := last_phrase s;
      catalog_calls := catalog_calls s; tts_log := tts_log s;
      recordings := recordings s |}).

(** [st.session_state.audio_data = data] *)
Definition set_audio_data (data : bytes) : M unit := fun s =>
  (Ret tt,
   {| page := page s; voices_cache := voices_cache s;
      audio_data := Some data; last_phrase := last_phrase s;
      catalog_calls := catalog_calls s; tts_log := tts_log s;
      recordings := recordings s |}).

(** [st.session_state.last_phrase = p] *)
Definition set_last_phrase (p : string) : M unit := fun s =>
  (Ret tt,
   {| page := page s; voices_cache := voices_cache s;
      audio_data := audio_data s; last_phrase := Some p;
      catalog_calls := catalog_calls s; tts_log := tts_log s;
      recordings := recordings s |}).

Definition get_server : M server := fun s => (Ret s, s).

(** The time-to-live of the voice list, in seconds. *)
Definition ttl : Z := 300.

(** An entry stored at [t] is served until [ttl] seconds have passed. *)
Definition fresh (now t : Z) : bool := (now - t <? ttl)%Z.

(** [dict[key] = v] on a dictionary kept in insertion order. *)
Fixpoint dict_set (key v : string) (d : list (string * string))
  : list (string * string) :=
  match d with
  | [] => [(key, v)]
  | (k, x) :: d' =>
      if String.eqb k key then (k, v) :: d' else (k, x) :: dict_set key v d'
  end.

Fixpoint dict_get (key : string) (d : list (string * string)) : option string :=
  match d with
  | [] => None
  | (k, x) :: d' => if String.eqb k key then Some x else dict_get key d'
  end.

(** [f"{name} ({category})"] *)
Definition label (name category : string) : string :=
  name ++ " (" ++ category ++ ")".

(** [{f"{name} ({category})": vid for vid, name, category in voices}] *)
Definition voice_options (voices : list row) : list (string * string) :=
  fold_left (fun d r => dict_set (label r.1.2 r.2) r.1.1 d) voices [].

(** [st.selectbox(..., options, index=0)]: the chosen option, the first one
    when the choice is not among them, [None] when there is none. *)
Definition selectbox (options : list string) (chosen : nat) : option string :=
  match options !! chosen with
  | Some o => Some o
  | None => options !! 0%nat
  end.

Section Script.

Variable w : world.
Variable now : Z.

(** [get_client()] *)
Definition get_client : M unit :=
  match env_api_key w with
  | Some api_key =>
      if Py.truthy api_key then ret tt
      else do _ <- show ErrorNoApiKey; finish Stopped
  | None => do _ <- show ErrorNoApiKey; finish Stopped
  end.

(** The body of [get_voices]: one provider call. *)
Definition fetch_voices : M (list row) := fun s =>
  let s' :=
    {| page := page s; voices_cache := voices_cache s;
       audio_data := audio_data s; last_phrase := last_phrase s;
       catalog_calls := S (catalog_calls s); tts_log := tts_log s;
       recordings := recordings s |} in
  match get_all w (catalog_calls s) with
  | inl e => (End (Uncaught e), s')
  | inr vs => (Ret (map (fun v => (voice_id v, name v, category_of v)) vs), s')
  end.

(** [get_voices(client)] under [@st.cache_data(ttl=300)]: a fresh entry is
    returned as it is; otherwise the body runs and its result is stored with
    the current time.  A run of the body that raises stores nothing. *)
Definition get_voices : M (list row) :=
  do s <- get_server;
  match voices_cache s with
  | Some (t, voices) =>
      if fresh now t then ret voices
      else do voices <- fetch_voices;
           do _ <- set_voices_cache (Some (now, voices));
           ret voices
  | None =>
      do voices <- fetch_voices;
      do _ <- set_voices_cache (Some (now, voices));
      ret voices
  end.

(** [get_voices.clear()] *)
Definition get_voices_clear : M unit := set_voices_cache None.

Definition generate_audio (text voice_id : string)
    (stability similarity style speed : Py.float) : M bytes := fun s =>
  let rq :=
    {| rq_voice_id := voice_id; rq_text := text;
       rq_model_id := "eleven_multilingual_v2";
       rq_voice_settings :=
         {| stability := VFloat stability;
            similarity_boost := VFloat similarity;
            style := VFloat style;
            use_speaker_boost := VBool true;
            speed := Some (VFloat speed) |} |} in
  let s' :=
    {| page := page s; voices_cache := voices_cache s;
       audio_data := audio_data s; last_phrase := last_phrase s;
       catalog_calls := catalog_calls s; tts_log := tts_log s ++ [rq];
       recordings := recordings s |} in
  match convert w (List.length (tts_log s)) rq with
  | inl e => (End (Uncaught e), s')
  | inr chunks => (Ret (join_bytes chunks), s')
  end.

(** [save_path.write_bytes(data)]: the file is opened, which creates or
    empties it, and written. *)
Definition write_bytes (save_path : string) (data : bytes) : M unit := fun s =>
  let holding (content : bytes) :=
    {| page := page s; voices_cache := voices_cache s;
       audio_data := audio_data s; last_phrase := last_phrase s;
       catalog_calls := catalog_calls s; tts_log := tts_log s;
       recordings := <[save_path := content]> (recordings s) |} in
  if writable w save_path then (Ret tt, holding data)
  else match torn w save_path with
       | Some k => (End (Uncaught (OSError save_path)), holding (take k data))
       | None => (End (Uncaught (OSError save_path)), s)
       end.

(** [recordings_dir.mkdir(exist_ok=True)] *)
Definition mkdir_recordings : M unit := fun s =>
  if recordings_dir w then (Ret tt, s)
  else (End (Uncaught (OSError "recordings")), s).

(** [save_recording(audio_data, filename)]: the path written. *)
Definition save_recording (data : bytes) (filename : string) : M string :=
  let save_path := filename ++ ".mp3" in
  do _ <- mkdir_recordings;
  do _ <- write_bytes save_path data;
  ret save_path.

(** Lines 86-216: one run of the script. *)
Definition script (ws : widgets) : M unit :=
  do _ <- get_client;
  do voices <- get_voices;
  let voice_options := voice_options voices in
  do _ <- when (w_refresh ws) (do _ <- get_voices_clear; finish Rerun);
  let selected_voice := selectbox (map fst voice_options) (w_selected ws) in
  let phrase := w_phrase ws in
  do _ <- when (w_generate ws || w_regenerate ws)
            (if negb (Py.truthy (Py.strip phrase)) then show WarnEnterPhrase
             else
               do voice_id <-
                 of_option (selected_voice ≫= fun k => dict_get k voice_options)
                   (KeyError (default "None" selected_voice));
               try_except
                 (do audio_data <-
                    generate_audio (Py.strip phrase) voice_id
                      (w_stability ws) (w_similarity ws) (w_style ws)
                      (w_speed ws);
                  do _ <- set_audio_data audio_data;
                  set_last_phrase (Py.strip phrase))
                 (fun e => show (ErrorGenerating e)));
  do s <- get_server;
  match audio_data s with
  | Some data =>
      do _ <- show (AudioPlayer data);
      do _ <- when (w_save ws)
                (if Py.truthy (Py.strip (w_save_name ws)) then
                   do save_path <- save_recording data (Py.strip (w_save_name ws));
                   show (SuccessSaved save_path)
                 else show WarnEnterFilename);
      show (DownloadButton data)
  | None => ret tt
  end.

(** A run starts from an empty page. *)
Definition clear_page (s : server) : server :=
  {| page := []; voices_cache := voices_cache s;
     audio_data := audio_data s; last_phrase := last_phrase s;
     catalog_calls := catalog_calls s; tts_log := tts_log s;
     recordings := recordings s |}.

Definition run_script (ws : widgets) (s : server) : ending * server :=
  match script ws (clear_page s) with
  | (Ret _, s') => (Completed, s')
  | (End x, s') => (x, s')
  end.

End Script.

End Reactive.

(* ===================================================================== *)
(** * Properties *)
(* ===================================================================== *)

(** ** Clamping *)

(** What line 243 (and 247, 251) computes from the number read. *)
Definition clamped (x : Py.float) : Py.float :=
  Py.max Terminal.f_0_0 (Py.min Terminal.f_1_0 x).

(** The clamp of the specification: the bound that [x] exceeds, else [x]. *)
Definition clamp (x lo hi : Py.float) : Py.float :=
  if Py.lt x lo then lo else if Py.lt hi x then hi else x.

Definition within (lo hi x : Py.float) : bool := Py.le lo x && Py.le x hi.

(** A stored setting that is a number in [[0, 1]]. *)
Definition unit_interval (v : option value) : bool :=
  match v with
  | Some (VFloat x) => within Terminal.f_0_0 Terminal.f_1_0 x
  | _ => false
  end.

(** The three numbers of the terminal's settings are in range, and there is
    no speed among them. *)
Definition settings_ok (s : gmap string value) : Prop :=
  unit_interval (s !! "stability") = true
  /\ unit_interval (s !! "similarity_boost") = true
  /\ unit_interval (s !! "style") = true
  /\ s !! "speed" = None.

(** ** Sample collaborators

    Concrete worlds on which the properties are instantiated. *)

Definition sample_voices : list Voice :=
  [ {| voice_id := "V1"; name := "Ann"; category := Text "premade" |};
    {| voice_id := "V2"; name := "Bob"; category := IsNone |} ].

(** The audio the sample provider returns to its k-th request. *)
Definition take_ (k : nat) : bytes := repeat Byte.x2a (S k).

(** A world with an API key on Linux, whose provider fails the [convert]
    calls selected by [tts_down], fails to list voices when [catalog_down],
    and whose player and disk work. *)
Definition studio (args : list string) (tts_down : nat -> bool)
    (catalog_down : bool) : world :=
  {| env_api_key := Some "sk-sample";
     argv := args;
     platform := "linux";
     convert := fun k _ =>
       if tts_down k then inl (ApiError "rate limit") else inr [take_ k];
     get_all := fun _ =>
       if catalog_down then inl (ApiError "network") else inr sample_voices;
     player := fun _ _ => None;
     recordings_dir := true;
     writable := fun _ => true;
     torn := fun _ => None;
     place := fun _ => Elsewhere |}.

Definition never (k : nat) : bool := false.
Definition first_only (k : nat) : bool := Nat.eqb k 0.
Definition second_only (k : nat) : bool := Nat.eqb k 1.

(** The locals with which the loop is entered for a phrase. *)
Definition entered (phrase : string) : Terminal.locals :=
  {| Terminal.phrase := phrase;
     Terminal.current_voice := "bIHbv24MWmeRgasZH58o";
     Terminal.settings := Terminal.initial_settings;
     Terminal.generation_count := 0 |}.

(** A state of the form: the sliders at their defaults but for [speed]. *)
Definition form (phrase : string) (selected : nat) (speed : Py.float)
    (generate save : bool) (save_name : string) : Reactive.widgets :=
  {| Reactive.w_stability := Reactive.value Reactive.stability_slider;
     Reactive.w_similarity := Reactive.value Reactive.similarity_slider;
     Reactive.w_style := Reactive.value Reactive.style_slider;
     Reactive.w_speed := speed;
     Reactive.w_refresh := false;
     Reactive.w_selected := selected;
     Reactive.w_phrase := phrase;
     Reactive.w_generate := generate;
     Reactive.w_regenerate := false;
     Reactive.w_save_name := save_name;
     Reactive.w_save := save |}.

(** The speed of the last request sent to the provider. *)
Definition last_speed (log : list tts_request) : option (option value) :=
  (fun rq => speed (rq_voice_settings rq)) <$> last log.

(** The settings of a running session, if it is running. *)
Definition settings_of (c : Terminal.config) : option (gmap string value) :=
  match Terminal.status_of c with
  | Terminal.Running _ l => Some (Terminal.settings l)
  | Terminal.Finished _ => None
  end.

Definition config_ok (c : Terminal.config) : Prop :=
  match settings_of c with
  | Some s => settings_ok s
  | None => True
  end.

(** The request the reactive form sends for the widgets [ws] and a voice. *)
Definition request_of (ws : Reactive.widgets) (voice_id : string) : tts_request :=
  {| rq_voice_id := voice_id;
     rq_text := Py.strip (Reactive.w_phrase ws);
     rq_model_id := "eleven_multilingual_v2";
     rq_voice_settings :=
       {| stability := VFloat (Reactive.w_stability ws);
          similarity_boost := VFloat (Reactive.w_similarity ws);
          style := VFloat (Reactive.w_style ws);
          use_speaker_boost := VBool true;
          speed := Some (VFloat (Reactive.w_speed ws)) |} |}.

(** [voice_options[selected_voice]] *)
Definition chosen_voice (voices : list Reactive.row) (ws : Reactive.widgets)
  : option string :=
  Reactive.selectbox (map fst (Reactive.voice_options voices))
    (Reactive.w_selected ws)
  ≫= fun k => Reactive.dict_get k (Reactive.voice_options voices).

(** Two server states with the same [st.session_state]. *)
Definition same_session (s s' : Reactive.server) : Prop :=
  Reactive.audio_data s = Reactive.audio_data s'
  /\ Reactive.last_phrase s = Reactive.last_phrase s'.

(** A computation that leaves [st.session_state] alone, however it ends. *)
Definition keeps {A} (c : Reactive.M A) : Prop :=
  forall s, same_session s (c s).2.

(** The voice id of the last request sent to the provider. *)
Definition last_voice (log : list tts_request) : option string :=
  rq_voice_id <$> last log.

(** The session after a first Generate click on "Hello world" with the
    voice at position [selected]. *)
Definition hello (selected : nat) : Reactive.server :=
  (Reactive.run_script (studio [] never false) 0
     (form "Hello world" selected (Reactive.value Reactive.speed_slider)
        true false "")
     (Reactive.initial ∅)).2.

(** The request [generate_audio] sends for the locals [l]. *)
Definition request_for (l : Terminal.locals) : tts_request :=
  {| rq_voice_id := Terminal.current_voice l;
     rq_text := Terminal.phrase l;
     rq_model_id := "eleven_multilingual_v2";
     rq_voice_settings :=
       {| stability :=
            Terminal.get (Terminal.settings l) "stability" (VFloat Terminal.f_0_5);
          similarity_boost :=
            Terminal.get (Terminal.settings l) "similarity_boost"
              (VFloat Terminal.f_0_75);
          style :=
            Terminal.get (Terminal.settings l) "style" (VFloat Terminal.f_0_0);
          use_speaker_boost :=
            Terminal.get (Terminal.settings l) "use_speaker_boost" (VBool true);
          speed := None |} |}.

(** The session at the head of the outer loop or at the menu. *)
Definition at_ (p : Terminal.pc) (l : Terminal.locals) (m : Terminal.machine)
  : Terminal.config :=
  {| Terminal.status_of := Terminal.Running p l; Terminal.machine_of := m |}.

(** Line 171: [generation_count += 1]. *)
Definition bumped (l : Terminal.locals) : Terminal.locals :=
  Terminal.set_generation_count (Terminal.generation_count l + 1) l.

(** The generation numbers announced so far, oldest first. *)
Definition played (out : list Terminal.line) : list Z :=
  omap (fun x => match x with Terminal.SayPlaying n => Some n | _ => None end) out.

(** A world in which synthesis, playback and the write of the working copy
    never fail. *)
Definition reliable (w : world) : Prop :=
  (forall k rq, exists chunks, convert w k rq = inr chunks)
  /\ (forall k cmd, player w k cmd = None)
  /\ writable w Terminal.audio_path = true.

(** The numbers [n+1, ..., n+k]. *)
Definition numbers_after (n : Z) (k : nat) : list Z :=
  map (fun i => n + Z.of_nat i) (seq 1 k).

(** The terminal session for the phrase "hi" and the given answers, after
    [n] steps, in a world whose provider fails the calls [tts_down]. *)
Definition session (tts_down : nat -> bool) (answers : list string) (n : nat)
  : Terminal.config :=
  let w := studio ["main.py"; "hi"] tts_down false in
  Terminal.steps w n (Terminal.start w (Terminal.boot answers ∅)).

Definition generation_of (c : Terminal.config) : option Z :=
  match Terminal.status_of c with
  | Terminal.Running _ l => Some (Terminal.generation_count l)
  | Terminal.Finished _ => None
  end.

(** The machine of the sample session that has played its first generation
    and was asked to regenerate, with the answer "y" still to be read. *)
Definition ready_machine : Terminal.machine :=
  Eval vm_compute in Terminal.machine_of (session second_only ["r"; "y"] 2).

(** The texts of the requests sent to the provider, oldest first. *)
Definition texts (log : list tts_request) : list string := map rq_text log.

(** The rows [get_voices] of app.py makes of the provider's voices. *)
Definition rows_of (vs : list Voice) : list Reactive.row :=
  map (fun v => (voice_id v, name v, category_of v)) vs.

(** The machine [m] after the lines [ls] were written. *)
Definition wrote (ls : list Terminal.line) (m : Terminal.machine) : Terminal.machine :=
  {| Terminal.stdin := Terminal.stdin m;
     Terminal.stdout := (Terminal.stdout m ++ ls)%list;
     Terminal.tts_log := Terminal.tts_log m;
     Terminal.catalog_calls := Terminal.catalog_calls m;
     Terminal.player_calls := Terminal.player_calls m;
     Terminal.temp_dir := Terminal.temp_dir m;
     Terminal.temp_file := Terminal.temp_file m;
     Terminal.temp_others := Terminal.temp_others m;
     Terminal.recordings := Terminal.recordings m |}.

(** The machine [m] after [get_all] was called and one line was read. *)
Definition listed (rest : list string) (m : Terminal.machine) : Terminal.machine :=
  {| Terminal.stdin := rest;
     Terminal.stdout := Terminal.stdout m;
     Terminal.tts_log := Terminal.tts_log m;
     Terminal.catalog_calls := S (Terminal.catalog_calls m);
     Terminal.player_calls := Terminal.player_calls m;
     Terminal.temp_dir := Terminal.temp_dir m;
     Terminal.temp_file := Terminal.temp_file m;
     Terminal.temp_others := Terminal.temp_others m;
     Terminal.recordings := Terminal.recordings m |}.

(** What [select_voice] writes before it reads the answer. *)
Definition voice_table (voices : list Voice) (current_voice : string)
  : list Terminal.line :=
  (Terminal.SayVoicesHeader false
   :: map (fun iv => Terminal.SayVoiceRow iv.1 iv.2 (category_of iv.2)
                       (String.eqb (voice_id iv.2) current_voice))
        (Terminal.enumerate1 voices)
   ++ [Terminal.SaySelectHint; Terminal.Ask Terminal.AskVoiceNumber])%list.






(** An ordinal of 4301 digits, one more than [int] accepts. *)
Definition long_ordinal : string := string_of_list_ascii (repeat "1"%char 4301).


(** [0.3] as a float. *)
Definition f_0_3 : Py.float := Py.Fin (5404319552844595 # 18014398509481984).

(** What an answer to one of the prompts of the edit command leaves under
    its key: the clamped number, or the value of before when the answer is
    not a number. *)
Definition stored (old : option value) (answer : string) : option value :=
  match Py.float_of (Py.strip answer) with
  | Some x => Some (VFloat (clamped x))
  | None => old
  end.

(** An answer the edit command accepts: blank, or one that [float] reads. *)
Definition blank_or_number (answer : string) : Prop :=
  Py.strip answer = "" \/ is_Some (Py.float_of (Py.strip answer)).

(** The four numbers of a request lie in the ranges the sliders declare. *)
Definition in_declared_ranges (vs : VoiceSettings) : bool :=
  match stability vs, similarity_boost vs, style vs, speed vs with
  | VFloat a, VFloat b, VFloat c, Some (VFloat d) =>
      Reactive.in_range Reactive.stability_slider a
      && Reactive.in_range Reactive.similarity_slider b
      && Reactive.in_range Reactive.style_slider c
      && Reactive.in_range Reactive.speed_slider d
  | _, _, _, _ => false
  end.

(** ** Vocabulary of the further properties *)

Local Close Scope Z_scope.

(** [c] relates every machine to the machine it leaves. *)
Definition frame (R : relation Terminal.machine) {A} (c : Terminal.M A) : Prop :=
  forall m, R m (c m).2.

(** The machines that agree with [m] on the observation [f]. *)
Definition same_on {X} (f : Terminal.machine -> X) : relation Terminal.machine :=
  fun m m' => f m' = f m.

(** No line was put back on standard input. *)
Definition no_more_input : relation Terminal.machine :=
  fun m m' => (List.length (Terminal.stdin m') <= List.length (Terminal.stdin m))%nat.

Definition finished (c : Terminal.config) : bool :=
  match Terminal.status_of c with
  | Terminal.Finished _ => true
  | Terminal.Running _ _ => false
  end.


(** A request as the terminal sends it: the fixed model, speaker boost on,
    no speed, and the three numbers in [[0, 1]]. *)
Definition request_ok (rq : tts_request) : bool :=
  let vs := rq_voice_settings rq in
  String.eqb (rq_model_id rq) "eleven_multilingual_v2"
  && unit_interval (Some (stability vs))
  && unit_interval (Some (similarity_boost vs))
  && unit_interval (Some (style vs))
  && match use_speaker_boost vs with VBool true => true | _ => false end
  && match speed vs with None => true | Some _ => false end.

(** The settings are in range and speaker boost is on. *)
Definition settings_full (s : gmap string value) : Prop :=
  settings_ok s /\ s !! "use_speaker_boost" = Some (VBool true).

Definition session_sound (c : Terminal.config) : Prop :=
  match settings_of c with Some s => settings_full s | None => True end
  /\ forallb request_ok (Terminal.tts_log (Terminal.machine_of c)) = true.

(** The machine [m] after one line was read. *)
Definition consumed (m : Terminal.machine) : Terminal.machine :=
  {| Terminal.stdin := tail (Terminal.stdin m);
     Terminal.stdout := Terminal.stdout m;
     Terminal.tts_log := Terminal.tts_log m;
     Terminal.catalog_calls := Terminal.catalog_calls m;
     Terminal.player_calls := Terminal.player_calls m;
     Terminal.temp_dir := Terminal.temp_dir m;
     Terminal.temp_file := Terminal.temp_file m;
     Terminal.temp_others := Terminal.temp_others m;
     Terminal.recordings := Terminal.recordings m |}.

(** The working copy and its directory are gone. *)
Definition cleaned (m : Terminal.machine) : Prop :=
  Terminal.temp_file m = None /\ Terminal.temp_dir m = false.

(** [main] returned: the outer loop was left by [break]. *)
Definition returned (c : Terminal.config) : Prop :=
  Terminal.status_of c = Terminal.Finished (Terminal.Ret tt).

(** The command [play_audio] runs on a platform, if it runs one:
    lines 32-38. *)
Definition player_command (platform : string) : option string :=
  if String.eqb platform "darwin" then Some "afplay"
  else if String.eqb platform "linux" then Some "aplay"
  else if String.eqb platform "win32" then Some "winsound"
  else None.

(** The command the menu is about to read, if it is about to read one. *)
Definition next_choice (c : Terminal.config) : option string :=
  match Terminal.status_of c, Terminal.stdin (Terminal.machine_of c) with
  | Terminal.Running Terminal.Menu _, a :: _ => Some (Py.lower (Py.strip a))
  | _, _ => None
  end.

(** The machine [m] after one more [get_all] call. *)
Definition called (m : Terminal.machine) : Terminal.machine :=
  {| Terminal.stdin := Terminal.stdin m;
     Terminal.stdout := Terminal.stdout m;
     Terminal.tts_log := Terminal.tts_log m;
     Terminal.catalog_calls := S (Terminal.catalog_calls m);
     Terminal.player_calls := Terminal.player_calls m;
     Terminal.temp_dir := Terminal.temp_dir m;
     Terminal.temp_file := Terminal.temp_file m;
     Terminal.temp_others := Terminal.temp_others m;
     Terminal.recordings := Terminal.recordings m |}.

(** Every character is in the ASCII range. *)
Definition is_ascii (s : string) : bool :=
  Py.all_chars (fun c => (Py.code c <? 128)%N) s.

(** [c] relates every server state to the state it leaves, however it ends. *)
Definition rframe (R : relation Reactive.server) {A} (c : Reactive.M A) : Prop :=
  forall s, R s (c s).2.

(** The server states that agree with [s] on the observation [f]. *)
Definition still {X} (f : Reactive.server -> X) : relation Reactive.server :=
  fun s s' => f s' = f s.

Definition row_label (r : Reactive.row) : string := Reactive.label r.1.2 r.2.
Definition row_id (r : Reactive.row) : string := r.1.1.

(** The id of the last row that carries the label [k]. *)
Definition last_with_label (k : string) (voices : list Reactive.row)
  : option string :=
  row_id <$> find (fun r => String.eqb (row_label r) k) (rev voices).

(** The working copy and whether its directory exists. *)
Definition temp_state (m : Terminal.machine) : option bytes * bool :=
  (Terminal.temp_file m, Terminal.temp_dir m).

(** Where the save command the menu is about to read leads, if it is about
    to read one with a name that is not blank. *)
Definition next_save_place (w : world) (c : Terminal.config) : option location :=
  match Terminal.status_of c, Terminal.stdin (Terminal.machine_of c) with
  | Terminal.Running Terminal.Menu _, a :: name :: _ =>
      if String.eqb (Py.lower (Py.strip a)) "s" && Py.truthy (Py.strip name)
      then Some (place w (Terminal.recording (Py.strip name)))
      else None
  | _, _ => None
  end.

(** The sample world with a player that fails. *)
Definition silent_studio : world :=
  {| env_api_key := Some "sk-sample";
     argv := ["main.py"; "hi"];
     platform := "linux";
     convert := fun k _ => inr [take_ k];
     get_all := fun _ => inr sample_voices;
     player := fun _ cmd => Some (CalledProcessError cmd);
     recordings_dir := true;
     writable := fun _ => true;
     torn := fun _ => None;
     place := fun _ => Elsewhere |}.

(** The sample world in which the temporary directory is
    [/tmp/voice_sampler_abc]: the name [/tmp/voice_sampler_abc/output] of a
    recording leads to the working copy, and [/tmp/voice_sampler_abc/take1]
    to another entry of that directory. *)
Definition nested_studio : world :=
  {| env_api_key := Some "sk-sample";
     argv := ["main.py"; "hi"];
     platform := "linux";
     convert := fun k _ => inr [take_ k];
     get_all := fun _ => inr sample_voices;
     player := fun _ _ => None;
     recordings_dir := true;
     writable := fun _ => true;
     torn := fun _ => None;
     place := fun path =>
       if String.eqb path "/tmp/voice_sampler_abc/output.mp3" then WorkingCopy
       else if String.eqb path "/tmp/voice_sampler_abc/take1.mp3"
            then TempDirectory
            else Elsewhere |}.

(** The sample session in that world that saves into the temporary
    directory, then onto the working copy, then quits. *)
Definition nested_session (n : nat) : Terminal.config :=
  Terminal.steps nested_studio n
    (Terminal.start nested_studio
       (Terminal.boot
          ["s"; "/tmp/voice_sampler_abc/take1";
           "s"; "/tmp/voice_sampler_abc/output"; "q"] ∅)).

(** Its machine once the first recording was saved. *)
Definition littered_machine : Terminal.machine :=
  Eval vm_compute in Terminal.machine_of (nested_session 2).

(** Its machine once the second recording was saved. *)
Definition emptied_machine : Terminal.machine :=
  Eval vm_compute in Terminal.machine_of (nested_session 3).

(** The sample world on a full disk: a file can be opened for writing, and
    so emptied, but no byte reaches it. *)
Definition full_disk_studio : world :=
  {| env_api_key := Some "sk-sample";
     argv := ["main.py"; "hi"];
     platform := "linux";
     convert := fun k _ => inr [take_ k];
     get_all := fun _ => inr sample_voices;
     player := fun _ _ => None;
     recordings_dir := true;
     writable := fun _ => false;
     torn := fun _ => Some 0;
     place := fun _ => Elsewhere |}.

(** The sample world without an API key. *)
Definition keyless : world :=
  {| env_api_key := None;
     argv := ["main.py"; "--list-voices"];
     platform := "linux";
     convert := fun k _ => inr [take_ k];
     get_all := fun _ => inr sample_voices;
     player := fun _ _ => None;
     recordings_dir := true;
     writable := fun _ => true;
     torn := fun _ => None;
     place := fun _ => Elsewhere |}.

(** A server whose cached voice list is empty. *)
Definition no_voices : Reactive.server :=
  {| Reactive.page := []; Reactive.voices_cache := Some (0%Z, []);
     Reactive.audio_data := None; Reactive.last_phrase := None;
     Reactive.catalog_calls := 1; Reactive.tts_log := [];
     Reactive.recordings := ∅ |}.

(** A click on Refresh Voices. *)
Definition refresh_click : Reactive.widgets :=
  {| Reactive.w_stability := Reactive.value Reactive.stability_slider;
     Reactive.w_similarity := Reactive.value Reactive.similarity_slider;
     Reactive.w_style := Reactive.value Reactive.style_slider;
     Reactive.w_speed := Reactive.value Reactive.speed_slider;
     Reactive.w_refresh := true; Reactive.w_selected := 0;
     Reactive.w_phrase := "hi"; Reactive.w_generate := false;
     Reactive.w_regenerate := false; Reactive.w_save_name := "";
     Reactive.w_save := false |}.

(** The session of [hello 0], computed. *)
Definition hello_session : Reactive.server := Eval vm_compute in hello 0.

Local Open Scope Z_scope.
Local Open Scope string_scope.

(* --------------------------------------------------------------------- *)
(** ** Facts about the terminal monad *)
(* --------------------------------------------------------------------- *)

Lemma Qltb_lt (p q : Q) : Py.Qltb p q = true <-> (p < q)%Q.
Proof. unfold Py.Qltb, Qlt. apply Z.ltb_lt. Qed.

Lemma Qltb_ge (p q : Q) : Py.Qltb p q = false <-> (q <= p)%Q.
Proof. unfold Py.Qltb, Qle. apply Z.ltb_ge. Qed.

Lemma clamped_within (x : Py.float) :
  within Terminal.f_0_0 Terminal.f_1_0 (clamped x) = true.
Proof.
  destruct x as [q| | |]; try reflexivity.
  unfold clamped, Py.min, Py.max, Terminal.f_1_0, Terminal.f_0_0.
  cbn [Py.lt].
  destruct (Py.Qltb q 1) eqn:H1; cbn [Py.lt].
  - destruct (Py.Qltb 0 q) eqn:H0.
    + unfold within, Py.le. cbn [Py.lt]. rewrite H0, H1. reflexivity.
    + reflexivity.
  - reflexivity.
Qed.

Lemma clamped_is_clamp (x : Py.float) :
  x <> Py.NaN ->
  Py.eq (clamped x) (clamp x Terminal.f_0_0 Terminal.f_1_0) = true.
Proof.
  intros Hx. destruct x as [q| | |]; try reflexivity; [|congruence].
  unfold clamped, clamp, Py.min, Py.max, Terminal.f_1_0, Terminal.f_0_0.
  cbn [Py.lt].
  destruct (Py.Qltb q 1) eqn:H1, (Py.Qltb q 0) eqn:H2, (Py.Qltb 1 q) eqn:H3;
    cbn [Py.lt]; try rewrite H1; try rewrite H2; try rewrite H3;
    try destruct (Py.Qltb 0 q) eqn:H0; cbn [Py.eq]; try reflexivity;
    try apply Qeq_bool_iff; try reflexivity;
    rewrite ?Qltb_lt, ?Qltb_ge in *;
    unfold Qlt, Qle, Qeq in *; cbn in *; lia.
Qed.

Lemma bind_Ret {A B} (c : Terminal.M A) (k : A -> Terminal.M B) m b m' :
  Terminal.bind c k m = (Terminal.Ret b, m') ->
  exists a m1, c m = (Terminal.Ret a, m1) /\ k a m1 = (Terminal.Ret b, m').
Proof.
  unfold Terminal.bind. destruct (c m) as [[a|e] m1]; [eauto | discriminate].
Qed.

Lemma ret_Ret {A} (a b : A) m m' :
  Terminal.ret a m = (Terminal.Ret b, m') -> a = b /\ m = m'.
Proof. unfold Terminal.ret. intros H. by inversion H. Qed.

Lemma raise_Ret {A} e (b : A) m m' :
  Terminal.raise e m = (Terminal.Ret b, m') -> False.
Proof. discriminate. Qed.

Lemma of_option_Ret {A} (o : option A) e b m m' :
  Terminal.of_option o e m = (Terminal.Ret b, m') -> o = Some b /\ m = m'.
Proof. destruct o; cbn; intros H; inversion H; auto. Qed.


(** Inversion of a computation that returned. *)
Ltac bind_inv :=
  repeat match goal with
  | H : Terminal.bind _ _ _ = (Terminal.Ret _, _) |- _ =>
      let a := fresh "a" in let m := fresh "m" in let E := fresh "E" in
      apply bind_Ret in H; destruct H as (a & m & E & H)
  | H : Terminal.ret _ _ = (Terminal.Ret _, _) |- _ =>
      apply ret_Ret in H; destruct H; subst
  | H : Terminal.raise _ _ = (Terminal.Ret _, _) |- _ =>
      exfalso; exact (raise_Ret _ _ _ _ H)
  | H : Terminal.sys_exit _ _ = (Terminal.Ret _, _) |- _ =>
      exfalso; exact (raise_Ret _ _ _ _ H)
  | H : Terminal.of_option _ _ _ = (Terminal.Ret _, _) |- _ =>
      apply of_option_Ret in H; destruct H; subst
  | H : (if ?b then _ else _) _ = (Terminal.Ret _, _) |- _ => destruct b eqn:?
  | H : Terminal.when ?b _ _ = (Terminal.Ret _, _) |- _ =>
      destruct b eqn:?; cbn [Terminal.when] in H
  | H : (_, _) = (_, _) |- _ => inversion H; subst; clear H
  end.

Lemma float_of_truthy s x : Py.float_of s = Some x -> Py.truthy s = true.
Proof. destruct s; [|reflexivity]. cbn. discriminate. Qed.

Lemma unit_interval_Some v :
  unit_interval v = true -> exists x, v = Some (VFloat x).
Proof. destruct v as [[x|b]|]; cbn; try discriminate; eauto. Qed.

(** *** The settings stay in range *)

Lemma initial_settings_ok : settings_ok Terminal.initial_settings.
Proof. repeat split. Qed.

Lemma insert_settings_ok key x s :
  key = "stability" \/ key = "similarity_boost" \/ key = "style" ->
  settings_ok s -> settings_ok (<[key := VFloat (clamped x)]> s).
Proof.
  intros Hk (H1 & H2 & H3 & H4). unfold settings_ok.
  destruct Hk as [-> | [-> | ->]]; repeat split;
    rewrite ?lookup_insert_eq, ?lookup_insert_ne by discriminate;
    cbn [unit_interval]; auto using clamped_within.
Qed.

Lemma edit_setting_ok key ask s m s' m' :
  key = "stability" \/ key = "similarity_boost" \/ key = "style" ->
  settings_ok s ->
  Terminal.edit_setting key ask s m = (Terminal.Ret s', m') ->
  settings_ok s'.
Proof.
  intros Hk Hs H. unfold Terminal.edit_setting in H. bind_inv; [|assumption].
  by apply (insert_settings_ok key).
Qed.

Lemma menu_settings_ok w l m n l' m' :
  settings_ok (Terminal.settings l) ->
  Terminal.menu w l m = (Terminal.Ret (n, l'), m') ->
  settings_ok (Terminal.settings l').
Proof.
  intros Hs H. unfold Terminal.menu in H. bind_inv; cbn; auto.
  do 3 (eapply edit_setting_ok; [| |eassumption]; [tauto|]). done.
Qed.

Lemma attempt_locals w l m n l' m' :
  Terminal.attempt w l m = (Terminal.Ret (n, l'), m') ->
  l' = Terminal.set_generation_count (Terminal.generation_count l + 1) l.
Proof.
  intros H. unfold Terminal.attempt in H. bind_inv.
  destruct a; bind_inv; reflexivity.
Qed.

Lemma after_ok r :
  (forall n l m, r = (Terminal.Ret (n, l), m) -> settings_ok (Terminal.settings l)) ->
  config_ok (Terminal.after r).
Proof.
  intros H. destruct r as [[[[| |] l]|e] m]; cbn; try exact I;
    eapply H; reflexivity.
Qed.

Lemma step_ok w c : config_ok c -> config_ok (Terminal.step w c).
Proof.
  unfold Terminal.step. destruct c as [[[|] l|r] m]; cbn; intros Hc.
  - apply after_ok. intros n l' m' H.
    apply attempt_locals in H. subst l'. exact Hc.
  - apply after_ok. intros n l' m' H. eapply menu_settings_ok; eauto.
  - exact I.
Qed.

Lemma start_ok w m : config_ok (Terminal.start w m).
Proof.
  unfold Terminal.start.
  destruct (Terminal.prologue w m) as [[l|e] m'] eqn:H; [|exact I].
  unfold Terminal.prologue in H. bind_inv; apply initial_settings_ok.
Qed.

Lemma steps_ok w n : forall c, config_ok c -> config_ok (Terminal.steps w n c).
Proof.
  induction n as [|n IH]; intros c Hc; cbn; [exact Hc|].
  apply IH, step_ok, Hc.
Qed.

(* --------------------------------------------------------------------- *)
(** ** Facts about the reactive script *)
(* --------------------------------------------------------------------- *)

Lemma same_session_refl s : same_session s s.
Proof. by split. Qed.

Lemma same_session_trans s1 s2 s3 :
  same_session s1 s2 -> same_session s2 s3 -> same_session s1 s3.
Proof. intros [? ?] [? ?]. split; congruence. Qed.

Lemma keeps_bind {A B} (c : Reactive.M A) (k : A -> Reactive.M B) :
  keeps c -> (forall a, keeps (k a)) -> keeps (Reactive.bind c k).
Proof.
  intros Hc Hk s. unfold Reactive.bind.
  specialize (Hc s). destruct (c s) as [[a|x] s1]; cbn in *; [|exact Hc].
  eapply same_session_trans; [exact Hc | apply Hk].
Qed.

Lemma keeps_ret {A} (a : A) : keeps (Reactive.ret a).
Proof. intros s. apply same_session_refl. Qed.

Lemma keeps_finish {A} x : keeps (@Reactive.finish A x).
Proof. intros s. apply same_session_refl. Qed.

Lemma keeps_show x : keeps (Reactive.show x).
Proof. intros s. by split. Qed.

Lemma keeps_set_voices_cache c : keeps (Reactive.set_voices_cache c).
Proof. intros s. by split. Qed.

Lemma keeps_get_server : keeps Reactive.get_server.
Proof. intros s. apply same_session_refl. Qed.

Lemma keeps_when b c : keeps c -> keeps (Reactive.when b c).
Proof. destruct b; cbn; auto using keeps_ret. Qed.

Lemma keeps_fetch_voices w : keeps (Reactive.fetch_voices w).
Proof.
  intros s. unfold Reactive.fetch_voices.
  destruct (get_all w _); by split.
Qed.

Lemma keeps_get_client w : keeps (Reactive.get_client w).
Proof.
  unfold Reactive.get_client. destruct (env_api_key w) as [k|];
    [destruct (Py.truthy k)|];
    auto using keeps_ret, keeps_bind, keeps_show, keeps_finish.
Qed.

Lemma keeps_get_voices w now : keeps (Reactive.get_voices w now).
Proof.
  unfold Reactive.get_voices. apply keeps_bind; [apply keeps_get_server|].
  intros s. destruct (Reactive.voices_cache s) as [[t vs]|];
    [destruct (Reactive.fresh now t)|];
    auto 6 using keeps_ret, keeps_bind, keeps_fetch_voices,
      keeps_set_voices_cache.
Qed.

Lemma keeps_save_recording w data f : keeps (Reactive.save_recording w data f).
Proof.
  intros s. unfold Reactive.save_recording, Reactive.bind,
    Reactive.mkdir_recordings, Reactive.write_bytes.
  destruct (recordings_dir w); [|by split].
  destruct (writable w _); [|destruct (torn w _)]; by split.
Qed.

(** A run without a click on Generate or Regenerate leaves the session
    state as it was, whatever the widgets hold. *)
Lemma script_keeps w now ws :
  Reactive.w_generate ws = false -> Reactive.w_regenerate ws = false ->
  keeps (Reactive.script w now ws).
Proof.
  intros Hg Hr. unfold Reactive.script. rewrite Hg, Hr. cbn [orb Reactive.when].
  apply keeps_bind; [apply keeps_get_client|]. intros _.
  apply keeps_bind; [apply keeps_get_voices|]. intros voices.
  apply keeps_bind.
  { apply keeps_when, keeps_bind; [apply keeps_set_voices_cache|].
    intros _. apply keeps_finish. }
  intros _. apply keeps_bind; [apply keeps_ret|]. intros _.
  apply keeps_bind; [apply keeps_get_server|]. intros s.
  destruct (Reactive.audio_data s); [|apply keeps_ret].
  apply keeps_bind; [apply keeps_show|]. intros _.
  apply keeps_bind; [|intros _; apply keeps_show].
  apply keeps_when. destruct (Py.truthy _); [|apply keeps_show].
  apply keeps_bind; [apply keeps_save_recording|]. intros p. apply keeps_show.
Qed.

Lemma run_script_keeps w now ws s :
  Reactive.w_generate ws = false -> Reactive.w_regenerate ws = false ->
  same_session s (Reactive.run_script w now ws s).2.
Proof.
  intros Hg Hr. unfold Reactive.run_script.
  pose proof (script_keeps w now ws Hg Hr (Reactive.clear_page s)) as H.
  destruct (Reactive.script w now ws (Reactive.clear_page s)) as [[a|x] s'];
    exact H.
Qed.

(** A click on Generate with a non-blank phrase and a voice: the request is
    sent; on success the bytes and the trimmed phrase are put in the session
    state, on failure the session state stays and the error is shown. *)
Lemma generate_records w now ws s key voices s1 voice_id :
  env_api_key w = Some key -> Py.truthy key = true ->
  Reactive.get_voices w now (Reactive.clear_page s) = (Reactive.Ret voices, s1) ->
  Reactive.w_refresh ws = false ->
  Reactive.w_generate ws || Reactive.w_regenerate ws = true ->
  Reactive.w_save ws = false ->
  Py.truthy (Py.strip (Reactive.w_phrase ws)) = true ->
  chosen_voice voices ws = Some voice_id ->
  let s' := (Reactive.run_script w now ws s).2 in
  Reactive.tts_log s' = (Reactive.tts_log s1 ++ [request_of ws voice_id])%list
  /\ match convert w (List.length (Reactive.tts_log s1))
             (request_of ws voice_id) with
     | inr chunks =>
         Reactive.audio_data s' = Some (join_bytes chunks)
         /\ Reactive.last_phrase s' = Some (Py.strip (Reactive.w_phrase ws))
     | inl e =>
         is_Exception e = true ->
         Reactive.audio_data s' = Reactive.audio_data s
         /\ Reactive.last_phrase s' = Reactive.last_phrase s
         /\ Reactive.ErrorGenerating e ∈ Reactive.page s'
     end.
Proof.
  intros Hk Ht Hv Hr Hg Hs Hp Hc s'.
  pose proof (keeps_get_voices w now (Reactive.clear_page s)) as [Ka Kl].
  rewrite Hv in Ka, Kl. cbn in Ka, Kl.
  assert (Hc' := Hc). unfold chosen_voice in Hc'.
  subst s'. unfold Reactive.run_script, Reactive.script, Reactive.bind,
    Reactive.get_client.
  rewrite Hk, Ht. cbn [Reactive.ret]. rewrite Hv.
  rewrite Hr, Hg, Hs, Hp, Hc'.
  cbn [Reactive.when Reactive.ret Reactive.of_option negb].
  unfold Reactive.try_except, Reactive.generate_audio.
  fold (request_of ws voice_id).
  destruct (convert w _ _) as [e|chunks].
  - destruct (is_Exception e) eqn:He; cbn;
      destruct (Reactive.audio_data s1) eqn:Ha; cbn;
      (split; [reflexivity|]); try discriminate;
      intros _; rewrite Ka, Kl; repeat split; auto; set_solver.
  - cbn. repeat split.
Qed.

(* --------------------------------------------------------------------- *)
(** ** C2: what is recorded with the audio *)
(* --------------------------------------------------------------------- *)

(** C2, as amended.  A successful generation in the reactive form sends the
    trimmed phrase, the chosen voice and the slider values to the provider
    and records, with the bytes returned, the trimmed phrase only; runs
    without a click on Generate or Regenerate leave both as they are,
    whatever the widgets hold by then. *)
Theorem C2_phrase_is_recorded (w : world) (now : Z) (ws : Reactive.widgets)
    (s s1 : Reactive.server) (key : string) (voices : list Reactive.row)
    (voice_id : string) (chunks : list bytes) :
  env_api_key w = Some key -> Py.truthy key = true ->
  Reactive.get_voices w now (Reactive.clear_page s) = (Reactive.Ret voices, s1) ->
  Reactive.w_refresh ws = false ->
  Reactive.w_generate ws || Reactive.w_regenerate ws = true ->
  Reactive.w_save ws = false ->
  Py.truthy (Py.strip (Reactive.w_phrase ws)) = true ->
  chosen_voice voices ws = Some voice_id ->
  convert w (List.length (Reactive.tts_log s1)) (request_of ws voice_id)
  = inr chunks ->
  let s' := (Reactive.run_script w now ws s).2 in
  Reactive.tts_log s' = (Reactive.tts_log s1 ++ [request_of ws voice_id])%list
  /\ Reactive.audio_data s' = Some (join_bytes chunks)
  /\ Reactive.last_phrase s' = Some (Py.strip (Reactive.w_phrase ws))
  /\ (forall now' ws',
        Reactive.w_generate ws' = false -> Reactive.w_regenerate ws' = false ->
        same_session s' (Reactive.run_script w now' ws' s').2).
Proof.
  intros Hk Ht Hv Hr Hg Hs Hp Hc Hok s'.
  destruct (generate_records w now ws s key voices s1 voice_id) as [Hl H];
    auto.
  rewrite Hok in H. destruct H as [Ha Hp'].
  repeat split; auto; apply run_script_keeps; auto.
Qed.

Lemma C2_phrase_is_recorded_witness :
  Reactive.audio_data (hello 0) = Some (take_ 0)
  /\ Reactive.last_phrase (hello 0) = Some "Hello world".
Proof.
  edestruct (C2_phrase_is_recorded (studio [] never false) 0
               (form "Hello world" 0 (Reactive.value Reactive.speed_slider)
                  true false "")
               (Reactive.initial ∅)) as (_ & Ha & Hp & _);
    [reflexivity | reflexivity | reflexivity | reflexivity | reflexivity
    | reflexivity | reflexivity | reflexivity | reflexivity |].
  split; [exact Ha | exact Hp].
Defined.

(** C2 as stated fails: no snapshot of the voice is kept with the artifact.
    Generating "Hello world" with the first and with the second voice leaves
    the same bytes and the same recorded phrase in the session, so nothing
    computed from what the session holds tells the voice that was requested. *)
Lemma C2_no_snapshot_of_the_voice :
  ~ exists snapshot : option bytes -> option string -> option string,
      forall selected : nat,
        snapshot (Reactive.audio_data (hello selected))
                 (Reactive.last_phrase (hello selected))
        = last_voice (Reactive.tts_log (hello selected)).
Proof.
  intros [snapshot H].
  pose proof (H 0%nat) as H0. pose proof (H 1%nat) as H1.
  vm_compute in H0, H1. congruence.
Qed.

(* --------------------------------------------------------------------- *)
(** ** Facts about the steps of the terminal loop *)
(* --------------------------------------------------------------------- *)

Lemma failed_attempt w l m e answer rest :
  convert w (List.length (Terminal.tts_log m)) (request_for l) = inl e ->
  is_Exception e = true ->
  Terminal.stdin m = answer :: rest ->
  exists m',
    Terminal.attempt w l m
    = (Terminal.Ret (if String.eqb (Py.lower (Py.strip answer)) "y"
                     then Terminal.Again else Terminal.Leave, bumped l), m')
    /\ Terminal.temp_file m' = Terminal.temp_file m
    /\ Terminal.tts_log m' = (Terminal.tts_log m ++ [request_for l])%list
    /\ Terminal.stdin m' = rest
    /\ played (Terminal.stdout m') = played (Terminal.stdout m).
Proof.
  intros Hc He Hin.
  unfold Terminal.attempt, Terminal.bind, Terminal.try_except,
    Terminal.generate_audio, Terminal.bind, Terminal.print,
    Terminal.text_to_speech_convert.
  cbn. fold (request_for l). rewrite Hc, He.
  unfold Terminal.input, Terminal.bind, Terminal.print, Terminal.read_line.
  cbn. rewrite Hin.
  destruct (String.eqb _ "y"); cbn; eexists; repeat split;
    try reflexivity; unfold played; cbn; rewrite ?omap_app; cbn; by rewrite ?app_nil_r.
Qed.

Lemma failed_attempt_others w l m e answer rest :
  convert w (List.length (Terminal.tts_log m)) (request_for l) = inl e ->
  is_Exception e = true ->
  Terminal.stdin m = answer :: rest ->
  Terminal.temp_others (Terminal.attempt w l m).2 = Terminal.temp_others m.
Proof.
  intros Hc He Hin.
  unfold Terminal.attempt, Terminal.bind, Terminal.try_except,
    Terminal.generate_audio, Terminal.bind, Terminal.print,
    Terminal.text_to_speech_convert.
  cbn. fold (request_for l). rewrite Hc, He.
  unfold Terminal.input, Terminal.bind, Terminal.print, Terminal.read_line.
  cbn. rewrite Hin.
  destruct (String.eqb _ "y"); reflexivity.
Qed.

(** Leaving the outer loop: lines 269-271. *)
Lemma after_Leave l m :
  Terminal.after (Terminal.Ret (Terminal.Leave, l), m)
  = {| Terminal.status_of :=
         Terminal.Finished
           (if bool_decide (Terminal.temp_others m = ∅) then Terminal.Ret tt
            else Terminal.Raise (OSError Terminal.temp_path));
       Terminal.machine_of := (Terminal.cleanup m).2 |}.
Proof.
  unfold Terminal.after, Terminal.cleanup, Terminal.bind, Terminal.unlink_temp,
    Terminal.rmdir_temp.
  cbn. destruct (bool_decide _); reflexivity.
Qed.

Lemma cleanup_unlinks m : Terminal.temp_file (Terminal.cleanup m).2 = None.
Proof.
  unfold Terminal.cleanup, Terminal.bind, Terminal.unlink_temp,
    Terminal.rmdir_temp.
  cbn. destruct (bool_decide _); reflexivity.
Qed.

Lemma successful_attempt w l m :
  reliable w ->
  exists m',
    Terminal.attempt w l m = (Terminal.Ret (Terminal.Stay, bumped l), m')
    /\ Terminal.stdin m' = Terminal.stdin m
    /\ Terminal.tts_log m' = (Terminal.tts_log m ++ [request_for l])%list
    /\ (exists chunks, convert w (List.length (Terminal.tts_log m)) (request_for l) = inr chunks
        /\ Terminal.temp_file m' = Some (join_bytes chunks))
    /\ played (Terminal.stdout m')
       = (played (Terminal.stdout m) ++ [Terminal.generation_count l + 1])%list.
Proof.
  intros (Hc & Hp & Hw).
  destruct (Hc (List.length (Terminal.tts_log m)) (request_for l)) as [chunks Hk].
  unfold Terminal.attempt, Terminal.bind, Terminal.try_except,
    Terminal.generate_audio, Terminal.bind, Terminal.print,
    Terminal.text_to_speech_convert, Terminal.write_temp, Terminal.bind,
    Terminal.open_wb, Terminal.write, Terminal.play_audio, Terminal.run_player.
  cbn. fold (request_for l). rewrite Hk, Hw. cbn.
  destruct (String.eqb (platform w) "darwin"); [|destruct (String.eqb (platform w) "linux"); [|destruct (String.eqb (platform w) "win32")]];
    cbn; rewrite ?Hp; cbn; eexists; repeat split; eauto;
    try reflexivity; unfold played; cbn; rewrite ?omap_app; cbn; by rewrite ?app_nil_r.
Qed.

Lemma regenerate_command w l m a rest :
  Terminal.stdin m = a :: rest -> Py.lower (Py.strip a) = "r" ->
  exists m',
    Terminal.menu w l m = (Terminal.Ret (Terminal.Again, l), m')
    /\ Terminal.stdin m' = rest
    /\ Terminal.tts_log m' = Terminal.tts_log m
    /\ Terminal.temp_file m' = Terminal.temp_file m
    /\ played (Terminal.stdout m') = played (Terminal.stdout m).
Proof.
  intros Hin Ha.
  unfold Terminal.menu, Terminal.bind, Terminal.input, Terminal.bind,
    Terminal.print, Terminal.read_line.
  cbn. rewrite Hin. cbn. rewrite Ha. cbn.
  eexists; repeat split; unfold played; cbn; rewrite ?omap_app; cbn;
    by rewrite ?app_nil_r.
Qed.

Lemma new_phrase_command w l m a text rest :
  Terminal.stdin m = a :: text :: rest -> Py.lower (Py.strip a) = "n" ->
  exists m',
    Terminal.menu w l m
    = (if Py.truthy (Py.strip text)
       then Terminal.Ret (Terminal.Again,
              Terminal.set_generation_count 0 (Terminal.set_phrase (Py.strip text) l))
       else Terminal.Ret (Terminal.Stay, Terminal.set_phrase (Py.strip text) l), m')
    /\ Terminal.stdin m' = rest
    /\ Terminal.tts_log m' = Terminal.tts_log m
    /\ Terminal.temp_file m' = Terminal.temp_file m.
Proof.
  intros Hin Ha.
  unfold Terminal.menu, Terminal.bind, Terminal.input, Terminal.bind,
    Terminal.print, Terminal.read_line.
  cbn. rewrite Hin. cbn. rewrite Ha. cbn.
  destruct (Py.truthy (Py.strip text)); cbn; eexists; repeat split.
Qed.

Lemma bumped_bumped' n k l :
  Terminal.set_generation_count n (Terminal.set_generation_count k l)
  = Terminal.set_generation_count n l.
Proof. reflexivity. Qed.

Lemma numbers_after_S n k :
  numbers_after n (S k) = (n + 1) :: numbers_after (n + 1) k.
Proof.
  unfold numbers_after. cbn [seq map]. f_equal.
  rewrite <- seq_shift, map_map. apply map_ext. intros i. lia.
Qed.

Lemma step_head w l m :
  Terminal.step w (at_ Terminal.LoopHead l m)
  = Terminal.after (Terminal.attempt w l m).
Proof. reflexivity. Qed.

Lemma step_menu w l m :
  Terminal.step w (at_ Terminal.Menu l m)
  = Terminal.after (Terminal.menu w l m).
Proof. reflexivity. Qed.

Lemma after_Again l m :
  Terminal.after (Terminal.Ret (Terminal.Again, l), m)
  = at_ Terminal.LoopHead l m.
Proof. reflexivity. Qed.

Lemma after_Stay l m :
  Terminal.after (Terminal.Ret (Terminal.Stay, l), m) = at_ Terminal.Menu l m.
Proof. reflexivity. Qed.

Lemma regenerations w :
  reliable w ->
  forall (rs : list string) (l : Terminal.locals) (m : Terminal.machine)
         (rest : list string),
    Forall (fun a => Py.lower (Py.strip a) = "r") rs ->
    Terminal.stdin m = (rs ++ rest)%list ->
    exists m',
      Terminal.steps w (2 * List.length rs + 1) (at_ Terminal.LoopHead l m)
      = at_ Terminal.Menu
          (Terminal.set_generation_count
             (Terminal.generation_count l + Z.of_nat (List.length rs) + 1) l) m'
      /\ Terminal.stdin m' = rest
      /\ played (Terminal.stdout m')
         = (played (Terminal.stdout m)
            ++ numbers_after (Terminal.generation_count l) (S (List.length rs)))%list.
Proof.
  intros Hw rs. induction rs as [|a rs IH]; intros l m rest Hrs Hin.
  - destruct (successful_attempt w l m Hw) as (m' & E & Hs & _ & _ & Hp).
    exists m'. cbn [List.length Nat.mul Nat.add Terminal.steps].
    rewrite step_head, E, after_Stay.
    repeat split; [| rewrite Hs, Hin; reflexivity | rewrite Hp; reflexivity].
    unfold at_, bumped. do 3 f_equal. cbn. lia.
  - inversion Hrs as [|? ? Ha Hrs']; subst.
    destruct (successful_attempt w l m Hw) as (m1 & E1 & Hs1 & _ & _ & Hp1).
    destruct (regenerate_command w (bumped l) m1 a (rs ++ rest)%list)
      as (m2 & E2 & Hs2 & _ & _ & Hp2);
      [rewrite Hs1, Hin; reflexivity | assumption |].
    destruct (IH (bumped l) m2 rest Hrs' Hs2) as (m3 & E3 & Hs3 & Hp3).
    exists m3.
    replace (2 * List.length (a :: rs) + 1)%nat
      with (S (S (2 * List.length rs + 1))) by (cbn [List.length]; lia).
    cbn [Terminal.steps].
    rewrite step_head, E1, after_Stay, step_menu, E2, after_Again, E3.
    repeat split; [| assumption |].
    + unfold at_, bumped. cbn [List.length Terminal.generation_count
        Terminal.set_generation_count]. rewrite bumped_bumped'. do 3 f_equal. lia.
    + rewrite Hp3, Hp2, Hp1. rewrite (numbers_after_S _ (S (List.length rs))).
      cbn [bumped Terminal.set_generation_count Terminal.generation_count].
      rewrite <- app_assoc. reflexivity.
Qed.

Lemma ready_machine_reached :
  session second_only ["r"; "y"] 2
  = at_ Terminal.LoopHead (bumped (entered "hi")) ready_machine.
Proof. vm_compute. reflexivity. Qed.

Lemma new_phrase_played w l m a text rest m' r :
  Terminal.stdin m = a :: text :: rest -> Py.lower (Py.strip a) = "n" ->
  Terminal.menu w l m = (r, m') ->
  played (Terminal.stdout m') = played (Terminal.stdout m).
Proof.
  intros Hin Ha.
  unfold Terminal.menu, Terminal.bind, Terminal.input, Terminal.bind,
    Terminal.print, Terminal.read_line.
  cbn. rewrite Hin. cbn. rewrite Ha. cbn.
  destruct (Py.truthy (Py.strip text)); cbn; intros H; inversion H; subst;
    unfold played; cbn; rewrite ?omap_app; cbn; by rewrite ?app_nil_r.
Qed.

(* --------------------------------------------------------------------- *)
(** ** C3: a failed synthesis attempt *)
(* --------------------------------------------------------------------- *)

(** C3, as amended.  A synthesis attempt that fails does not itself touch
    the current artifact.  In the terminal the request is sent, the
    generation counter stays incremented and the user is asked whether to
    try again: on "y" the session is back at the head of the loop with the
    working copy as it was, on any other answer the session ends and the
    working copy is deleted ([main] returns, unless a recording was saved
    into the temporary directory: then removing the directory raises); the
    menu is not reached.  In the reactive form
    the bytes and the phrase in the session state stay as they were and the
    error is shown. *)
Theorem C3_failed_attempt (w : world) (l : Terminal.locals)
    (m : Terminal.machine) (e : exn) (answer : string) (rest : list string) :
  convert w (List.length (Terminal.tts_log m)) (request_for l) = inl e ->
  is_Exception e = true ->
  Terminal.stdin m = answer :: rest ->
  let c' := Terminal.step w (at_ Terminal.LoopHead l m) in
  Terminal.tts_log (Terminal.machine_of c')
  = (Terminal.tts_log m ++ [request_for l])%list
  /\ (if String.eqb (Py.lower (Py.strip answer)) "y"
      then Terminal.status_of c' = Terminal.Running Terminal.LoopHead (bumped l)
           /\ Terminal.temp_file (Terminal.machine_of c') = Terminal.temp_file m
      else Terminal.status_of c'
           = Terminal.Finished
               (if bool_decide (Terminal.temp_others m = ∅) then Terminal.Ret tt
                else Terminal.Raise (OSError Terminal.temp_path))
           /\ Terminal.temp_file (Terminal.machine_of c') = None)
  /\ (forall now ws s s1 key voices voice_id e',
        env_api_key w = Some key -> Py.truthy key = true ->
        Reactive.get_voices w now (Reactive.clear_page s)
        = (Reactive.Ret voices, s1) ->
        Reactive.w_refresh ws = false ->
        Reactive.w_generate ws || Reactive.w_regenerate ws = true ->
        Reactive.w_save ws = false ->
        Py.truthy (Py.strip (Reactive.w_phrase ws)) = true ->
        chosen_voice voices ws = Some voice_id ->
        convert w (List.length (Reactive.tts_log s1)) (request_of ws voice_id)
        = inl e' ->
        is_Exception e' = true ->
        let s' := (Reactive.run_script w now ws s).2 in
        Reactive.audio_data s' = Reactive.audio_data s
        /\ Reactive.last_phrase s' = Reactive.last_phrase s
        /\ Reactive.ErrorGenerating e' ∈ Reactive.page s').
Proof.
  intros Hc He Hin c'.
  destruct (failed_attempt w l m e answer rest Hc He Hin)
    as (m' & E & Ht & Hl & _ & _).
  pose proof (failed_attempt_others w l m e answer rest Hc He Hin) as Ho.
  subst c'. rewrite step_head, E. rewrite E in Ho. cbn in Ho.
  split; [|split].
  - destruct (String.eqb _ "y"); [exact Hl|].
    rewrite after_Leave. cbn [Terminal.machine_of].
    unfold Terminal.cleanup, Terminal.bind, Terminal.unlink_temp,
      Terminal.rmdir_temp.
    cbn. destruct (bool_decide _); exact Hl.
  - destruct (String.eqb _ "y"); [cbn; auto|].
    rewrite after_Leave, Ho. cbn [Terminal.status_of Terminal.machine_of].
    split; [reflexivity | apply cleanup_unlinks].
  - intros t ws s s1 key voices voice_id e' Hk Hty Hv Hr Hg Hs Hp Hcv Hf He'.
    destruct (generate_records w t ws s key voices s1 voice_id) as [_ H];
      auto.
    rewrite Hf in H. auto.
Qed.


Lemma C3_failed_attempt_witness :
  Terminal.temp_file ready_machine = Some (take_ 0)
  /\ Terminal.temp_file
       (Terminal.machine_of
          (Terminal.step (studio ["main.py"; "hi"] second_only false)
             (at_ Terminal.LoopHead (bumped (entered "hi")) ready_machine)))
     = Terminal.temp_file ready_machine.
Proof.
  split; [reflexivity|].
  pose proof (C3_failed_attempt (studio ["main.py"; "hi"] second_only false)
                (bumped (entered "hi")) ready_machine
                (ApiError "rate limit") "y" []) as H.
  destruct H as (_ & H & _); [reflexivity | reflexivity | reflexivity |].
  exact (proj2 H).
Defined.

(** C3 as stated fails in the terminal: from the menu with the first
    generation as current artifact, a regeneration that fails and is not
    retried ends the session and deletes the working copy; one that is
    retried is at the head of the loop with the counter at 2, not back at the
    menu with the counter at 1. *)
Lemma C3_failed_regeneration_does_not_return :
  (let ready := session second_only ["r"; "n"] 1 in
   let closed := session second_only ["r"; "n"] 3 in
   Terminal.status_of ready = Terminal.Running Terminal.Menu (bumped (entered "hi"))
   /\ Terminal.temp_file (Terminal.machine_of ready) = Some (take_ 0)
   /\ Terminal.status_of closed = Terminal.Finished (Terminal.Ret tt)
   /\ Terminal.temp_file (Terminal.machine_of closed) = None)
  /\ (let retried := session second_only ["r"; "y"] 3 in
      Terminal.status_of retried
      = Terminal.Running Terminal.LoopHead (bumped (bumped (entered "hi")))).
Proof. vm_compute. repeat split. Qed.

(* --------------------------------------------------------------------- *)
(** ** C4: the generation counter *)
(* --------------------------------------------------------------------- *)

(** C4, as amended.  The counter numbers the synthesis attempts of a phrase.
    A new non-blank phrase sets it to 0, so that, when no attempt fails, the
    generation of the new phrase and the [k] regenerations that follow are
    announced as 1, 2, ..., k+1 and the counter ends at k+1.  An attempt that
    fails and is retried announces nothing and leaves the counter
    incremented. *)
Theorem C4_counter_counts_attempts (w : world) (l : Terminal.locals)
    (m : Terminal.machine) :
  (forall (a text : string) (rs rest : list string),
      reliable w ->
      Py.lower (Py.strip a) = "n" ->
      Py.truthy (Py.strip text) = true ->
      Forall (fun r => Py.lower (Py.strip r) = "r") rs ->
      Terminal.stdin m = a :: text :: (rs ++ rest)%list ->
      exists m',
        Terminal.steps w (2 * List.length rs + 2) (at_ Terminal.Menu l m)
        = at_ Terminal.Menu
            (Terminal.set_generation_count (Z.of_nat (List.length rs) + 1)
               (Terminal.set_phrase (Py.strip text) l)) m'
        /\ played (Terminal.stdout m')
           = (played (Terminal.stdout m)
              ++ numbers_after 0 (S (List.length rs)))%list)
  /\ (forall (e : exn) (answer : string) (rest : list string),
        convert w (List.length (Terminal.tts_log m)) (request_for l) = inl e ->
        is_Exception e = true ->
        Terminal.stdin m = answer :: rest ->
        Py.lower (Py.strip answer) = "y" ->
        exists m',
          Terminal.step w (at_ Terminal.LoopHead l m)
          = at_ Terminal.LoopHead (bumped l) m'
          /\ played (Terminal.stdout m') = played (Terminal.stdout m)).
Proof.
  split.
  - intros a text rs rest Hw Ha Ht Hrs Hin.
    destruct (new_phrase_command w l m a text (rs ++ rest)%list Hin Ha)
      as (m1 & E1 & Hs1 & _ & _).
    pose proof (new_phrase_played w l m a text (rs ++ rest)%list m1 _ Hin Ha E1)
      as Hp1.
    destruct (regenerations w Hw rs
                (Terminal.set_generation_count 0
                   (Terminal.set_phrase (Py.strip text) l)) m1 rest Hrs Hs1)
      as (m2 & E2 & _ & Hp2).
    exists m2.
    replace (2 * List.length rs + 2)%nat with (S (2 * List.length rs + 1)) by lia.
    rewrite Ht in E1.
    cbn [Terminal.steps]. rewrite step_menu, E1, after_Again, E2.
    split; [|rewrite Hp2, Hp1; reflexivity].
    reflexivity.
  - intros e answer rest Hc He Hin Hy.
    destruct (failed_attempt w l m e answer rest Hc He Hin)
      as (m' & E & _ & _ & _ & Hp).
    exists m'. rewrite step_head, E, Hy. split; [reflexivity | exact Hp].
Qed.

Lemma studio_reliable args : reliable (studio args never false).
Proof.
  repeat split; intros; try reflexivity. eexists. reflexivity.
Qed.

Lemma C4_counter_counts_attempts_witness :
  exists m',
    Terminal.steps (studio ["main.py"; "hi"] never false) 6
      (at_ Terminal.Menu (bumped (entered "hi"))
         (Terminal.boot ["n"; " bye "; "r"; "R"] ∅))
    = at_ Terminal.Menu
        (Terminal.set_generation_count 3
           (Terminal.set_phrase "bye" (bumped (entered "hi")))) m'
    /\ played (Terminal.stdout m') = [1; 2; 3].
Proof.
  apply (proj1 (C4_counter_counts_attempts
                  (studio ["main.py"; "hi"] never false)
                  (bumped (entered "hi"))
                  (Terminal.boot ["n"; " bye "; "r"; "R"] ∅))
           "n" " bye " ["r"; "R"] []);
    [apply studio_reliable | reflexivity | reflexivity
    | repeat constructor | reflexivity].
Defined.

(** C4 as stated fails: after the new phrase "bye" the first attempt fails
    and is retried, and the first generation of "bye" that succeeds is
    announced as number 2. *)
Lemma C4_first_success_is_numbered_two :
  let c := session second_only ["n"; "bye"; "y"] 4 in
  map rq_text (Terminal.tts_log (Terminal.machine_of c)) = ["hi"; "bye"; "bye"]
  /\ played (Terminal.stdout (Terminal.machine_of c)) = [1; 2]
  /\ generation_of c = Some 2.
Proof. vm_compute. repeat split. Qed.

(* --------------------------------------------------------------------- *)
(** ** Facts about the edit and save commands *)
(* --------------------------------------------------------------------- *)

Lemma edit_rejects_text (w : world) (l : Terminal.locals) (m : Terminal.machine)
    (a answer : string) (rest : list string) (cur : value) :
  Terminal.stdin m = a :: answer :: rest ->
  Py.lower (Py.strip a) = "e" ->
  Terminal.settings l !! "stability" = Some cur ->
  Py.truthy (Py.strip answer) = true ->
  Py.float_of (Py.strip answer) = None ->
  exists m',
    Terminal.step w (at_ Terminal.Menu l m)
    = {| Terminal.status_of := Terminal.Finished (Terminal.Raise ValueError);
         Terminal.machine_of := m' |}
    /\ Terminal.temp_file m' = Terminal.temp_file m
    /\ Terminal.temp_dir m' = Terminal.temp_dir m.
Proof.
  intros Hin Ha Hk Ht Hf.
  rewrite step_menu.
  unfold Terminal.menu, Terminal.bind, Terminal.input, Terminal.bind,
    Terminal.print, Terminal.read_line.
  cbn. rewrite Hin. cbn. rewrite Ha. cbn.
  unfold Terminal.edit_setting, Terminal.bind, Terminal.input, Terminal.bind,
    Terminal.print, Terminal.read_line, Terminal.of_option.
  rewrite Hk. cbn. rewrite Ht, Hf. cbn.
  eexists. repeat split.
Qed.

Lemma save_blank_name (w : world) (l : Terminal.locals) (m : Terminal.machine)
    (a answer : string) (rest : list string) :
  Terminal.stdin m = a :: answer :: rest ->
  Py.lower (Py.strip a) = "s" ->
  Py.strip answer = "" ->
  exists m',
    Terminal.step w (at_ Terminal.Menu l m) = at_ Terminal.Menu l m'
    /\ Terminal.stdout m'
       = (Terminal.stdout m
          ++ [Terminal.Ask Terminal.AskChoice; Terminal.Ask Terminal.AskSaveAs])%list
    /\ Terminal.recordings m' = Terminal.recordings m
    /\ Terminal.stdin m' = rest.
Proof.
  intros Hin Ha Hb.
  rewrite step_menu.
  unfold Terminal.menu, Terminal.bind, Terminal.input, Terminal.bind,
    Terminal.print, Terminal.read_line.
  cbn. rewrite Hin. cbn. rewrite Ha. cbn. rewrite Hb. cbn.
  eexists. repeat split. cbn. by rewrite <- app_assoc.
Qed.

Lemma save_named (w : world) (l : Terminal.locals) (m : Terminal.machine)
    (a answer : string) (rest : list string) (data : bytes) :
  Terminal.stdin m = a :: answer :: rest ->
  Py.lower (Py.strip a) = "s" ->
  Py.truthy (Py.strip answer) = true ->
  Terminal.temp_file m = Some data ->
  recordings_dir w = true ->
  place w (Terminal.recording (Py.strip answer)) = Elsewhere ->
  writable w (Terminal.recording (Py.strip answer)) = true ->
  exists m',
    Terminal.step w (at_ Terminal.Menu l m) = at_ Terminal.Menu l m'
    /\ Terminal.recordings m'
       = <[Terminal.recording (Py.strip answer) := data]> (Terminal.recordings m)
    /\ Terminal.temp_file m' = Some data
    /\ Terminal.stdin m' = rest
    /\ Terminal.SaySaved (Terminal.recording (Py.strip answer))
       ∈ Terminal.stdout m'.
Proof.
  intros Hin Ha Ht Hd Hr Hp Hw.
  rewrite step_menu.
  unfold Terminal.menu, Terminal.bind, Terminal.input, Terminal.bind,
    Terminal.print, Terminal.read_line.
  cbn. rewrite Hin. cbn. rewrite Ha. cbn. rewrite Ht. cbn.
  unfold Terminal.mkdir_recordings, Terminal.copy_to, Terminal.open_rb,
    Terminal.open_wb, Terminal.read_temp, Terminal.write, Terminal.file_at,
    Terminal.bind, Terminal.print.
  cbn. rewrite Hr. cbn. rewrite Hd, Hp, Hw. cbn. rewrite ?Hd. cbn.
  eexists. repeat split; auto.
  - cbn. apply insert_insert_eq.
  - cbn. set_solver.
Qed.

(** A save whose path leads to the working copy: the copy is emptied when
    it is opened for writing, before it is read. *)
Lemma save_onto_copy (w : world) (l : Terminal.locals) (m : Terminal.machine)
    (a answer : string) (rest : list string) (data : bytes) :
  Terminal.stdin m = a :: answer :: rest ->
  Py.lower (Py.strip a) = "s" ->
  Py.truthy (Py.strip answer) = true ->
  Terminal.temp_file m = Some data ->
  recordings_dir w = true ->
  place w (Terminal.recording (Py.strip answer)) = WorkingCopy ->
  writable w (Terminal.recording (Py.strip answer)) = true ->
  exists m',
    Terminal.step w (at_ Terminal.Menu l m) = at_ Terminal.Menu l m'
    /\ Terminal.temp_file m' = Some []
    /\ Terminal.recordings m' = Terminal.recordings m
    /\ Terminal.temp_others m' = Terminal.temp_others m
    /\ Terminal.stdin m' = rest
    /\ Terminal.SaySaved (Terminal.recording (Py.strip answer))
       ∈ Terminal.stdout m'.
Proof.
  intros Hin Ha Ht Hd Hr Hp Hw.
  rewrite step_menu.
  unfold Terminal.menu, Terminal.bind, Terminal.input, Terminal.bind,
    Terminal.print, Terminal.read_line.
  cbn. rewrite Hin. cbn. rewrite Ha. cbn. rewrite Ht. cbn.
  unfold Terminal.mkdir_recordings, Terminal.copy_to, Terminal.open_rb,
    Terminal.open_wb, Terminal.read_temp, Terminal.write, Terminal.file_at,
    Terminal.bind, Terminal.print.
  cbn. rewrite Hr. cbn. rewrite Hd, Hp, Hw. cbn.
  eexists. repeat split; auto. cbn. set_solver.
Qed.

(** A save whose path leads to another entry of the temporary directory. *)
Lemma save_beside_copy (w : world) (l : Terminal.locals) (m : Terminal.machine)
    (a answer : string) (rest : list string) (data : bytes) :
  Terminal.stdin m = a :: answer :: rest ->
  Py.lower (Py.strip a) = "s" ->
  Py.truthy (Py.strip answer) = true ->
  Terminal.temp_file m = Some data ->
  recordings_dir w = true ->
  place w (Terminal.recording (Py.strip answer)) = TempDirectory ->
  writable w (Terminal.recording (Py.strip answer)) = true ->
  exists m',
    Terminal.step w (at_ Terminal.Menu l m) = at_ Terminal.Menu l m'
    /\ Terminal.temp_others m'
       = <[Terminal.recording (Py.strip answer) := data]> (Terminal.temp_others m)
    /\ Terminal.temp_file m' = Some data
    /\ Terminal.recordings m' = Terminal.recordings m
    /\ Terminal.stdin m' = rest.
Proof.
  intros Hin Ha Ht Hd Hr Hp Hw.
  rewrite step_menu.
  unfold Terminal.menu, Terminal.bind, Terminal.input, Terminal.bind,
    Terminal.print, Terminal.read_line.
  cbn. rewrite Hin. cbn. rewrite Ha. cbn. rewrite Ht. cbn.
  unfold Terminal.mkdir_recordings, Terminal.copy_to, Terminal.open_rb,
    Terminal.open_wb, Terminal.read_temp, Terminal.write, Terminal.file_at,
    Terminal.bind, Terminal.print.
  cbn. rewrite Hr. cbn. rewrite Hd, Hp, Hw. cbn. rewrite ?Hd. cbn.
  eexists. repeat split; auto. cbn. apply insert_insert_eq.
Qed.

(* --------------------------------------------------------------------- *)
(** ** C5: a blank phrase *)
(* --------------------------------------------------------------------- *)

(** C5: a phrase that is blank after trimming must not reach the provider.
    The code at the failing inputs: a blank command-line argument is sent to
    the provider as it is, and so is the empty phrase left behind by a blank
    answer to the new-phrase prompt once the user regenerates; the start-up
    prompt and the reactive form do refuse a blank phrase without a call. *)
Theorem C5_blank_phrase_reaches_the_provider :
  (let w := studio ["main.py"; "  "] never false in
   texts (Terminal.tts_log
            (Terminal.machine_of
               (Terminal.steps w 1 (Terminal.start w (Terminal.boot [] ∅)))))
   = ["  "])
  /\ texts (Terminal.tts_log (Terminal.machine_of (session never ["n"; ""; "r"] 4)))
     = ["hi"; ""]
  /\ (let w := studio ["main.py"] never false in
      let c := Terminal.start w (Terminal.boot ["  "] ∅) in
      Terminal.status_of c = Terminal.Finished (Terminal.Raise (SystemExit 1))
      /\ Terminal.tts_log (Terminal.machine_of c) = [])
  /\ (let s := (Reactive.run_script (studio [] never false) 0
                  (form "  " 0 (Reactive.value Reactive.speed_slider)
                     true false "")
                  (Reactive.initial ∅)).2 in
      Reactive.page s = [Reactive.WarnEnterPhrase] /\ Reactive.tts_log s = []).
Proof. vm_compute. repeat split. Qed.

(* --------------------------------------------------------------------- *)
(** ** C6: text where a number is expected *)
(* --------------------------------------------------------------------- *)

(** C6: editing a parameter must not raise.  The code at the failing input:
    a non-blank answer to the stability prompt that [float] does not accept
    raises [ValueError] out of the menu loop; [main] ends with the exception
    and the working copy and its directory are left behind. *)
Theorem C6_text_answer_raises (w : world) (l : Terminal.locals)
    (m : Terminal.machine) (a answer : string) (rest : list string)
    (cur : value) :
  Terminal.stdin m = a :: answer :: rest ->
  Py.lower (Py.strip a) = "e" ->
  Terminal.settings l !! "stability" = Some cur ->
  Py.truthy (Py.strip answer) = true ->
  Py.float_of (Py.strip answer) = None ->
  exists m',
    Terminal.step w (at_ Terminal.Menu l m)
    = {| Terminal.status_of := Terminal.Finished (Terminal.Raise ValueError);
         Terminal.machine_of := m' |}
    /\ Terminal.temp_file m' = Terminal.temp_file m
    /\ Terminal.temp_dir m' = Terminal.temp_dir m.
Proof. apply edit_rejects_text. Qed.

Lemma C6_text_answer_raises_witness :
  exists m',
    Terminal.step (studio ["main.py"; "hi"] never false)
      (at_ Terminal.Menu (bumped (entered "hi")) (Terminal.boot ["e"; "abc"] ∅))
    = {| Terminal.status_of := Terminal.Finished (Terminal.Raise ValueError);
         Terminal.machine_of := m' |}
    /\ Terminal.temp_file m' = None
    /\ Terminal.temp_dir m' = false.
Proof.
  apply (C6_text_answer_raises (studio ["main.py"; "hi"] never false)
           (bumped (entered "hi")) (Terminal.boot ["e"; "abc"] ∅)
           "e" "abc" [] (VFloat Terminal.f_0_5)); reflexivity.
Defined.

(* --------------------------------------------------------------------- *)
(** ** C7: saving *)
(* --------------------------------------------------------------------- *)

(** C7: saving under a blank name must fail visibly.  The code at the
    failing input: in the terminal a blank answer to the save prompt writes
    nothing and prints nothing but the two prompts, and the menu goes on; the
    reactive form warns.  Saving under a name that leads outside the
    temporary directory and can be written, the recordings directory being
    there, stores the working copy under that name whatever was there
    before. *)
Theorem C7_blank_name_is_silent (w : world) (l : Terminal.locals)
    (m : Terminal.machine) (a answer : string) (rest : list string) :
  Terminal.stdin m = a :: answer :: rest ->
  Py.lower (Py.strip a) = "s" ->
  (Py.strip answer = "" ->
   exists m',
     Terminal.step w (at_ Terminal.Menu l m) = at_ Terminal.Menu l m'
     /\ Terminal.stdout m'
        = (Terminal.stdout m
           ++ [Terminal.Ask Terminal.AskChoice; Terminal.Ask Terminal.AskSaveAs])%list
     /\ Terminal.recordings m' = Terminal.recordings m)
  /\ (forall data,
        Py.truthy (Py.strip answer) = true ->
        Terminal.temp_file m = Some data ->
        recordings_dir w = true ->
        place w (Terminal.recording (Py.strip answer)) = Elsewhere ->
        writable w (Terminal.recording (Py.strip answer)) = true ->
        exists m',
          Terminal.step w (at_ Terminal.Menu l m) = at_ Terminal.Menu l m'
          /\ Terminal.recordings m' !! Terminal.recording (Py.strip answer)
             = Some data)
  /\ Reactive.page
       (Reactive.run_script (studio [] never false) 0
          (form "" 0 (Reactive.value Reactive.speed_slider) false true "  ")
          (hello 0)).2
     = [Reactive.AudioPlayer (take_ 0); Reactive.WarnEnterFilename;
        Reactive.DownloadButton (take_ 0)].
Proof.
  intros Hin Ha. split; [|split].
  - intros Hb.
    destruct (save_blank_name w l m a answer rest Hin Ha Hb)
      as (m' & E & Ho & Hr & _).
    eauto.
  - intros data Ht Hd Hdir Hp Hw.
    destruct (save_named w l m a answer rest data Hin Ha Ht Hd Hdir Hp Hw)
      as (m' & E & Hr & _).
    exists m'. split; [exact E|]. rewrite Hr. apply lookup_insert_eq.
  - vm_compute. reflexivity.
Qed.

Lemma C7_blank_name_is_silent_witness :
  exists m',
    Terminal.step (studio ["main.py"; "hi"] second_only false)
      (at_ Terminal.Menu (bumped (entered "hi"))
         (Terminal.boot ["s"; "  "] ∅))
    = at_ Terminal.Menu (bumped (entered "hi")) m'
    /\ Terminal.stdout m'
       = [Terminal.Ask Terminal.AskChoice; Terminal.Ask Terminal.AskSaveAs]
    /\ Terminal.recordings m' = ∅.
Proof.
  apply (proj1 (C7_blank_name_is_silent
                  (studio ["main.py"; "hi"] second_only false)
                  (bumped (entered "hi")) (Terminal.boot ["s"; "  "] ∅)
                  "s" "  " [] eq_refl eq_refl)).
  reflexivity.
Defined.

(* --------------------------------------------------------------------- *)
(** ** Facts about the voice list and the voice selection *)
(* --------------------------------------------------------------------- *)

Lemma cache_hit w now s t vs :
  Reactive.voices_cache s = Some (t, vs) -> Reactive.fresh now t = true ->
  Reactive.get_voices w now s = (Reactive.Ret vs, s).
Proof.
  intros Hc Hf. unfold Reactive.get_voices, Reactive.bind, Reactive.get_server.
  rewrite Hc, Hf. reflexivity.
Qed.

Lemma cache_miss w now s vs :
  (Reactive.voices_cache s = None
   \/ exists t old, Reactive.voices_cache s = Some (t, old)
                    /\ Reactive.fresh now t = false) ->
  get_all w (Reactive.catalog_calls s) = inr vs ->
  exists s',
    Reactive.get_voices w now s = (Reactive.Ret (rows_of vs), s')
    /\ Reactive.catalog_calls s' = S (Reactive.catalog_calls s)
    /\ Reactive.voices_cache s' = Some (now, rows_of vs).
Proof.
  intros Hc Hg. unfold Reactive.get_voices, Reactive.bind, Reactive.get_server.
  destruct Hc as [Hc | (t & old & Hc & Hf)]; rewrite Hc; [|rewrite Hf];
    unfold Reactive.fetch_voices; rewrite Hg; cbn; eexists; repeat split.
Qed.

Lemma terminal_listing_calls w m :
  Terminal.catalog_calls (Terminal.get_voices w m).2
  = S (Terminal.catalog_calls m).
Proof.
  unfold Terminal.get_voices, Terminal.voices_get_all.
  destruct (get_all w _); reflexivity.
Qed.

Lemma wrote_wrote a b m : wrote b (wrote a m) = wrote (a ++ b)%list m.
Proof. unfold wrote. cbn. by rewrite app_assoc. Qed.

Lemma print_wrote x m : Terminal.print x m = (Terminal.Ret tt, wrote [x] m).
Proof. reflexivity. Qed.

Lemma for_each_print {A} (g : A -> Terminal.line) (l : list A) m :
  Terminal.for_each l (fun x => Terminal.print (g x)) m
  = (Terminal.Ret tt, wrote (map g l) m).
Proof.
  revert m. induction l as [|x l IH]; intros m.
  - unfold Terminal.for_each, Terminal.ret, wrote. destruct m; cbn.
    by rewrite app_nil_r.
  - cbn [Terminal.for_each map]. unfold Terminal.bind.
    rewrite print_wrote, IH, wrote_wrote. reflexivity.
Qed.

Lemma select_voice_run w current m voices answer rest :
  get_all w (Terminal.catalog_calls m) = inr voices ->
  Terminal.stdin m = answer :: rest ->
  let choice := Py.strip answer in
  let m1 := wrote (voice_table voices current) (listed rest m) in
  Terminal.select_voice w current m
  = if Py.truthy choice && Py.isdigit choice then
      match Py.int choice with
      | None => (Terminal.Raise ValueError, m1)
      | Some n =>
          if (1 <=? n)%Z && (n <=? Z.of_nat (List.length voices))%Z then
            match voices !! Z.to_nat (n - 1) with
            | Some v =>
                (Terminal.Ret (voice_id v), wrote [Terminal.SaySelected (name v)] m1)
            | None => (Terminal.Raise IndexError, m1)
            end
          else (Terminal.Ret current, wrote [Terminal.SayInvalidNumber] m1)
      end
    else (Terminal.Ret current, m1).
Proof.
  intros Hg Hin choice m1.
  assert (Hle : forall n : Z,
             (0 <=? n - 1)%Z && (n - 1 <? Z.of_nat (List.length voices))%Z
             = (1 <=? n)%Z && (n <=? Z.of_nat (List.length voices))%Z).
  { intros n.
    destruct (Z.leb_spec 1 n), (Z.leb_spec 0 (n - 1)),
      (Z.leb_spec n (Z.of_nat (List.length voices))),
      (Z.ltb_spec (n - 1) (Z.of_nat (List.length voices)));
      try reflexivity; lia. }
  unfold Terminal.select_voice, Terminal.bind, Terminal.get_voices,
    Terminal.voices_get_all.
  rewrite Hg, print_wrote, for_each_print, print_wrote.
  unfold Terminal.input, Terminal.bind. rewrite print_wrote.
  unfold Terminal.read_line. cbn [Terminal.stdin wrote]. rewrite Hin.
  fold choice.
  match goal with
  | |- (if _ then _ else _) ?M = _ =>
      assert (HM : M = m1);
      [ subst m1; unfold wrote, listed, voice_table; cbn; f_equal;
        rewrite <- !app_assoc; reflexivity
      | rewrite HM ]
  end.
  destruct (Py.truthy choice && Py.isdigit choice); [|reflexivity].
  unfold Terminal.of_option.
  destruct (Py.int choice) as [n|]; [|reflexivity].
  cbn [Terminal.ret]. rewrite Hle.
  destruct ((1 <=? n)%Z && (n <=? Z.of_nat (List.length voices))%Z);
    [|reflexivity].
  destruct (voices !! Z.to_nat (n - 1)); reflexivity.
Qed.



(** Every pass from the head of the loop sends one request, built from the
    locals, however the pass ends. *)
Lemma attempt_sends w l m :
  Terminal.tts_log (Terminal.machine_of (Terminal.step w (at_ Terminal.LoopHead l m)))
  = (Terminal.tts_log m ++ [request_for l])%list.
Proof.
  rewrite step_head.
  unfold Terminal.after, Terminal.cleanup, Terminal.unlink_temp,
    Terminal.rmdir_temp.
  unfold Terminal.attempt, Terminal.bind, Terminal.try_except,
    Terminal.generate_audio, Terminal.bind, Terminal.print,
    Terminal.text_to_speech_convert, Terminal.write_temp, Terminal.bind,
    Terminal.open_wb, Terminal.write, Terminal.play_audio,
    Terminal.run_player, Terminal.input, Terminal.bind, Terminal.print,
    Terminal.read_line.
  cbn. fold (request_for l).
  repeat match goal with
  | |- context [match ?x with _ => _ end] =>
      match x with
      | context [match _ with _ => _ end] => fail 1
      | _ => destruct x eqn:?; cbn
      end
  | |- context [if ?b then _ else _] =>
      match b with
      | context [if _ then _ else _] => fail 1
      | _ => destruct b eqn:?; cbn
      end
  end; reflexivity.
Qed.

(* --------------------------------------------------------------------- *)
(** ** C8: the voice list cache *)
(* --------------------------------------------------------------------- *)

(** C8, as amended.  In the reactive form the voice list is cached: a first
    [get_voices] calls the provider once and stores the rows with the time; a
    second one while the entry is fresh returns the same rows without a call;
    one after the entry has expired, or after [get_voices.clear()], calls the
    provider exactly once more.  In the terminal there is no cache: every
    [get_voices] calls the provider. *)
Theorem C8_voice_list_cache (w : world) (s : Reactive.server)
    (t0 t1 : Z) (vs : list Voice) :
  Reactive.voices_cache s = None ->
  get_all w (Reactive.catalog_calls s) = inr vs ->
  Reactive.fresh t1 t0 = true ->
  let r1 := Reactive.get_voices w t0 s in
  let r2 := Reactive.get_voices w t1 r1.2 in
  r1.1 = Reactive.Ret (rows_of vs)
  /\ r2.1 = Reactive.Ret (rows_of vs)
  /\ Reactive.catalog_calls r2.2 = S (Reactive.catalog_calls s)
  /\ (forall t2 vs',
        Reactive.fresh t2 t0 = false ->
        get_all w (S (Reactive.catalog_calls s)) = inr vs' ->
        let r3 := Reactive.get_voices w t2 r2.2 in
        r3.1 = Reactive.Ret (rows_of vs')
        /\ Reactive.catalog_calls r3.2 = S (S (Reactive.catalog_calls s)))
  /\ (forall t2 vs',
        get_all w (S (Reactive.catalog_calls s)) = inr vs' ->
        let r3 := Reactive.get_voices w t2 (Reactive.get_voices_clear r2.2).2 in
        r3.1 = Reactive.Ret (rows_of vs')
        /\ Reactive.catalog_calls r3.2 = S (S (Reactive.catalog_calls s)))
  /\ (forall m, Terminal.catalog_calls (Terminal.get_voices w m).2
                = S (Terminal.catalog_calls m)).
Proof.
  intros Hc Hg Hf r1 r2.
  destruct (cache_miss w t0 s vs (or_introl Hc) Hg) as (s1 & E1 & Hn1 & Hc1).
  assert (E2 : Reactive.get_voices w t1 s1 = (Reactive.Ret (rows_of vs), s1))
    by (eapply cache_hit; eauto).
  subst r1 r2. rewrite E1. cbn [fst snd]. rewrite E2. cbn [fst snd].
  split; [reflexivity|]. split; [reflexivity|]. split; [exact Hn1|].
  split; [|split].
  - intros t2 vs' Hf2 Hg2.
    destruct (cache_miss w t2 s1 vs') as (s3 & E3 & Hn3 & _).
    + right. eauto.
    + rewrite Hn1. exact Hg2.
    + cbn zeta. rewrite E3. cbn. split; [reflexivity | congruence].
  - intros t2 vs' Hg2.
    destruct (cache_miss w t2 (Reactive.get_voices_clear s1).2 vs')
      as (s3 & E3 & Hn3 & _).
    + left. reflexivity.
    + cbn. rewrite Hn1. exact Hg2.
    + cbn zeta. rewrite E3. cbn. split; [reflexivity|].
      rewrite Hn3. cbn. congruence.
  - apply terminal_listing_calls.
Qed.

Lemma C8_voice_list_cache_witness :
  let w := studio [] never false in
  let r1 := Reactive.get_voices w 0 (Reactive.initial ∅) in
  let r2 := Reactive.get_voices w 299 r1.2 in
  r2.1 = Reactive.Ret (rows_of sample_voices)
  /\ Reactive.catalog_calls r2.2 = 1%nat
  /\ Reactive.catalog_calls (Reactive.get_voices w 300 r2.2).2 = 2%nat.
Proof.
  destruct (C8_voice_list_cache (studio [] never false) (Reactive.initial ∅)
              0 299 sample_voices eq_refl eq_refl eq_refl)
    as (_ & H2 & H3 & H4 & _).
  split; [exact H2|]. split; [exact H3|].
  exact (proj2 (H4 300 sample_voices eq_refl eq_refl)).
Defined.

(** C8 as stated fails in the terminal: two change-voice commands in a row
    list the voices twice and call the provider twice. *)
Lemma C8_terminal_lists_twice :
  Terminal.catalog_calls
    (Terminal.machine_of (session never ["v"; ""; "v"; ""] 4))
  = 2%nat.
Proof. vm_compute. reflexivity. Qed.

(* --------------------------------------------------------------------- *)
(** ** C9: an ordinal that selects nothing *)
(* --------------------------------------------------------------------- *)




(* --------------------------------------------------------------------- *)
(** ** C10: changing the voice regenerates *)
(* --------------------------------------------------------------------- *)




(* --------------------------------------------------------------------- *)
(** ** C1: the settings are clamped *)
(* --------------------------------------------------------------------- *)

Lemma edit_setting_answer key ask s m a rest cur :
  s !! key = Some cur ->
  Terminal.stdin m = a :: rest ->
  blank_or_number a ->
  exists m',
    Terminal.edit_setting key ask s m
    = (Terminal.Ret
         (match Py.float_of (Py.strip a) with
          | Some x => <[key := VFloat (clamped x)]> s
          | None => s
          end), m')
    /\ Terminal.stdin m' = rest
    /\ Terminal.tts_log m' = Terminal.tts_log m.
Proof.
  intros Hk Hin Ha.
  unfold Terminal.edit_setting, Terminal.bind, Terminal.input, Terminal.bind,
    Terminal.print, Terminal.read_line, Terminal.of_option.
  rewrite Hk. cbn. rewrite Hin.
  destruct Ha as [Hb | [x Hx]].
  - rewrite Hb. cbn. eexists. repeat split.
  - rewrite (float_of_truthy _ _ Hx), Hx. cbn. eexists. repeat split.
Qed.

Lemma stored_insert key k a (s : gmap string value) :
  (match Py.float_of (Py.strip a) with
   | Some x => <[key := VFloat (clamped x)]> s
   | None => s
   end) !! k
  = if decide (key = k) then stored (s !! k) a else s !! k.
Proof.
  unfold stored. destruct (Py.float_of (Py.strip a)) as [x|];
    destruct (decide (key = k)) as [->|Hne]; try reflexivity.
  - apply lookup_insert_eq.
  - by apply lookup_insert_ne.
Qed.

Lemma edit_answers (w : world) (l : Terminal.locals) (m : Terminal.machine)
    (e a1 a2 a3 : string) (rest : list string) :
  Terminal.stdin m = e :: a1 :: a2 :: a3 :: rest ->
  Py.lower (Py.strip e) = "e" ->
  settings_ok (Terminal.settings l) ->
  blank_or_number a1 -> blank_or_number a2 -> blank_or_number a3 ->
  exists m' s',
    Terminal.menu w l m
    = (Terminal.Ret (Terminal.Again, Terminal.set_settings s' l), m')
    /\ s' !! "stability" = stored (Terminal.settings l !! "stability") a1
    /\ s' !! "similarity_boost"
       = stored (Terminal.settings l !! "similarity_boost") a2
    /\ s' !! "style" = stored (Terminal.settings l !! "style") a3
    /\ s' !! "speed" = None.
Proof.
  intros Hin He (H1 & H2 & H3 & H4) A1 A2 A3.
  apply unit_interval_Some in H1, H2, H3.
  destruct H1 as [y1 H1], H2 as [y2 H2], H3 as [y3 H3].
  unfold Terminal.menu.
  unfold Terminal.bind at 1, Terminal.input, Terminal.bind at 1.
  rewrite print_wrote. unfold Terminal.read_line.
  cbn [wrote Terminal.stdin]. rewrite Hin, He.
  cbn [String.eqb Ascii.eqb Bool.eqb].
  unfold Terminal.print_settings at 1. unfold Terminal.bind at 1.
  rewrite print_wrote. unfold Terminal.bind at 1. rewrite print_wrote.
  lazymatch goal with |- context [wrote [Terminal.SayEnterNewValues] ?M0] =>
    destruct (edit_setting_answer "stability" Terminal.AskStability
                (Terminal.settings l) (wrote [Terminal.SayEnterNewValues] M0)
                a1 (a2 :: a3 :: rest) _ H1 eq_refl A1) as (m1 & E1 & S1 & _)
  end.
  unfold Terminal.bind at 1. rewrite E1.
  set (s1 := match Py.float_of (Py.strip a1) with
             | Some x => <["stability" := VFloat (clamped x)]> (Terminal.settings l)
             | None => Terminal.settings l
             end) in *.
  assert (K2 : s1 !! "similarity_boost" = Some (VFloat y2)).
  { subst s1. rewrite stored_insert. cbn. exact H2. }
  destruct (edit_setting_answer "similarity_boost" Terminal.AskSimilarity s1 m1
              a2 (a3 :: rest) _ K2 S1 A2) as (m2 & E2 & S2 & _).
  unfold Terminal.bind at 1. rewrite E2.
  set (s2 := match Py.float_of (Py.strip a2) with
             | Some x => <["similarity_boost" := VFloat (clamped x)]> s1
             | None => s1
             end) in *.
  assert (K3 : s2 !! "style" = Some (VFloat y3)).
  { subst s2 s1. rewrite !stored_insert. cbn. exact H3. }
  destruct (edit_setting_answer "style" Terminal.AskStyle s2 m2
              a3 rest _ K3 S2 A3) as (m3 & E3 & S3 & _).
  unfold Terminal.bind at 1. rewrite E3.
  unfold Terminal.print_settings, Terminal.bind. rewrite !print_wrote.
  cbn [Terminal.ret].
  eexists. eexists. split; [reflexivity|].
  subst s2 s1. rewrite !stored_insert. cbn. auto.
Qed.

Lemma last_speed_snoc log rq :
  last_speed (log ++ [rq])%list = Some (speed (rq_voice_settings rq)).
Proof. unfold last_speed. by rewrite last_snoc. Qed.

(** C1, as amended.  The edit command of the terminal asks for stability,
    similarity and style, each on its own: a numeric answer [x] is stored
    under its key as [max(0.0, min(1.0, x))], a blank answer keeps the value,
    and no speed is stored.  The number stored lies in [[0, 1]] for every [x]
    (NaN is stored as 1.0) and equals [clamp(x, 0, 1)] for every [x] that is a
    number; in every state the session reaches the three stored values are in
    [[0, 1]].  Speed has no set operation: the terminal stores none and every
    request it sends carries none, and the reactive form sends the positions
    of its four sliders as they are, each within the range its slider
    declares, [[0.7, 1.2]] for the speed. *)
Theorem C1_edit_stores_clamped (w : world) (l : Terminal.locals)
    (m : Terminal.machine) (e a1 a2 a3 : string) (rest : list string) :
  Terminal.stdin m = e :: a1 :: a2 :: a3 :: rest ->
  Py.lower (Py.strip e) = "e" ->
  settings_ok (Terminal.settings l) ->
  blank_or_number a1 -> blank_or_number a2 -> blank_or_number a3 ->
  (exists m' s',
     Terminal.menu w l m
     = (Terminal.Ret (Terminal.Again, Terminal.set_settings s' l), m')
     /\ s' !! "stability" = stored (Terminal.settings l !! "stability") a1
     /\ s' !! "similarity_boost"
        = stored (Terminal.settings l !! "similarity_boost") a2
     /\ s' !! "style" = stored (Terminal.settings l !! "style") a3
     /\ s' !! "speed" = None)
  /\ (forall x, within Terminal.f_0_0 Terminal.f_1_0 (clamped x) = true)
  /\ (forall x, x <> Py.NaN ->
        Py.eq (clamped x) (clamp x Terminal.f_0_0 Terminal.f_1_0) = true)
  /\ (forall m0 n, config_ok (Terminal.steps w n (Terminal.start w m0)))
  /\ (forall l0 m0,
        last_speed
          (Terminal.tts_log
             (Terminal.machine_of
                (Terminal.step w (at_ Terminal.LoopHead l0 m0))))
        = Some None)
  /\ (forall now ws s s1 key voices voice_id,
        env_api_key w = Some key -> Py.truthy key = true ->
        Reactive.get_voices w now (Reactive.clear_page s)
        = (Reactive.Ret voices, s1) ->
        Reactive.w_refresh ws = false ->
        Reactive.w_generate ws || Reactive.w_regenerate ws = true ->
        Reactive.w_save ws = false ->
        Py.truthy (Py.strip (Reactive.w_phrase ws)) = true ->
        chosen_voice voices ws = Some voice_id ->
        Reactive.delivered ws = true ->
        exists rq,
          Reactive.tts_log (Reactive.run_script w now ws s).2
          = (Reactive.tts_log s1 ++ [rq])%list
          /\ rq_voice_settings rq
             = {| stability := VFloat (Reactive.w_stability ws);
                  similarity_boost := VFloat (Reactive.w_similarity ws);
                  style := VFloat (Reactive.w_style ws);
                  use_speaker_boost := VBool true;
                  speed := Some (VFloat (Reactive.w_speed ws)) |}
          /\ in_declared_ranges (rq_voice_settings rq) = true).
Proof.
  intros Hin He Hs A1 A2 A3. split; [|split; [|split; [|split; [|split]]]].
  - apply (edit_answers w l m e a1 a2 a3 rest); assumption.
  - apply clamped_within.
  - apply clamped_is_clamp.
  - intros m0 n. apply steps_ok, start_ok.
  - intros l0 m0. rewrite attempt_sends. apply last_speed_snoc.
  - intros t ws s s1 key voices voice_id Hk Hty Hv Hr Hg Hsv Hp Hcv Hd.
    destruct (generate_records w t ws s key voices s1 voice_id) as [H _];
      auto.
    exists (request_of ws voice_id). split; [exact H|].
    split; [reflexivity | exact Hd].
Qed.

Lemma C1_edit_stores_clamped_witness :
  exists m' s',
    Terminal.menu (studio ["main.py"; "hi"] never false) (entered "hi")
      (Terminal.boot ["e"; "1.7"; " "; "0.3"] ∅)
    = (Terminal.Ret (Terminal.Again, Terminal.set_settings s' (entered "hi")),
       m')
    /\ s' !! "stability" = Some (VFloat Terminal.f_1_0)
    /\ s' !! "similarity_boost" = Some (VFloat Terminal.f_0_75)
    /\ s' !! "style" = Some (VFloat f_0_3)
    /\ s' !! "speed" = None.
Proof.
  destruct (C1_edit_stores_clamped (studio ["main.py"; "hi"] never false)
              (entered "hi") (Terminal.boot ["e"; "1.7"; " "; "0.3"] ∅)
              "e" "1.7" " " "0.3" [])
    as ((m' & s' & E & H1 & H2 & H3 & H4) & _);
    [ reflexivity | reflexivity | apply initial_settings_ok
    | right; vm_compute; eauto | left; reflexivity
    | right; vm_compute; eauto | ].
  vm_compute in H1, H2, H3.
  exists m', s'. repeat split; assumption.
Defined.

(** C1 as stated fails for speed, which the terminal has no way to set:
    answering 0.3 to every prompt of the edit command stores 0.3 three times
    and no speed, and the request that follows carries none, where the
    specification has 0.7 stored. *)
Lemma C1_speed_is_not_clamped :
  let w := studio ["main.py"; "hi"] never false in
  let c := Terminal.steps w 3
             (Terminal.start w (Terminal.boot ["e"; "0.3"; "0.3"; "0.3"] ∅)) in
  (settings_of c ≫= (.!! "stability")) = Some (VFloat f_0_3)
  /\ (settings_of c ≫= (.!! "similarity_boost")) = Some (VFloat f_0_3)
  /\ (settings_of c ≫= (.!! "style")) = Some (VFloat f_0_3)
  /\ (settings_of c ≫= (.!! "speed")) = None
  /\ last_speed (Terminal.tts_log (Terminal.machine_of c)) = Some None.
Proof. vm_compute. repeat split. Qed.

(* --------------------------------------------------------------------- *)
(** ** Further properties of the two front-ends *)
(* --------------------------------------------------------------------- *)

Local Close Scope Z_scope.

#[export] Instance same_on_preorder {X} (f : Terminal.machine -> X) :
  PreOrder (same_on f).
Proof. split; unfold same_on; [intros m; reflexivity | intros a b c; congruence]. Qed.

#[export] Instance no_more_input_preorder : PreOrder no_more_input.
Proof. split; unfold no_more_input; [intros m; lia | intros a b c; lia]. Qed.

Section Frame.
Context (R : relation Terminal.machine) `{!PreOrder R}.

Lemma frame_ret {A} (a : A) : frame R (Terminal.ret a).
Proof. intros m. reflexivity. Qed.

Lemma frame_raise {A} e : frame R (@Terminal.raise A e).
Proof. intros m. reflexivity. Qed.

Lemma frame_bind {A B} (c : Terminal.M A) (k : A -> Terminal.M B) :
  frame R c -> (forall a, frame R (k a)) -> frame R (Terminal.bind c k).
Proof.
  intros Hc Hk m. unfold Terminal.bind. specialize (Hc m).
  destruct (c m) as [[a|e] m1]; cbn in *; [|exact Hc].
  etransitivity; [exact Hc | apply Hk].
Qed.

Lemma frame_try {A} (c : Terminal.M A) (h : exn -> Terminal.M A) :
  frame R c -> (forall e, frame R (h e)) -> frame R (Terminal.try_except c h).
Proof.
  intros Hc Hh m. unfold Terminal.try_except. specialize (Hc m).
  destruct (c m) as [[a|e] m1]; cbn in *; [exact Hc|].
  destruct (is_Exception e); [|exact Hc].
  etransitivity; [exact Hc | apply Hh].
Qed.

Lemma frame_for_each {A} (l : list A) (body : A -> Terminal.M unit) :
  (forall x, frame R (body x)) -> frame R (Terminal.for_each l body).
Proof.
  intros Hb. induction l as [|x l IH]; cbn [Terminal.for_each].
  - apply frame_ret.
  - apply frame_bind; auto.
Qed.
End Frame.

Ltac frame_prim :=
  let m := fresh "m" in
  intros m;
  unfold Terminal.print, Terminal.read_line, Terminal.text_to_speech_convert,
    Terminal.voices_get_all, Terminal.run_player, Terminal.mkdtemp,
    Terminal.mkdir_recordings, Terminal.open_wb, Terminal.write,
    Terminal.open_rb, Terminal.read_temp, Terminal.unlink_temp,
    Terminal.rmdir_temp, Terminal.put, Terminal.file_at,
    same_on, no_more_input;
  repeat case_match; cbn;
  repeat match goal with H : Terminal.stdin _ = _ |- _ => rewrite H end;
  cbn; try reflexivity; try lia.

Ltac frame_step :=
  lazymatch goal with
  | |- frame _ (Terminal.bind _ _) => apply frame_bind; [typeclasses eauto | | intros ?]
  | |- frame _ (Terminal.ret _) => apply frame_ret; typeclasses eauto
  | |- frame _ (Terminal.raise _) => apply frame_raise; typeclasses eauto
  | |- frame _ (Terminal.sys_exit _) => apply frame_raise; typeclasses eauto
  | |- frame _ (Terminal.try_except _ _) => apply frame_try; [typeclasses eauto | | intros ?]
  | |- frame _ (Terminal.for_each _ _) => apply frame_for_each; [typeclasses eauto | intros ?]
  | |- frame _ (Terminal.when ?b _) =>
      lazymatch b with true => idtac | false => idtac | _ => destruct b end;
      cbn [Terminal.when]
  | |- frame _ (Terminal.of_option ?o _) => destruct o; cbn [Terminal.of_option]
  | |- frame _ (if ?b then _ else _) =>
      lazymatch b with true => cbv iota | false => cbv iota | _ => destruct b end
  | |- frame _ (match ?x with _ => _ end) => destruct x
  | |- frame _ (Terminal.input _) => unfold Terminal.input
  | |- frame _ (Terminal.select_voice _ _) => unfold Terminal.select_voice
  | |- frame _ (Terminal.get_voices _) => unfold Terminal.get_voices
  | |- frame _ (Terminal.play_audio _ _) => unfold Terminal.play_audio
  | |- frame _ (Terminal.edit_setting _ _ _) => unfold Terminal.edit_setting
  | |- frame _ (Terminal.print_settings _) => unfold Terminal.print_settings
  | |- frame _ (Terminal.generate_audio _ _ _ _) => unfold Terminal.generate_audio
  | |- frame _ (Terminal.list_voices _) => unfold Terminal.list_voices
  | |- frame _ (Terminal.get_api_key _) => unfold Terminal.get_api_key
  | |- frame _ (Terminal.write_temp _ _) => unfold Terminal.write_temp
  | |- frame _ (Terminal.copy_to _ _) => unfold Terminal.copy_to
  | |- frame _ Terminal.cleanup => unfold Terminal.cleanup
  | |- frame _ _ => progress cbv beta zeta
  end.

Ltac frame_auto := repeat frame_step; try (frame_prim; fail).

Lemma menu_keeps_log w l : frame (same_on Terminal.tts_log) (Terminal.menu w l).
Proof. unfold Terminal.menu. frame_auto. Qed.

Lemma menu_no_more_input w l : frame no_more_input (Terminal.menu w l).
Proof. unfold Terminal.menu. frame_auto. Qed.


Lemma attempt_keeps_recordings w l :
  frame (same_on Terminal.recordings) (Terminal.attempt w l).
Proof. unfold Terminal.attempt. frame_auto. Qed.

Lemma prologue_keeps_log w : frame (same_on Terminal.tts_log) (Terminal.prologue w).
Proof. unfold Terminal.prologue. frame_auto. Qed.

Lemma cleanup_keeps_log : frame (same_on Terminal.tts_log) Terminal.cleanup.
Proof. frame_auto. Qed.

Lemma cleanup_keeps_recordings :
  frame (same_on Terminal.recordings) Terminal.cleanup.
Proof. frame_auto. Qed.

Lemma cleanup_keeps_stdin : frame (same_on Terminal.stdin) Terminal.cleanup.
Proof. frame_auto. Qed.

(** What leaving the loop keeps is kept by the step that leaves it. *)
Lemma after_same {X} (f : Terminal.machine -> X) r :
  frame (same_on f) Terminal.cleanup ->
  f (Terminal.machine_of (Terminal.after r)) = f r.2.
Proof.
  intros H. destruct r as [[[[| |] l]|e] m]; try reflexivity.
  exact (H m).
Qed.


Lemma input_eof p m :
  Terminal.stdin m = [] -> (Terminal.input p m).1 = Terminal.Raise EOFError.
Proof.
  intros H. unfold Terminal.input, Terminal.bind, Terminal.print,
    Terminal.read_line. cbn. rewrite H. reflexivity.
Qed.






Lemma finished_stays w n c :
  finished c = true -> Terminal.steps w n c = c.
Proof.
  revert c. induction n as [|n IH]; intros c Hc; [reflexivity|].
  cbn [Terminal.steps]. unfold Terminal.step at 1.
  destruct c as [[p l|r] m]; [discriminate|]. cbn. apply IH. reflexivity.
Qed.




Lemma edit_setting_other key ask s m s' m' k :
  k <> key ->
  Terminal.edit_setting key ask s m = (Terminal.Ret s', m') ->
  s' !! k = s !! k.
Proof.
  intros Hk H. unfold Terminal.edit_setting in H. bind_inv; [|reflexivity].
  by rewrite lookup_insert_ne.
Qed.

Lemma menu_keeps_boost w l m n l' m' :
  Terminal.menu w l m = (Terminal.Ret (n, l'), m') ->
  Terminal.settings l' !! "use_speaker_boost"
  = Terminal.settings l !! "use_speaker_boost".
Proof.
  intros H. unfold Terminal.menu in H. bind_inv; cbn; auto.
  erewrite (edit_setting_other "style"); [| |eassumption]; [|discriminate].
  erewrite (edit_setting_other "similarity_boost"); [| |eassumption]; [|discriminate].
  erewrite (edit_setting_other "stability"); [| |eassumption]; [|discriminate].
  reflexivity.
Qed.

Lemma request_for_ok l :
  settings_full (Terminal.settings l) -> request_ok (request_for l) = true.
Proof.
  intros [(H1 & H2 & H3 & _) Hb]. unfold request_ok, request_for, Terminal.get.
  cbn. rewrite Hb. cbn.
  destruct (Terminal.settings l !! "stability") as [[x|]|]; try discriminate.
  destruct (Terminal.settings l !! "similarity_boost") as [[y|]|]; try discriminate.
  destruct (Terminal.settings l !! "style") as [[z|]|]; try discriminate.
  cbn in *. rewrite H1, H2, H3. reflexivity.
Qed.

Lemma menu_step_log w l m :
  Terminal.tts_log (Terminal.machine_of (Terminal.step w (at_ Terminal.Menu l m)))
  = Terminal.tts_log m.
Proof.
  rewrite step_menu, (after_same _ _ cleanup_keeps_log).
  apply menu_keeps_log.
Qed.

Lemma step_sound w c : session_sound c -> session_sound (Terminal.step w c).
Proof.
  destruct c as [[[|] l|r] m]; intros [Hs Hl]; cbn in Hs, Hl.
  - split.
    + unfold Terminal.step. cbn [Terminal.status_of Terminal.machine_of].
      destruct (Terminal.attempt w l m) as [[[n l']|e] m'] eqn:E; [|exact I].
      apply attempt_locals in E. subst l'. destruct n; cbn; auto.
    + change {| Terminal.status_of := Terminal.Running Terminal.LoopHead l;
                Terminal.machine_of := m |} with (at_ Terminal.LoopHead l m).
      rewrite attempt_sends, forallb_app, Hl. cbn.
      rewrite request_for_ok; auto.
  - split.
    + unfold Terminal.step. cbn [Terminal.status_of Terminal.machine_of].
      destruct (Terminal.menu w l m) as [[[n l']|e] m'] eqn:E; [|exact I].
      assert (settings_full (Terminal.settings l')).
      { destruct Hs as [Ho Hb]. split.
        - eapply menu_settings_ok; eauto.
        - erewrite menu_keeps_boost; eauto. }
      destruct n; cbn; auto.
    + change {| Terminal.status_of := Terminal.Running Terminal.Menu l;
                Terminal.machine_of := m |} with (at_ Terminal.Menu l m).
      rewrite menu_step_log. exact Hl.
  - exact (conj Hs Hl).
Qed.

Lemma start_sound w inp files :
  session_sound (Terminal.start w (Terminal.boot inp files)).
Proof.
  unfold Terminal.start.
  pose proof (prologue_keeps_log w (Terminal.boot inp files)) as Hl.
  unfold same_on in Hl.
  destruct (Terminal.prologue w (Terminal.boot inp files)) as [[l|e] m'] eqn:H;
    cbn in Hl; split; cbn; try exact I; try (rewrite Hl; reflexivity).
  unfold Terminal.prologue in H. bind_inv; split; try apply initial_settings_ok;
    reflexivity.
Qed.

Lemma steps_sound w n : forall c, session_sound c -> session_sound (Terminal.steps w n c).
Proof.
  induction n as [|n IH]; intros c Hc; [exact Hc|]. apply IH, step_sound, Hc.
Qed.

(** X2.  Every request the terminal session sends to the provider, in any
    run, names the model eleven_multilingual_v2, has speaker boost on, carries
    no speed, and has stability, similarity and style in [[0, 1]]. *)
Theorem X2_every_request_is_well_formed (w : world) (inp : list string)
    (files : gmap string bytes) (n : nat) :
  forallb request_ok
    (Terminal.tts_log
       (Terminal.machine_of
          (Terminal.steps w n (Terminal.start w (Terminal.boot inp files)))))
  = true.
Proof. apply steps_sound, start_sound. Qed.

Lemma input_run p m a rest :
  Terminal.stdin m = a :: rest ->
  Terminal.input p m = (Terminal.Ret a, consumed (wrote [Terminal.Ask p] m)).
Proof.
  intros H. unfold Terminal.input, Terminal.bind, Terminal.print,
    Terminal.read_line, consumed, wrote. cbn. rewrite H. reflexivity.
Qed.

(** *** Orderly ends clean up *)

Lemma cleanup_run m :
  Terminal.cleanup m
  = if bool_decide (Terminal.temp_others m = ∅)
    then (Terminal.Ret tt,
          {| Terminal.stdin := Terminal.stdin m;
             Terminal.stdout := Terminal.stdout m;
             Terminal.tts_log := Terminal.tts_log m;
             Terminal.catalog_calls := Terminal.catalog_calls m;
             Terminal.player_calls := Terminal.player_calls m;
             Terminal.temp_dir := false;
             Terminal.temp_file := None;
             Terminal.temp_others := Terminal.temp_others m;
             Terminal.recordings := Terminal.recordings m |})
    else (Terminal.Raise (OSError Terminal.temp_path),
          {| Terminal.stdin := Terminal.stdin m;
             Terminal.stdout := Terminal.stdout m;
             Terminal.tts_log := Terminal.tts_log m;
             Terminal.catalog_calls := Terminal.catalog_calls m;
             Terminal.player_calls := Terminal.player_calls m;
             Terminal.temp_dir := Terminal.temp_dir m;
             Terminal.temp_file := None;
             Terminal.temp_others := Terminal.temp_others m;
             Terminal.recordings := Terminal.recordings m |}).
Proof.
  unfold Terminal.cleanup, Terminal.bind, Terminal.unlink_temp,
    Terminal.rmdir_temp.
  cbn. destruct (bool_decide _); reflexivity.
Qed.

Lemma cleanup_returned m :
  (Terminal.cleanup m).1 = Terminal.Ret tt -> cleaned (Terminal.cleanup m).2.
Proof.
  rewrite cleanup_run. destruct (bool_decide _); [|discriminate].
  intros _. split; reflexivity.
Qed.

Lemma step_returned_cleaned w c :
  (returned c -> cleaned (Terminal.machine_of c)) ->
  returned (Terminal.step w c) -> cleaned (Terminal.machine_of (Terminal.step w c)).
Proof.
  unfold Terminal.step, returned.
  destruct c as [[[|] l|r] m]; cbn [Terminal.status_of Terminal.machine_of];
    auto.
  - destruct (Terminal.attempt w l m) as [[[[| |] l']|e] m'];
      cbn [Terminal.after Terminal.status_of Terminal.machine_of];
      try discriminate.
    intros _ H. apply cleanup_returned. congruence.
  - destruct (Terminal.menu w l m) as [[[[| |] l']|e] m'];
      cbn [Terminal.after Terminal.status_of Terminal.machine_of];
      try discriminate.
    intros _ H. apply cleanup_returned. congruence.
Qed.

Lemma steps_returned_cleaned w n : forall c,
  (returned c -> cleaned (Terminal.machine_of c)) ->
  returned (Terminal.steps w n c) ->
  cleaned (Terminal.machine_of (Terminal.steps w n c)).
Proof.
  induction n as [|n IH]; intros c Hc; [exact Hc|]. cbn [Terminal.steps].
  apply IH. apply step_returned_cleaned, Hc.
Qed.

Lemma start_not_returned w m : ~ returned (Terminal.start w m).
Proof.
  unfold returned, Terminal.start.
  destruct (Terminal.prologue w m) as [[l|e] m']; cbn; discriminate.
Qed.

Lemma quit_command w l m a rest :
  Terminal.stdin m = a :: rest -> Py.lower (Py.strip a) = "q" ->
  Terminal.step w (at_ Terminal.Menu l m)
  = {| Terminal.status_of :=
         Terminal.Finished
           (Terminal.Raise
              (if bool_decide (Terminal.temp_others m = ∅) then SystemExit 0
               else OSError Terminal.temp_path));
       Terminal.machine_of :=
         (Terminal.cleanup
            (wrote [Terminal.SayGoodbye]
               (consumed (wrote [Terminal.Ask Terminal.AskChoice] m)))).2 |}.
Proof.
  intros Hin Ha. rewrite step_menu. unfold Terminal.menu.
  unfold Terminal.bind at 1. rewrite (input_run _ _ _ _ Hin), Ha.
  cbn [String.eqb Ascii.eqb Bool.eqb].
  unfold Terminal.bind, Terminal.print, Terminal.sys_exit, Terminal.raise.
  fold (wrote [Terminal.SayGoodbye]
          (consumed (wrote [Terminal.Ask Terminal.AskChoice] m))).
  rewrite cleanup_run. cbn [Terminal.temp_others wrote consumed].
  destruct (bool_decide _); reflexivity.
Qed.

(** X3.  The orderly ends clean up.  Whenever [main] returns (a retry was
    declined) the working copy and its directory are gone.  The quit command
    deletes the working copy and leaves the recordings in place; it removes
    the directory and exits with code 0 when the directory holds nothing
    else, and ends [main] with the [OSError] of [os.rmdir], the directory
    left behind, when a recording was saved into it. *)
Theorem X3_orderly_ends_clean_up (w : world) (m : Terminal.machine) :
  (forall n,
      returned (Terminal.steps w n (Terminal.start w m)) ->
      cleaned (Terminal.machine_of (Terminal.steps w n (Terminal.start w m))))
  /\ (forall l a rest,
        Terminal.stdin m = a :: rest -> Py.lower (Py.strip a) = "q" ->
        let c := Terminal.step w (at_ Terminal.Menu l m) in
        (if bool_decide (Terminal.temp_others m = ∅)
         then Terminal.status_of c
              = Terminal.Finished (Terminal.Raise (SystemExit 0))
              /\ cleaned (Terminal.machine_of c)
         else Terminal.status_of c
              = Terminal.Finished (Terminal.Raise (OSError Terminal.temp_path))
              /\ Terminal.temp_dir (Terminal.machine_of c) = Terminal.temp_dir m)
        /\ Terminal.temp_file (Terminal.machine_of c) = None
        /\ Terminal.recordings (Terminal.machine_of c) = Terminal.recordings m
        /\ Terminal.stdin (Terminal.machine_of c) = rest).
Proof.
  split.
  - intros n. apply steps_returned_cleaned. intros H.
    exfalso. exact (start_not_returned w m H).
  - intros l a rest Hin Ha c. subst c. rewrite (quit_command w l m a rest Hin Ha).
    cbn [Terminal.status_of Terminal.machine_of]. rewrite cleanup_run.
    cbn [Terminal.temp_others wrote consumed].
    destruct (bool_decide _); cbn; rewrite Hin; repeat split.
Qed.

Lemma bind_input_run {A} p (k : string -> Terminal.M A) m a rest :
  Terminal.stdin m = a :: rest ->
  Terminal.bind (Terminal.input p) k m
  = k a (consumed (wrote [Terminal.Ask p] m)).
Proof.
  intros H. unfold Terminal.bind at 1. rewrite (input_run _ _ _ _ H). reflexivity.
Qed.

Lemma bind_input_eof {A} p (k : string -> Terminal.M A) m :
  Terminal.stdin m = [] ->
  Terminal.bind (Terminal.input p) k m
  = (Terminal.Raise EOFError, wrote [Terminal.Ask p] m).
Proof.
  intros H. unfold Terminal.bind at 1, Terminal.input, Terminal.bind,
    Terminal.print, Terminal.read_line, wrote. cbn. rewrite H. reflexivity.
Qed.

Lemma after_recordings r :
  Terminal.recordings (Terminal.machine_of (Terminal.after r))
  = Terminal.recordings r.2.
Proof. apply after_same, cleanup_keeps_recordings. Qed.

(** X4.  Only the save command writes recordings: a step that is not a
    menu pass reading the choice "s" leaves the recordings directory as it
    was, however the step ends. *)
Theorem X4_only_save_writes_recordings (w : world) (c : Terminal.config) :
  next_choice c <> Some "s" ->
  Terminal.recordings (Terminal.machine_of (Terminal.step w c))
  = Terminal.recordings (Terminal.machine_of c).
Proof.
  unfold next_choice.
  destruct c as [[[|] l|r] m]; cbn [Terminal.status_of Terminal.machine_of];
    intros Hs.
  - unfold Terminal.step. cbn [Terminal.status_of Terminal.machine_of].
    rewrite after_recordings. apply attempt_keeps_recordings.
  - unfold Terminal.step. cbn [Terminal.status_of Terminal.machine_of].
    rewrite after_recordings. unfold Terminal.menu.
    destruct (Terminal.stdin m) as [|a rest] eqn:Hin.
    + rewrite bind_input_eof by assumption. reflexivity.
    + rewrite (bind_input_run _ _ _ _ _ Hin).
      assert (Hs' : String.eqb (Py.lower (Py.strip a)) "s" = false)
        by (apply String.eqb_neq; congruence).
      rewrite Hs'.
      match goal with |- Terminal.recordings (?k ?m1).2 = _ =>
        assert (Hf : frame (same_on Terminal.recordings) k) by frame_auto;
        exact (Hf m1)
      end.
  - reflexivity.
Qed.

Lemma play_audio_run w path :
  Terminal.play_audio w path
  = match player_command (platform w) with
    | Some cmd => Terminal.run_player w cmd
    | None => Terminal.print (Terminal.SayNoPlayback path)
    end.
Proof.
  unfold Terminal.play_audio, player_command.
  repeat case_match; reflexivity.
Qed.

Lemma request_for_bumped l : request_for (bumped l) = request_for l.
Proof. reflexivity. Qed.

(** X5.  Saving right after a generation.  When synthesis, playback and
    the writes succeed, a pass from the loop head followed by the save
    command writes the bytes the provider returned for the request just sent
    to the file the name leads to, a recording or an entry of the temporary
    directory, and the working copy still holds them.  A name that leads to
    the working copy itself saves nothing: the copy is emptied when it is
    opened for writing, before it is read, and stays empty. *)
Theorem X5_save_keeps_the_last_generation (w : world) (l : Terminal.locals)
    (m : Terminal.machine) (a name : string) (rest : list string) :
  reliable w ->
  Terminal.stdin m = a :: name :: rest ->
  Py.lower (Py.strip a) = "s" ->
  Py.truthy (Py.strip name) = true ->
  recordings_dir w = true ->
  writable w (Terminal.recording (Py.strip name)) = true ->
  exists chunks m',
    convert w (List.length (Terminal.tts_log m)) (request_for l) = inr chunks
    /\ Terminal.steps w 2 (at_ Terminal.LoopHead l m)
       = at_ Terminal.Menu (bumped l) m'
    /\ Terminal.stdin m' = rest
    /\ match place w (Terminal.recording (Py.strip name)) with
       | Elsewhere =>
           Terminal.recordings m' !! Terminal.recording (Py.strip name)
           = Some (join_bytes chunks)
           /\ Terminal.temp_file m' = Some (join_bytes chunks)
       | TempDirectory =>
           Terminal.temp_others m' !! Terminal.recording (Py.strip name)
           = Some (join_bytes chunks)
           /\ Terminal.temp_file m' = Some (join_bytes chunks)
           /\ Terminal.recordings m' = Terminal.recordings m
       | WorkingCopy =>
           Terminal.temp_file m' = Some []
           /\ Terminal.recordings m' = Terminal.recordings m
       end.
Proof.
  intros Hw Hin Ha Ht Hdir Hwr.
  destruct (successful_attempt w l m Hw)
    as (m1 & E1 & Hs1 & _ & (chunks & Hc & Ht1) & _).
  pose proof (attempt_keeps_recordings w l m) as Hr1.
  rewrite E1 in Hr1. unfold same_on in Hr1. cbn in Hr1.
  assert (Hin1 : Terminal.stdin m1 = a :: name :: rest) by congruence.
  exists chunks.
  destruct (place w (Terminal.recording (Py.strip name))) eqn:Hp.
  - destruct (save_onto_copy w (bumped l) m1 a name rest (join_bytes chunks)
                Hin1 Ha Ht Ht1 Hdir Hp Hwr)
      as (m2 & E2 & Ht2 & Hr2 & _ & Hs2 & _).
    exists m2. split; [exact Hc|].
    cbn [Terminal.steps]. rewrite step_head, E1, after_Stay, E2.
    repeat split; auto. congruence.
  - destruct (save_beside_copy w (bumped l) m1 a name rest (join_bytes chunks)
                Hin1 Ha Ht Ht1 Hdir Hp Hwr)
      as (m2 & E2 & Ho2 & Ht2 & Hr2 & Hs2).
    exists m2. split; [exact Hc|].
    cbn [Terminal.steps]. rewrite step_head, E1, after_Stay, E2.
    repeat split; auto; [|congruence]. rewrite Ho2. apply lookup_insert_eq.
  - destruct (save_named w (bumped l) m1 a name rest (join_bytes chunks)
                Hin1 Ha Ht Ht1 Hdir Hp Hwr)
      as (m2 & E2 & Hr2 & Ht2 & Hs2 & _).
    exists m2. split; [exact Hc|].
    cbn [Terminal.steps]. rewrite step_head, E1, after_Stay, E2.
    repeat split; auto. rewrite Hr2. apply lookup_insert_eq.
Qed.

(** X6.  Regenerating repeats the request: when nothing fails, a
    generation followed by the command r sends the same request a second
    time, and the working copy then holds the answer to the second call. *)
Theorem X6_regenerate_repeats_the_request (w : world) (l : Terminal.locals)
    (m : Terminal.machine) (a : string) (rest : list string) :
  reliable w ->
  Terminal.stdin m = a :: rest ->
  Py.lower (Py.strip a) = "r" ->
  exists m' chunks,
    Terminal.steps w 3 (at_ Terminal.LoopHead l m)
    = at_ Terminal.Menu (bumped (bumped l)) m'
    /\ Terminal.tts_log m'
       = (Terminal.tts_log m ++ [request_for l; request_for l])%list
    /\ convert w (S (List.length (Terminal.tts_log m))) (request_for l)
       = inr chunks
    /\ Terminal.temp_file m' = Some (join_bytes chunks).
Proof.
  intros Hw Hin Ha.
  destruct (successful_attempt w l m Hw) as (m1 & E1 & Hs1 & Hl1 & _ & _).
  destruct (regenerate_command w (bumped l) m1 a rest)
    as (m2 & E2 & Hs2 & Hl2 & _ & _); [congruence | assumption |].
  destruct (successful_attempt w (bumped l) m2 Hw)
    as (m3 & E3 & _ & Hl3 & (chunks & Hc & Ht3) & _).
  exists m3, chunks.
  cbn [Terminal.steps].
  rewrite step_head, E1, after_Stay, step_menu, E2, after_Again, step_head, E3,
    after_Stay.
  split; [reflexivity|]. split.
  - rewrite Hl3, Hl2, Hl1, request_for_bumped, <- app_assoc. reflexivity.
  - rewrite Hl2, Hl1, length_app, request_for_bumped in Hc. cbn in Hc.
    rewrite Nat.add_1_r in Hc. auto.
Qed.

(** X7.  A new phrase changes the text only: after the command n with a
    non-blank phrase, the next request carries the trimmed phrase with the
    voice and the voice settings of the session unchanged, whether or not the
    synthesis then succeeds. *)
Theorem X7_new_phrase_changes_the_text_only (w : world) (l : Terminal.locals)
    (m : Terminal.machine) (a text : string) (rest : list string) :
  Terminal.stdin m = a :: text :: rest ->
  Py.lower (Py.strip a) = "n" ->
  Py.truthy (Py.strip text) = true ->
  exists rq,
    Terminal.tts_log
      (Terminal.machine_of (Terminal.steps w 2 (at_ Terminal.Menu l m)))
    = (Terminal.tts_log m ++ [rq])%list
    /\ rq_text rq = Py.strip text
    /\ rq_voice_id rq = rq_voice_id (request_for l)
    /\ rq_voice_settings rq = rq_voice_settings (request_for l).
Proof.
  intros Hin Ha Ht.
  destruct (new_phrase_command w l m a text rest Hin Ha)
    as (m1 & E1 & _ & Hl1 & _).
  rewrite Ht in E1.
  eexists. cbn [Terminal.steps].
  rewrite step_menu, E1, after_Again, attempt_sends, Hl1.
  repeat split.
Qed.

Lemma edit_blank key ask s m cur answer rest :
  s !! key = Some cur ->
  Terminal.stdin m = answer :: rest ->
  Py.strip answer = "" ->
  Terminal.edit_setting key ask s m
  = (Terminal.Ret s, consumed (wrote [Terminal.Ask (ask cur)] m)).
Proof.
  intros Hk Hin Hb. unfold Terminal.edit_setting.
  unfold Terminal.bind at 1. rewrite Hk. cbn [Terminal.of_option Terminal.ret].
  rewrite (bind_input_run _ _ _ _ _ Hin), Hb. reflexivity.
Qed.

(** X8.  Blank answers keep the settings: the edit command answered with
    three blank lines leaves the settings dictionary exactly as it was, and
    still regenerates with the request of before. *)
Theorem X8_blank_answers_keep_the_settings (w : world) (l : Terminal.locals)
    (m : Terminal.machine) (a b1 b2 b3 : string) (rest : list string) :
  Terminal.stdin m = a :: b1 :: b2 :: b3 :: rest ->
  Py.lower (Py.strip a) = "e" ->
  settings_ok (Terminal.settings l) ->
  Py.strip b1 = "" -> Py.strip b2 = "" -> Py.strip b3 = "" ->
  exists m',
    Terminal.step w (at_ Terminal.Menu l m)
    = at_ Terminal.LoopHead (Terminal.set_settings (Terminal.settings l) l) m'
    /\ Terminal.stdin m' = rest
    /\ Terminal.tts_log
         (Terminal.machine_of (Terminal.steps w 2 (at_ Terminal.Menu l m)))
       = (Terminal.tts_log m ++ [request_for l])%list.
Proof.
  intros Hin Ha (H1 & H2 & H3 & _) B1 B2 B3.
  apply unit_interval_Some in H1, H2, H3.
  destruct H1 as [y1 H1], H2 as [y2 H2], H3 as [y3 H3].
  assert (E : exists m',
             Terminal.menu w l m
             = (Terminal.Ret (Terminal.Again,
                  Terminal.set_settings (Terminal.settings l) l), m')
             /\ Terminal.stdin m' = rest
             /\ Terminal.tts_log m' = Terminal.tts_log m).
  { unfold Terminal.menu. rewrite (bind_input_run _ _ _ _ _ Hin), Ha.
    cbn [String.eqb Ascii.eqb Bool.eqb].
    unfold Terminal.print_settings.
    unfold Terminal.bind at 1. rewrite print_wrote.
    unfold Terminal.bind at 1. rewrite print_wrote.
    unfold Terminal.bind at 1.
    erewrite (edit_blank "stability" _ _ _ _ b1); eauto;
      [|cbn; rewrite Hin; reflexivity].
    unfold Terminal.bind at 1.
    erewrite (edit_blank "similarity_boost" _ _ _ _ b2); eauto;
      [|cbn; rewrite Hin; reflexivity].
    unfold Terminal.bind at 1.
    erewrite (edit_blank "style" _ _ _ _ b3); eauto;
      [|cbn; rewrite Hin; reflexivity].
    unfold Terminal.bind. rewrite !print_wrote. cbn [Terminal.ret].
    eexists. split; [reflexivity|]. cbn. rewrite Hin. split; reflexivity. }
  destruct E as (m' & E & Hs & Hl).
  exists m'. rewrite step_menu, E, after_Again. split; [reflexivity|].
  split; [exact Hs|].
  cbn [Terminal.steps]. rewrite step_menu, E, after_Again, attempt_sends, Hl.
  reflexivity.
Qed.

(** X9.  A playback failure after a successful synthesis is reported as a
    generation error, but the working copy has already been replaced: the
    output shows the generation announced, then the error and the retry
    prompt, and on the answer y the session is back at the loop head with the
    new audio in the working copy. *)
Theorem X9_playback_failure_after_synthesis (w : world) (l : Terminal.locals)
    (m : Terminal.machine) (chunks : list bytes) (cmd answer : string)
    (e : exn) (rest : list string) :
  convert w (List.length (Terminal.tts_log m)) (request_for l) = inr chunks ->
  writable w Terminal.audio_path = true ->
  player_command (platform w) = Some cmd ->
  player w (Terminal.player_calls m) cmd = Some e ->
  is_Exception e = true ->
  Terminal.stdin m = answer :: rest ->
  let c := Terminal.step w (at_ Terminal.LoopHead l m) in
  Terminal.stdout (Terminal.machine_of c)
  = (Terminal.stdout m
     ++ [Terminal.SayGenerating (Terminal.phrase l) (Terminal.current_voice l)
           (stability (rq_voice_settings (request_for l)))
           (similarity_boost (rq_voice_settings (request_for l)))
           (style (rq_voice_settings (request_for l)));
         Terminal.SayPlaying (Terminal.generation_count l + 1);
         Terminal.SayError e;
         Terminal.Ask Terminal.AskTryAgain])%list
  /\ (Py.lower (Py.strip answer) = "y" ->
      Terminal.status_of c = Terminal.Running Terminal.LoopHead (bumped l)
      /\ Terminal.temp_file (Terminal.machine_of c) = Some (join_bytes chunks)).
Proof.
  intros Hc Hw Hp Hf He Hin c. subst c. rewrite step_head.
  unfold Terminal.attempt, Terminal.bind, Terminal.try_except,
    Terminal.generate_audio, Terminal.bind, Terminal.print,
    Terminal.text_to_speech_convert, Terminal.write_temp, Terminal.bind,
    Terminal.open_wb, Terminal.write.
  cbn. fold (request_for l). rewrite Hc, Hw. cbn.
  rewrite play_audio_run, Hp. unfold Terminal.run_player. cbn. rewrite Hf, He.
  unfold Terminal.input, Terminal.bind, Terminal.print, Terminal.read_line.
  cbn. rewrite Hin.
  split.
  - destruct (String.eqb _ "y");
      cbn [Terminal.after Terminal.ret Terminal.machine_of];
      rewrite ?cleanup_run; try destruct (bool_decide _);
      cbn; rewrite <- !app_assoc; cbn [app]; reflexivity.
  - intros Hy. rewrite Hy. cbn. split; reflexivity.
Qed.

(** X10.  Play again sends no request and leaves the working copy and the
    recordings alone.  On a platform without a player nothing is run and the
    menu goes on; otherwise the player runs once, and a player failure ends
    [main] with the exception, where the same failure after a synthesis is
    caught. *)
Theorem X10_play_again (w : world) (l : Terminal.locals) (m : Terminal.machine)
    (a : string) (rest : list string) :
  Terminal.stdin m = a :: rest ->
  Py.lower (Py.strip a) = "p" ->
  let c := Terminal.step w (at_ Terminal.Menu l m) in
  Terminal.tts_log (Terminal.machine_of c) = Terminal.tts_log m
  /\ Terminal.temp_file (Terminal.machine_of c) = Terminal.temp_file m
  /\ Terminal.recordings (Terminal.machine_of c) = Terminal.recordings m
  /\ match player_command (platform w) with
     | None =>
         Terminal.status_of c = Terminal.Running Terminal.Menu l
         /\ Terminal.player_calls (Terminal.machine_of c) = Terminal.player_calls m
     | Some cmd =>
         Terminal.player_calls (Terminal.machine_of c)
         = S (Terminal.player_calls m)
         /\ Terminal.status_of c
            = match player w (Terminal.player_calls m) cmd with
              | None => Terminal.Running Terminal.Menu l
              | Some e => Terminal.Finished (Terminal.Raise e)
              end
     end.
Proof.
  intros Hin Ha c. subst c. rewrite step_menu. unfold Terminal.menu.
  rewrite (bind_input_run _ _ _ _ _ Hin), Ha.
  cbn [String.eqb Ascii.eqb Bool.eqb].
  unfold Terminal.bind at 1. rewrite print_wrote.
  unfold Terminal.bind at 1. rewrite play_audio_run.
  destruct (player_command (platform w)) as [cmd|].
  - unfold Terminal.run_player, Terminal.bind. cbn.
    destruct (player w (Terminal.player_calls m) cmd); cbn;
      repeat split; reflexivity.
  - rewrite print_wrote. cbn. repeat split.
Qed.

Lemma get_api_key_missing w m :
  (forall k, env_api_key w = Some k -> Py.truthy k = false) ->
  Terminal.get_api_key w m
  = (Terminal.Raise (SystemExit 1), wrote [Terminal.SayApiKeyNotSet] m).
Proof.
  intros H. unfold Terminal.get_api_key.
  destruct (env_api_key w) as [k|]; [rewrite (H k eq_refl)|]; reflexivity.
Qed.

(** X11.  Without an API key (unset or empty) [main] prints the notice and
    exits with code 1 before anything else happens: no input is read, no
    provider is called and no temporary directory is made, also with
    --list-voices on the command line. *)
Theorem X11_no_api_key_no_session (w : world) (m : Terminal.machine) (n : nat) :
  (forall k, env_api_key w = Some k -> Py.truthy k = false) ->
  Terminal.steps w n (Terminal.start w m)
  = {| Terminal.status_of := Terminal.Finished (Terminal.Raise (SystemExit 1));
       Terminal.machine_of := wrote [Terminal.SayApiKeyNotSet] m |}.
Proof.
  intros H. unfold Terminal.start, Terminal.prologue.
  unfold Terminal.bind at 1. rewrite get_api_key_missing by assumption.
  apply finished_stays. reflexivity.
Qed.

Lemma enumerate1_lookup {A} (l : list A) i :
  Terminal.enumerate1 l !! i = (fun x => (S i, x)) <$> l !! i.
Proof. unfold Terminal.enumerate1. rewrite list_lookup_imap. reflexivity. Qed.

Lemma get_voices_run w m :
  Terminal.get_voices w m
  = (match get_all w (Terminal.catalog_calls m) with
     | inl e => Terminal.Raise e
     | inr vs => Terminal.Ret vs
     end, called m).
Proof.
  unfold Terminal.get_voices, Terminal.voices_get_all.
  destruct (get_all w _); reflexivity.
Qed.

(** X12.  With --list-voices as first argument [main] writes the header,
    calls the provider once and, when it answers, writes one row per voice,
    numbered from 1 in the provider's order, then exits with code 0; the
    category column shows the attribute as [category_of] formats it, the
    text [None] for a voice without a category.  When the provider fails the
    exception ends [main] after the header.  No request is sent, no input
    read, no temporary directory made. *)
Theorem X12_list_voices (w : world) (m : Terminal.machine) (key prog : string)
    (more : list string) (n : nat) :
  env_api_key w = Some key -> Py.truthy key = true ->
  argv w = prog :: "--list-voices" :: more ->
  let c := Terminal.steps w n (Terminal.start w m) in
  match get_all w (Terminal.catalog_calls m) with
  | inr voices =>
      Terminal.status_of c = Terminal.Finished (Terminal.Raise (SystemExit 0))
      /\ Terminal.stdout (Terminal.machine_of c)
         = (Terminal.stdout m
            ++ Terminal.SayVoicesHeader true
               :: map (fun iv => Terminal.SayVoiceListRow iv.1 iv.2 (category_of iv.2))
                    (Terminal.enumerate1 voices)
            ++ [Terminal.SayBlank])%list
  | inl e =>
      Terminal.status_of c = Terminal.Finished (Terminal.Raise e)
      /\ Terminal.stdout (Terminal.machine_of c)
         = (Terminal.stdout m ++ [Terminal.SayVoicesHeader true])%list
  end
  /\ Terminal.catalog_calls (Terminal.machine_of c) = S (Terminal.catalog_calls m)
  /\ Terminal.tts_log (Terminal.machine_of c) = Terminal.tts_log m
  /\ Terminal.stdin (Terminal.machine_of c) = Terminal.stdin m
  /\ Terminal.temp_dir (Terminal.machine_of c) = Terminal.temp_dir m.
Proof.
  intros Hk Ht Ha c.
  assert (E : Terminal.start w m
              = match get_all w (Terminal.catalog_calls m) with
                | inr voices =>
                    {| Terminal.status_of :=
                         Terminal.Finished (Terminal.Raise (SystemExit 0));
                       Terminal.machine_of :=
                         wrote [Terminal.SayBlank]
                           (wrote (map (fun iv => Terminal.SayVoiceListRow iv.1 iv.2
                                                    (category_of iv.2))
                                     (Terminal.enumerate1 voices))
                              (called (wrote [Terminal.SayVoicesHeader true] m))) |}
                | inl e =>
                    {| Terminal.status_of := Terminal.Finished (Terminal.Raise e);
                       Terminal.machine_of :=
                         called (wrote [Terminal.SayVoicesHeader true] m) |}
                end).
  { unfold Terminal.start, Terminal.prologue.
    unfold Terminal.bind at 1. unfold Terminal.get_api_key. rewrite Hk, Ht.
    cbn [Terminal.ret]. rewrite Ha. cbn [List.length Nat.ltb Nat.leb andb].
    rewrite bool_decide_eq_true_2 by reflexivity.
    cbn [andb]. unfold Terminal.list_voices.
    unfold Terminal.bind at 1. unfold Terminal.bind at 1. rewrite print_wrote.
    unfold Terminal.bind at 1. rewrite get_voices_run.
    cbn [wrote Terminal.catalog_calls].
    destruct (get_all w (Terminal.catalog_calls m)) as [e|voices]; [reflexivity|].
    unfold Terminal.bind at 1. rewrite for_each_print.
    rewrite print_wrote. reflexivity. }
  subst c. rewrite E.
  destruct (get_all w (Terminal.catalog_calls m)) as [e|voices] eqn:Hg;
    rewrite finished_stays by reflexivity; cbn;
    repeat split; rewrite <- ?app_assoc; reflexivity.
Qed.

Lemma ascii_digit_char c :
  (Py.code c <? 128)%N = true -> Py.is_digit_char c = true ->
  Py.is_ascii_digit c = true.
Proof.
  unfold Py.is_digit_char. intros Hc Hd.
  apply N.ltb_lt in Hc.
  destruct (Py.is_ascii_digit c); [reflexivity|]. cbn in Hd.
  apply orb_true_iff in Hd. destruct Hd as [Hd|Hd];
    [apply orb_true_iff in Hd; destruct Hd as [Hd|Hd]|];
    apply N.eqb_eq in Hd; lia.
Qed.

Lemma ascii_digits s :
  is_ascii s = true -> Py.all_chars Py.is_digit_char s = true ->
  Py.all_chars Py.is_ascii_digit s = true.
Proof.
  induction s as [|c s IH]; cbn; [reflexivity|].
  intros Ha Hd. apply andb_true_iff in Ha, Hd.
  destruct Ha as [Ha1 Ha2], Hd as [Hd1 Hd2].
  rewrite (ascii_digit_char c Ha1 Hd1), IH; auto.
Qed.

Lemma digit_not_space c : Py.is_ascii_digit c = true -> Py.is_space c = false.
Proof.
  unfold Py.is_ascii_digit, Py.is_space. intros H.
  apply andb_true_iff in H. destruct H as [H1 H2].
  apply N.leb_le in H1, H2.
  repeat match goal with
  | |- context [(?a <=? ?b)%N] => destruct (N.leb_spec a b)
  | |- context [(?a =? ?b)%N] => destruct (N.eqb_spec a b)
  end; cbn; try reflexivity; lia.
Qed.

Lemma rstrip_digits s :
  Py.all_chars Py.is_ascii_digit s = true -> Py.rstrip s = s.
Proof.
  induction s as [|c s IH]; cbn; [reflexivity|].
  intros H. apply andb_true_iff in H. destruct H as [Hc Hs].
  rewrite (IH Hs). destruct s; [|reflexivity].
  rewrite (digit_not_space c Hc). reflexivity.
Qed.

Lemma strip_digits s :
  Py.all_chars Py.is_ascii_digit s = true -> Py.strip s = s.
Proof.
  intros H. unfold Py.strip.
  assert (Py.lstrip s = s) as ->.
  { destruct s as [|c s]; [reflexivity|]. cbn in *.
    apply andb_true_iff in H. destruct H as [Hc _].
    rewrite (digit_not_space c Hc). reflexivity. }
  apply rstrip_digits, H.
Qed.

Lemma more_digits_all l :
  forallb Py.is_ascii_digit l = true ->
  Py.more_digits l = (map Py.digit_val l, []).
Proof.
  induction l as [|c l IH]; cbn; [reflexivity|].
  intros H. apply andb_true_iff in H. destruct H as [Hc Hl].
  rewrite Hc, (IH Hl). reflexivity.
Qed.

Lemma all_chars_forallb p s :
  Py.all_chars p s = forallb p (Py.chars s).
Proof. induction s as [|c s IH]; cbn; [reflexivity|]. by rewrite IH. Qed.

Lemma digit_val_range c :
  Py.is_ascii_digit c = true -> (0 <= Py.digit_val c <= 9)%Z.
Proof.
  unfold Py.is_ascii_digit, Py.digit_val. intros H.
  apply andb_true_iff in H. destruct H as [H1 H2].
  apply N.leb_le in H1, H2. lia.
Qed.

Lemma digits_value_nonneg l :
  forallb Py.is_ascii_digit l = true ->
  (0 <= Py.digits_value (map Py.digit_val l))%Z.
Proof.
  unfold Py.digits_value.
  assert (G : forall acc, (0 <= acc)%Z -> forallb Py.is_ascii_digit l = true ->
              (0 <= fold_left (fun acc d => 10 * acc + d) (map Py.digit_val l) acc)%Z).
  { induction l as [|c l IH]; cbn; intros acc Ha H; [exact Ha|].
    apply andb_true_iff in H. destruct H as [Hc Hl].
    apply IH; [|exact Hl]. pose proof (digit_val_range c Hc). lia. }
  apply G. lia.
Qed.

Lemma digit_sign c l :
  Py.is_ascii_digit c = true -> Py.sign (c :: l) = (false, c :: l).
Proof.
  intros H. unfold Py.sign.
  destruct (Ascii.eqb_spec c "-") as [->|_]; [discriminate|].
  destruct (Ascii.eqb_spec c "+") as [->|_]; [discriminate|]. reflexivity.
Qed.

Lemma chars_length s : List.length (Py.chars s) = String.length s.
Proof.
  unfold Py.chars. induction s as [|c s IH]; cbn; [reflexivity|]. by rewrite IH.
Qed.

(** [int] on a string of ASCII digits: the limit on the digits is the only
    way to fail. *)
Lemma int_of_ascii_digits s :
  is_ascii s = true -> Py.isdigit s = true ->
  if (String.length s <=? Py.int_max_str_digits)%nat
  then exists n, Py.int s = Some n /\ (0 <= n)%Z
  else Py.int s = None.
Proof.
  unfold Py.isdigit. intros Ha Hd. apply andb_true_iff in Hd.
  destruct Hd as [Hne Hd].
  pose proof (ascii_digits s Ha Hd) as Hs.
  unfold Py.int. rewrite (strip_digits s Hs).
  rewrite <- (chars_length s).
  rewrite all_chars_forallb in Hs.
  destruct s as [|c s]; [discriminate|]. cbn [Py.chars list_ascii_of_string] in *.
  cbn [forallb] in Hs. apply andb_true_iff in Hs. destruct Hs as [Hc Hl].
  rewrite (digit_sign c _ Hc). unfold Py.digitpart. rewrite Hc.
  rewrite (more_digits_all _ Hl).
  change (Py.digit_val c :: map Py.digit_val (list_ascii_of_string s))
    with (map Py.digit_val (c :: list_ascii_of_string s)).
  rewrite length_map.
  destruct (List.length (c :: list_ascii_of_string s) <=? Py.int_max_str_digits)%nat;
    [|reflexivity].
  eexists. split; [reflexivity|].
  apply digits_value_nonneg. cbn. rewrite Hc. exact Hl.
Qed.

(** X13.  For an answer made of ASCII characters [select_voice], once the
    voices are listed, raises in one case only: a digit string of more than
    4300 digits passes the [isdigit] guard and makes [int] raise
    [ValueError].  For every other ASCII answer it returns: the guard makes
    [int] succeed, an ordinal in range always finds its voice, and the voice
    returned is the current one or one of the list. *)
Theorem X13_ascii_answers_and_the_digit_limit (w : world) (current : string)
    (m : Terminal.machine) (voices : list Voice) (answer : string)
    (rest : list string) :
  get_all w (Terminal.catalog_calls m) = inr voices ->
  Terminal.stdin m = answer :: rest ->
  is_ascii (Py.strip answer) = true ->
  if Py.isdigit (Py.strip answer)
     && (Py.int_max_str_digits <? String.length (Py.strip answer))%nat
  then (Terminal.select_voice w current m).1 = Terminal.Raise ValueError
  else exists v m',
    Terminal.select_voice w current m = (Terminal.Ret v, m')
    /\ (v = current \/ v ∈ map voice_id voices).
Proof.
  intros Hg Hin Ha.
  destruct (Py.isdigit (Py.strip answer)) eqn:Hd; cbn [andb].
  - pose proof (int_of_ascii_digits _ Ha Hd) as Hi.
    assert (Ht : Py.truthy (Py.strip answer) = true).
    { unfold Py.isdigit in Hd. apply andb_true_iff in Hd. tauto. }
    rewrite (select_voice_run w current m voices answer rest Hg Hin).
    cbn zeta. rewrite Ht, Hd. cbn [andb].
    destruct (Nat.ltb_spec Py.int_max_str_digits (String.length (Py.strip answer)))
      as [Hlong|Hshort].
    + rewrite (proj2 (Nat.leb_gt _ _) Hlong) in Hi. rewrite Hi. reflexivity.
    + rewrite (proj2 (Nat.leb_le _ _) Hshort) in Hi.
      destruct Hi as (n & -> & Hn).
      destruct ((1 <=? n)%Z && (n <=? Z.of_nat (List.length voices))%Z) eqn:Hr;
        [|eauto].
      apply andb_true_iff in Hr. destruct Hr as [H1 H2].
      apply Z.leb_le in H1, H2.
      destruct (lookup_lt_is_Some_2 voices (Z.to_nat (n - 1))) as [x Hx]; [lia|].
      rewrite Hx. exists (voice_id x). eexists. split; [reflexivity|]. right.
      apply list_elem_of_fmap. exists x. split; [reflexivity|].
      eapply list_elem_of_lookup_2; eauto.
  - rewrite (select_voice_run w current m voices answer rest Hg Hin).
    cbn zeta. rewrite Hd, andb_false_r. eauto.
Qed.

(** X14.  The number shown next to a voice selects it: the table row of
    the voice at position [i] shows [i + 1], and a string of digits that
    [int] reads as [i + 1], which it does for at most 4300 digits, returns
    that voice's id and announces its name. *)
Theorem X14_the_number_shown_selects_the_voice (w : world) (current : string)
    (m : Terminal.machine) (voices : list Voice) (answer : string)
    (rest : list string) (i : nat) (v : Voice) :
  get_all w (Terminal.catalog_calls m) = inr voices ->
  Terminal.stdin m = answer :: rest ->
  voices !! i = Some v ->
  Py.truthy (Py.strip answer) && Py.isdigit (Py.strip answer) = true ->
  Py.int (Py.strip answer) = Some (Z.of_nat (S i)) ->
  voice_table voices current !! S i
  = Some (Terminal.SayVoiceRow (S i) v (category_of v)
            (String.eqb (voice_id v) current))
  /\ Terminal.select_voice w current m
     = (Terminal.Ret (voice_id v),
        wrote [Terminal.SaySelected (name v)]
          (wrote (voice_table voices current) (listed rest m))).
Proof.
  intros Hg Hin Hv Hd Hn. split.
  - unfold voice_table. rewrite lookup_cons.
    rewrite lookup_app_l by (rewrite length_map; unfold Terminal.enumerate1;
      rewrite length_imap; eapply lookup_lt_Some; eauto).
    rewrite list_lookup_fmap, enumerate1_lookup, Hv. reflexivity.
  - rewrite (select_voice_run w current m voices answer rest Hg Hin).
    cbn zeta. rewrite Hd, Hn.
    pose proof (lookup_lt_Some _ _ _ Hv) as Hlt.
    replace ((1 <=? Z.of_nat (S i))%Z
             && (Z.of_nat (S i) <=? Z.of_nat (List.length voices))%Z) with true
      by (symmetry; apply andb_true_iff; split; apply Z.leb_le; lia).
    replace (Z.to_nat (Z.of_nat (S i) - 1)) with i by lia.
    rewrite Hv. reflexivity.
Qed.

#[export] Instance still_preorder {X} (f : Reactive.server -> X) :
  PreOrder (still f).
Proof. split; unfold still; [intros s; reflexivity | intros a b c; congruence]. Qed.

Section ReactiveFrame.
Context (R : relation Reactive.server) `{!PreOrder R}.

Lemma rframe_ret {A} (a : A) : rframe R (Reactive.ret a).
Proof. intros s. reflexivity. Qed.

Lemma rframe_finish {A} x : rframe R (@Reactive.finish A x).
Proof. intros s. reflexivity. Qed.

Lemma rframe_bind {A B} (c : Reactive.M A) (k : A -> Reactive.M B) :
  rframe R c -> (forall a, rframe R (k a)) -> rframe R (Reactive.bind c k).
Proof.
  intros Hc Hk s. unfold Reactive.bind. specialize (Hc s).
  destruct (c s) as [[a|x] s1]; cbn in *; [|exact Hc].
  etransitivity; [exact Hc | apply Hk].
Qed.

Lemma rframe_try {A} (c : Reactive.M A) (h : exn -> Reactive.M A) :
  rframe R c -> (forall e, rframe R (h e)) -> rframe R (Reactive.try_except c h).
Proof.
  intros Hc Hh s. unfold Reactive.try_except. specialize (Hc s).
  destruct (c s) as [[a|[| | |e]] s1]; cbn in *; try exact Hc.
  destruct (is_Exception e); [|exact Hc].
  etransitivity; [exact Hc | apply Hh].
Qed.
End ReactiveFrame.

Ltac rframe_prim :=
  let s := fresh "s" in
  intros s;
  unfold Reactive.show, Reactive.set_voices_cache, Reactive.set_audio_data,
    Reactive.set_last_phrase, Reactive.get_server, Reactive.fetch_voices,
    Reactive.generate_audio, Reactive.mkdir_recordings, Reactive.write_bytes,
    still;
  repeat case_match; cbn; try reflexivity.

Ltac rframe_step :=
  lazymatch goal with
  | |- rframe _ (Reactive.bind _ _) =>
      apply rframe_bind; [typeclasses eauto | | intros ?]
  | |- rframe _ (Reactive.ret _) => apply rframe_ret; typeclasses eauto
  | |- rframe _ (Reactive.finish _) => apply rframe_finish; typeclasses eauto
  | |- rframe _ (Reactive.raise _) => apply rframe_finish; typeclasses eauto
  | |- rframe _ (Reactive.try_except _ _) =>
      apply rframe_try; [typeclasses eauto | | intros ?]
  | |- rframe _ (Reactive.when ?b _) =>
      lazymatch b with true => idtac | false => idtac | _ => destruct b end;
      cbn [Reactive.when]
  | |- rframe _ (Reactive.of_option ?o _) => destruct o; cbn [Reactive.of_option]
  | |- rframe _ (if ?b then _ else _) =>
      lazymatch b with true => cbv iota | false => cbv iota | _ => destruct b end
  | |- rframe _ (match ?x with _ => _ end) => destruct x
  | |- rframe _ (Reactive.get_client _) => unfold Reactive.get_client
  | |- rframe _ (Reactive.get_voices _ _) => unfold Reactive.get_voices
  | |- rframe _ Reactive.get_voices_clear => unfold Reactive.get_voices_clear
  | |- rframe _ (Reactive.save_recording _ _ _) => unfold Reactive.save_recording
  | |- rframe _ _ => progress cbv beta zeta
  end.

Ltac rframe_auto := repeat rframe_step; try (rframe_prim; fail).

Lemma run_script_frame R `{!PreOrder R} w t ws :
  rframe R (Reactive.script w t ws) ->
  (forall s, R s (Reactive.clear_page s)) ->
  forall s, R s (Reactive.run_script w t ws s).2.
Proof.
  intros Hf Hc s. unfold Reactive.run_script.
  specialize (Hf (Reactive.clear_page s)).
  destruct (Reactive.script w t ws (Reactive.clear_page s)) as [[a|x] s'];
    cbn in *; (etransitivity; [apply Hc | exact Hf]).
Qed.

(** X15.  In the reactive form a script run sends a synthesis request only
    after a click on Generate or Regenerate with a non-blank phrase, and
    writes a recording only after a click on Save with a non-blank file name,
    however the run ends. *)
Theorem X15_reactive_calls_need_a_click (w : world) (t : Z)
    (ws : Reactive.widgets) (s : Reactive.server) :
  let s' := (Reactive.run_script w t ws s).2 in
  ((Reactive.w_generate ws || Reactive.w_regenerate ws = false
    \/ Py.truthy (Py.strip (Reactive.w_phrase ws)) = false) ->
   Reactive.tts_log s' = Reactive.tts_log s)
  /\ ((Reactive.w_save ws = false
       \/ Py.truthy (Py.strip (Reactive.w_save_name ws)) = false) ->
      Reactive.recordings s' = Reactive.recordings s).
Proof.
  cbn zeta. split.
  - intros H. apply (run_script_frame (still Reactive.tts_log)); [|reflexivity].
    unfold Reactive.script.
    destruct H as [H|H]; rewrite H; cbn [negb]; rframe_auto.
  - intros H. apply (run_script_frame (still Reactive.recordings)); [|reflexivity].
    unfold Reactive.script.
    destruct H as [H|H]; rewrite H; rframe_auto.
Qed.

Lemma dict_get_set_eq k v d :
  Reactive.dict_get k (Reactive.dict_set k v d) = Some v.
Proof.
  induction d as [|[k' x] d IH]; cbn.
  - by rewrite String.eqb_refl.
  - destruct (String.eqb k' k) eqn:E; cbn; rewrite E; auto.
Qed.

Lemma dict_get_set_ne k k' v d :
  k' <> k -> Reactive.dict_get k' (Reactive.dict_set k v d) = Reactive.dict_get k' d.
Proof.
  intros Hne. induction d as [|[k0 x] d IH]; cbn.
  - destruct (String.eqb_spec k k'); [congruence | reflexivity].
  - destruct (String.eqb_spec k0 k) as [->|Hk]; cbn.
    + destruct (String.eqb_spec k k'); [congruence | reflexivity].
    + destruct (String.eqb k0 k'); auto.
Qed.

Lemma dict_keys_set k v d :
  map fst (Reactive.dict_set k v d)
  = if bool_decide (k ∈ map fst d) then map fst d else (map fst d ++ [k])%list.
Proof.
  induction d as [|[k0 x] d IH]; cbn; [reflexivity|].
  destruct (String.eqb_spec k0 k) as [->|Hk]; cbn.
  - rewrite bool_decide_eq_true_2 by (apply elem_of_cons; auto).
    reflexivity.
  - rewrite IH. destruct (bool_decide (k ∈ map fst d)) eqn:E.
    + apply bool_decide_eq_true in E.
      rewrite bool_decide_eq_true_2 by (apply elem_of_cons; auto).
      reflexivity.
    + apply bool_decide_eq_false in E.
      rewrite bool_decide_eq_false_2
        by (rewrite elem_of_cons; intros [?|?]; [congruence|contradiction]).
      reflexivity.
Qed.

Lemma dict_keys_NoDup k v d :
  NoDup (map fst d) -> NoDup (map fst (Reactive.dict_set k v d)).
Proof.
  intros H. rewrite dict_keys_set. case_bool_decide; [exact H|].
  apply NoDup_app. split; [exact H|]. split; [|apply NoDup_singleton].
  intros x Hx Hk. apply list_elem_of_singleton in Hk. congruence.
Qed.

Lemma dict_get_is_Some k d :
  k ∈ map fst d -> is_Some (Reactive.dict_get k d).
Proof.
  induction d as [|[k0 x] d IH]; cbn; [inversion 1|].
  intros H. destruct (String.eqb_spec k0 k); [eauto|].
  apply IH. apply elem_of_cons in H as [?|?]; [congruence|assumption].
Qed.

Lemma voice_options_fold_right k (l : list Reactive.row) d :
  Reactive.dict_get k
    (fold_right (fun r d => Reactive.dict_set (Reactive.label r.1.2 r.2) r.1.1 d)
       d l)
  = match row_id <$> find (fun r => String.eqb (row_label r) k) l with
    | Some v => Some v
    | None => Reactive.dict_get k d
    end.
Proof.
  induction l as [|r l IH]; [reflexivity|]. cbn [fold_right find].
  unfold row_label at 1.
  destruct (String.eqb_spec (Reactive.label r.1.2 r.2) k) as [<-|Hk].
  - cbn. apply dict_get_set_eq.
  - rewrite dict_get_set_ne by congruence. exact IH.
Qed.

Lemma voice_options_fold k voices d :
  Reactive.dict_get k
    (fold_left (fun d r => Reactive.dict_set (Reactive.label r.1.2 r.2) r.1.1 d)
       voices d)
  = match last_with_label k voices with
    | Some v => Some v
    | None => Reactive.dict_get k d
    end.
Proof.
  rewrite <- fold_left_rev_right. apply voice_options_fold_right.
Qed.

Lemma voice_options_keys_fold voices : forall d,
  NoDup (map fst d) ->
  NoDup (map fst
           (fold_left (fun d r => Reactive.dict_set (Reactive.label r.1.2 r.2) r.1.1 d)
              voices d))
  /\ (d <> [] \/ voices <> [] ->
      fold_left (fun d r => Reactive.dict_set (Reactive.label r.1.2 r.2) r.1.1 d)
        voices d <> []).
Proof.
  induction voices as [|r voices IH]; intros d Hd; cbn [fold_left].
  - split; [exact Hd|]. intros [H|H]; congruence.
  - destruct (IH (Reactive.dict_set (Reactive.label r.1.2 r.2) r.1.1 d)) as [H1 H2].
    + apply dict_keys_NoDup, Hd.
    + split; [exact H1|]. intros _. apply H2. left.
      destruct d as [|[k0 x] d]; cbn; [discriminate|].
      destruct (String.eqb k0 _); discriminate.
Qed.

(** X16.  The select box options: the labels are distinct, and the voice
    id behind a label is that of the last voice with that name and category,
    so of two voices with the same label only the later one can be chosen. *)
Theorem X16_voice_options_last_label_wins (voices : list Reactive.row)
    (k : string) :
  Reactive.dict_get k (Reactive.voice_options voices) = last_with_label k voices
  /\ NoDup (map fst (Reactive.voice_options voices)).
Proof.
  split.
  - unfold Reactive.voice_options. rewrite voice_options_fold.
    destruct (last_with_label k voices); reflexivity.
  - apply voice_options_keys_fold. constructor.
Qed.

Lemma selectbox_elem options chosen o :
  Reactive.selectbox options chosen = Some o -> o ∈ options.
Proof.
  unfold Reactive.selectbox.
  destruct (options !! chosen) eqn:E.
  - intros H. inversion H; subst. eapply list_elem_of_lookup_2; eauto.
  - intros H. eapply list_elem_of_lookup_2; eauto.
Qed.

Lemma selectbox_nonempty options chosen :
  options <> [] -> is_Some (Reactive.selectbox options chosen).
Proof.
  unfold Reactive.selectbox. intros H.
  destruct (options !! chosen); [eauto|].
  destruct options; [congruence|]. cbn. eauto.
Qed.

Lemma chosen_voice_some voices ws :
  voices <> [] -> is_Some (chosen_voice voices ws).
Proof.
  intros Hv. unfold chosen_voice.
  destruct (voice_options_keys_fold voices [] (NoDup_nil_2)) as [_ Hne].
  fold (Reactive.voice_options voices) in Hne.
  destruct (selectbox_nonempty (map fst (Reactive.voice_options voices))
              (Reactive.w_selected ws)) as [o Ho].
  { destruct (Reactive.voice_options voices); [|discriminate].
    exfalso. apply Hne; auto. }
  rewrite Ho. cbn. apply dict_get_is_Some. eapply selectbox_elem; eauto.
Qed.

Lemma get_voices_keeps_page w t :
  rframe (still Reactive.page) (Reactive.get_voices w t).
Proof. rframe_auto. Qed.

Lemma get_voices_keeps_recordings w t :
  rframe (still Reactive.recordings) (Reactive.get_voices w t).
Proof. rframe_auto. Qed.

Lemma get_voices_keeps_log w t :
  rframe (still Reactive.tts_log) (Reactive.get_voices w t).
Proof. rframe_auto. Qed.

(** The head of a run: the client is there and the voices were obtained. *)
Lemma script_head w t ws s key voices s1 :
  env_api_key w = Some key -> Py.truthy key = true ->
  Reactive.get_voices w t (Reactive.clear_page s) = (Reactive.Ret voices, s1) ->
  Reactive.script w t ws (Reactive.clear_page s)
  = Reactive.bind
      (Reactive.when (Reactive.w_refresh ws)
         (Reactive.bind Reactive.get_voices_clear
            (fun _ => Reactive.finish Reactive.Rerun)))
      (fun _ =>
         Reactive.bind
           (Reactive.when (Reactive.w_generate ws || Reactive.w_regenerate ws)
              (if negb (Py.truthy (Py.strip (Reactive.w_phrase ws)))
               then Reactive.show Reactive.WarnEnterPhrase
               else
                 Reactive.bind
                   (Reactive.of_option (chosen_voice voices ws)
                      (KeyError
                         (default "None"
                            (Reactive.selectbox
                               (map fst (Reactive.voice_options voices))
                               (Reactive.w_selected ws)))))
                   (fun voice_id =>
                      Reactive.try_except
                        (Reactive.bind
                           (Reactive.generate_audio w
                              (Py.strip (Reactive.w_phrase ws)) voice_id
                              (Reactive.w_stability ws) (Reactive.w_similarity ws)
                              (Reactive.w_style ws) (Reactive.w_speed ws))
                           (fun audio_data =>
                              Reactive.bind (Reactive.set_audio_data audio_data)
                                (fun _ =>
                                   Reactive.set_last_phrase
                                     (Py.strip (Reactive.w_phrase ws)))))
                        (fun e => Reactive.show (Reactive.ErrorGenerating e)))))
           (fun _ =>
              Reactive.bind Reactive.get_server
                (fun s =>
                   match Reactive.audio_data s with
                   | Some data =>
                       Reactive.bind (Reactive.show (Reactive.AudioPlayer data))
                         (fun _ =>
                            Reactive.bind
                              (Reactive.when (Reactive.w_save ws)
                                 (if Py.truthy (Py.strip (Reactive.w_save_name ws))
                                  then
                                    Reactive.bind
                                      (Reactive.save_recording w data
                                         (Py.strip (Reactive.w_save_name ws)))
                                      (fun save_path =>
                                         Reactive.show (Reactive.SuccessSaved save_path))
                                  else Reactive.show Reactive.WarnEnterFilename))
                              (fun _ => Reactive.show (Reactive.DownloadButton data)))
                   | None => Reactive.ret tt
                   end))) s1.
Proof.
  intros Hk Ht Hv. unfold Reactive.script.
  unfold Reactive.bind at 1. unfold Reactive.get_client. rewrite Hk, Ht.
  cbn [Reactive.ret]. unfold Reactive.bind at 1. rewrite Hv. reflexivity.
Qed.

(** X17.  Generate needs a voice: with a non-blank phrase and an empty
    voice list the run ends with an uncaught [KeyError] before any request;
    with a non-empty list a voice is always found and exactly one request is
    sent for it. *)
Theorem X17_generate_needs_a_voice (w : world) (t : Z) (ws : Reactive.widgets)
    (s s1 : Reactive.server) (key : string) (voices : list Reactive.row) :
  env_api_key w = Some key -> Py.truthy key = true ->
  Reactive.get_voices w t (Reactive.clear_page s) = (Reactive.Ret voices, s1) ->
  Reactive.w_refresh ws = false ->
  Reactive.w_generate ws || Reactive.w_regenerate ws = true ->
  Reactive.w_save ws = false ->
  Py.truthy (Py.strip (Reactive.w_phrase ws)) = true ->
  match voices with
  | [] =>
      Reactive.run_script w t ws s = (Reactive.Uncaught (KeyError "None"), s1)
  | _ :: _ =>
      exists v,
        chosen_voice voices ws = Some v
        /\ Reactive.tts_log (Reactive.run_script w t ws s).2
           = (Reactive.tts_log s1 ++ [request_of ws v])%list
  end.
Proof.
  intros Hk Ht Hv Hr Hg Hs Hp.
  destruct voices as [|r voices].
  - unfold Reactive.run_script.
    rewrite (script_head w t ws s key [] s1 Hk Ht Hv), Hr, Hg, Hp.
    reflexivity.
  - destruct (chosen_voice_some (r :: voices) ws) as [v Hc]; [discriminate|].
    exists v. split; [exact Hc|].
    destruct (generate_records w t ws s key (r :: voices) s1 v) as [Hl _]; auto.
Qed.


(** X19.  A click on Refresh Voices clears the cached voice list and ends
    the run with a rerun before anything is rendered, generated or saved; the
    next [get_voices] calls the provider. *)
Theorem X19_refresh_clears_the_cache (w : world) (t : Z)
    (ws : Reactive.widgets) (s s1 : Reactive.server) (key : string)
    (voices : list Reactive.row) :
  env_api_key w = Some key -> Py.truthy key = true ->
  Reactive.get_voices w t (Reactive.clear_page s) = (Reactive.Ret voices, s1) ->
  Reactive.w_refresh ws = true ->
  let r := Reactive.run_script w t ws s in
  r.1 = Reactive.Rerun
  /\ Reactive.voices_cache r.2 = None
  /\ Reactive.page r.2 = []
  /\ Reactive.tts_log r.2 = Reactive.tts_log s
  /\ Reactive.recordings r.2 = Reactive.recordings s
  /\ same_session s r.2
  /\ (forall t' vs,
        get_all w (Reactive.catalog_calls r.2) = inr vs ->
        Reactive.catalog_calls (Reactive.get_voices w t' r.2).2
        = S (Reactive.catalog_calls r.2)).
Proof.
  intros Hk Ht Hv Hr r. subst r.
  pose proof (keeps_get_voices w t (Reactive.clear_page s)) as [Ka Kl].
  pose proof (get_voices_keeps_page w t (Reactive.clear_page s)) as Kp.
  pose proof (get_voices_keeps_recordings w t (Reactive.clear_page s)) as Kr.
  pose proof (get_voices_keeps_log w t (Reactive.clear_page s)) as Kg.
  rewrite Hv in Ka, Kl, Kp, Kr, Kg. unfold still in Kp, Kr, Kg.
  cbn in Ka, Kl, Kp, Kr, Kg.
  assert (E : Reactive.run_script w t ws s
              = (Reactive.Rerun, (Reactive.set_voices_cache None s1).2)).
  { unfold Reactive.run_script.
    rewrite (script_head w t ws s key voices s1 Hk Ht Hv), Hr. reflexivity. }
  rewrite E. cbn [fst snd].
  split; [reflexivity|]. split; [reflexivity|]. split; [exact Kp|].
  split; [exact Kg|]. split; [exact Kr|]. split; [split; [exact Ka | exact Kl]|].
  intros t' vs Hg.
  destruct (cache_miss w t' (Reactive.set_voices_cache None s1).2 vs)
    as (s3 & E3 & Hn & _); [left; reflexivity | exact Hg |].
  rewrite E3. exact Hn.
Qed.

(** X20.  Without an API key a run of the reactive script shows the error
    and stops: the provider is not called and nothing on the server
    changes. *)
Theorem X20_reactive_without_api_key (w : world) (t : Z)
    (ws : Reactive.widgets) (s : Reactive.server) :
  (forall k, env_api_key w = Some k -> Py.truthy k = false) ->
  let r := Reactive.run_script w t ws s in
  r.1 = Reactive.Stopped
  /\ Reactive.page r.2 = [Reactive.ErrorNoApiKey]
  /\ Reactive.catalog_calls r.2 = Reactive.catalog_calls s
  /\ Reactive.tts_log r.2 = Reactive.tts_log s
  /\ Reactive.recordings r.2 = Reactive.recordings s
  /\ Reactive.voices_cache r.2 = Reactive.voices_cache s
  /\ same_session s r.2.
Proof.
  intros H r. subst r. unfold Reactive.run_script, Reactive.script.
  unfold Reactive.bind at 1. unfold Reactive.get_client.
  destruct (env_api_key w) as [k|]; [rewrite (H k eq_refl)|];
    cbn; repeat split.
Qed.

Lemma menu_never_leaves w l m n l' m' :
  Terminal.menu w l m = (Terminal.Ret (n, l'), m') -> n <> Terminal.Leave.
Proof.
  intros H. unfold Terminal.menu in H. bind_inv; discriminate.
Qed.

(** What the copy of lines 220-222 does to the working copy. *)
Lemma copy_to_temp w path m :
  let m' := (Terminal.copy_to w path m).2 in
  Terminal.temp_dir m' = Terminal.temp_dir m
  /\ (Terminal.temp_file m' = Terminal.temp_file m
      \/ place w path = WorkingCopy
         /\ is_Some (Terminal.temp_file m)
         /\ Terminal.temp_file m' = Some []).
Proof.
  unfold Terminal.copy_to, Terminal.bind, Terminal.open_rb, Terminal.open_wb,
    Terminal.read_temp, Terminal.write, Terminal.file_at, Terminal.put.
  destruct (Terminal.temp_file m) as [data|] eqn:Hd; cbn; [|auto].
  destruct (place w path), (writable w path), (torn w path);
    cbn; rewrite ?Hd; cbn; rewrite ?take_nil; eauto 6.
Qed.

(** X21.  Only quitting removes the working copy: a menu pass that reads
    any choice but "q" leaves its directory in place, also when the pass ends
    [main] with an exception, and leaves the working copy as it was, with one
    exception: a save whose name leads to the working copy itself empties
    it. *)
Theorem X21_only_quit_removes_the_working_copy (w : world)
    (c : Terminal.config) :
  next_choice c <> None ->
  next_choice c <> Some "q" ->
  let m := Terminal.machine_of c in
  let m' := Terminal.machine_of (Terminal.step w c) in
  Terminal.temp_dir m' = Terminal.temp_dir m
  /\ (Terminal.temp_file m' = Terminal.temp_file m
      \/ next_save_place w c = Some WorkingCopy
         /\ is_Some (Terminal.temp_file m)
         /\ Terminal.temp_file m' = Some []).
Proof.
  unfold next_choice, next_save_place.
  destruct c as [[[|] l|r] m]; cbn [Terminal.status_of Terminal.machine_of];
    try congruence.
  destruct (Terminal.stdin m) as [|a rest] eqn:Hin; [congruence|].
  intros _ Hq.
  assert (Hq' : String.eqb (Py.lower (Py.strip a)) "q" = false).
  { apply String.eqb_neq. congruence. }
  assert (Hm : forall r : Terminal.result (Terminal.next * Terminal.locals) * Terminal.machine,
             r.1 <> Terminal.Ret (Terminal.Leave, l) ->
             (forall l', r.1 <> Terminal.Ret (Terminal.Leave, l')) ->
             Terminal.machine_of (Terminal.after r) = r.2).
  { intros [[[[| |] l']|e] m'] _ H; try reflexivity. destruct (H l' eq_refl). }
  cbn zeta. unfold Terminal.step.
  cbn [Terminal.status_of Terminal.machine_of].
  rewrite Hm;
    [| intros E; destruct (Terminal.menu w l m) as [[[n l']|e] m'] eqn:E';
       cbn in E; inversion E; subst;
       exact (menu_never_leaves _ _ _ _ _ _ E' eq_refl)
     | intros l' E; destruct (Terminal.menu w l m) as [[[n l'']|e] m'] eqn:E';
       cbn in E; inversion E; subst;
       exact (menu_never_leaves _ _ _ _ _ _ E' eq_refl)].
  unfold Terminal.menu. rewrite (bind_input_run _ _ _ _ _ Hin), Hq'.
  destruct (String.eqb (Py.lower (Py.strip a)) "s") eqn:Hs.
  - apply String.eqb_eq in Hs. rewrite Hs.
    cbn [String.eqb Ascii.eqb Bool.eqb andb].
    destruct rest as [|name rest].
    + rewrite bind_input_eof by (cbn; rewrite Hin; reflexivity).
      cbn. auto.
    + rewrite (bind_input_run _ _ _ name rest)
        by (cbn; rewrite Hin; reflexivity).
      destruct (Py.truthy (Py.strip name)); cbn [Terminal.when];
        [|cbn; auto].
      set (m0 := consumed (wrote _ (consumed (wrote _ m)))).
      pose proof (copy_to_temp w (Terminal.recording (Py.strip name)) m0) as Hc.
      cbn zeta in Hc.
      change (Terminal.temp_dir m0) with (Terminal.temp_dir m) in Hc.
      change (Terminal.temp_file m0) with (Terminal.temp_file m) in Hc.
      unfold Terminal.bind, Terminal.mkdir_recordings.
      destruct (recordings_dir w); [|cbn; auto].
      destruct (Terminal.copy_to w _ m0) as [[[]|e] m1]; cbn in Hc |- *;
        destruct Hc as [Hd [Hc|(-> & Hc)]]; auto.
  - match goal with |- context [?k (consumed ?m0)] =>
      match type of k with
      | string -> _ => fail 1
      | _ =>
      assert (Hf : frame (same_on temp_state) k) by frame_auto;
      specialize (Hf (consumed m0))
      end
    end.
    unfold same_on, temp_state in Hf. cbn in Hf. inversion Hf. auto.
Qed.

(** X22.  A write of the working copy that fails is reported like a failed
    synthesis and can be retried, but the audio of before may be gone: the
    request was sent, nothing is announced as played, and the working copy
    is as before only when the file could not be opened; once opened it
    holds just the bytes that reached it before the failure. *)
Theorem X22_failed_write_of_the_working_copy (w : world) (l : Terminal.locals)
    (m : Terminal.machine) (chunks : list bytes) (answer : string)
    (rest : list string) :
  convert w (List.length (Terminal.tts_log m)) (request_for l) = inr chunks ->
  writable w Terminal.audio_path = false ->
  Terminal.stdin m = answer :: rest ->
  Py.lower (Py.strip answer) = "y" ->
  let c := Terminal.step w (at_ Terminal.LoopHead l m) in
  Terminal.status_of c = Terminal.Running Terminal.LoopHead (bumped l)
  /\ Terminal.SayError (OSError Terminal.audio_path)
     ∈ Terminal.stdout (Terminal.machine_of c)
  /\ played (Terminal.stdout (Terminal.machine_of c)) = played (Terminal.stdout m)
  /\ Terminal.tts_log (Terminal.machine_of c)
     = (Terminal.tts_log m ++ [request_for l])%list
  /\ Terminal.temp_file (Terminal.machine_of c)
     = match torn w Terminal.audio_path with
       | Some k => Some (take k (join_bytes chunks))
       | None => Terminal.temp_file m
       end.
Proof.
  intros Hc Hw Hin Hy c. subst c. rewrite step_head.
  unfold Terminal.attempt, Terminal.bind, Terminal.try_except,
    Terminal.generate_audio, Terminal.bind, Terminal.print,
    Terminal.text_to_speech_convert, Terminal.write_temp, Terminal.bind,
    Terminal.open_wb, Terminal.write.
  cbn. fold (request_for l). rewrite Hc, Hw. cbn.
  destruct (torn w Terminal.audio_path) as [k|]; cbn;
    unfold Terminal.input, Terminal.bind, Terminal.print, Terminal.read_line;
    cbn; rewrite Hin, Hy; cbn;
    (split; [reflexivity|]); (split; [set_solver|]);
    (split; [unfold played; cbn; rewrite ?omap_app; cbn; by rewrite ?app_nil_r|]);
    split; reflexivity.
Qed.


Lemma X3_orderly_ends_clean_up_witness :
  cleaned
    (Terminal.machine_of
       (Terminal.steps (studio ["main.py"; "hi"] second_only false) 3
          (Terminal.start (studio ["main.py"; "hi"] second_only false)
             (Terminal.boot ["r"; "n"] ∅))))
  /\ Terminal.status_of
       (Terminal.step nested_studio
          (at_ Terminal.Menu (bumped (entered "hi")) emptied_machine))
     = Terminal.Finished (Terminal.Raise (OSError Terminal.temp_path)).
Proof.
  split.
  - apply (proj1 (X3_orderly_ends_clean_up
                    (studio ["main.py"; "hi"] second_only false)
                    (Terminal.boot ["r"; "n"] ∅)) 3%nat).
    vm_compute. reflexivity.
  - destruct (proj2 (X3_orderly_ends_clean_up nested_studio emptied_machine)
                (bumped (entered "hi")) "q" [] eq_refl eq_refl) as [H _].
    exact (proj1 H).
Defined.

Lemma X4_only_save_writes_recordings_witness :
  Terminal.recordings
    (Terminal.machine_of
       (Terminal.step (studio ["main.py"; "hi"] never false)
          (at_ Terminal.Menu (entered "hi") (Terminal.boot ["e"; "0.2"] ∅))))
  = ∅.
Proof.
  apply (X4_only_save_writes_recordings (studio ["main.py"; "hi"] never false)
           (at_ Terminal.Menu (entered "hi") (Terminal.boot ["e"; "0.2"] ∅))).
  vm_compute. discriminate.
Defined.

Lemma X5_save_keeps_the_last_generation_witness :
  (exists m',
     Terminal.steps (studio ["main.py"; "hi"] never false) 2
       (at_ Terminal.LoopHead (entered "hi") (Terminal.boot ["s"; " take1 "] ∅))
     = at_ Terminal.Menu (bumped (entered "hi")) m'
     /\ Terminal.recordings m' !! "take1.mp3" = Some (take_ 0)
     /\ Terminal.temp_file m' = Some (take_ 0))
  /\ (exists m',
        Terminal.steps nested_studio 2
          (at_ Terminal.LoopHead (entered "hi")
             (Terminal.boot ["s"; "/tmp/voice_sampler_abc/output"] ∅))
        = at_ Terminal.Menu (bumped (entered "hi")) m'
        /\ Terminal.temp_file m' = Some []
        /\ Terminal.recordings m' = ∅).
Proof.
  split.
  - destruct (X5_save_keeps_the_last_generation
                (studio ["main.py"; "hi"] never false) (entered "hi")
                (Terminal.boot ["s"; " take1 "] ∅) "s" " take1 " [])
      as (chunks & m' & Hc & E & _ & Hr & Ht);
      [apply studio_reliable | reflexivity | reflexivity | reflexivity
      | reflexivity | reflexivity |].
    injection Hc as <-. exists m'. repeat split; assumption.
  - destruct (X5_save_keeps_the_last_generation nested_studio (entered "hi")
                (Terminal.boot ["s"; "/tmp/voice_sampler_abc/output"] ∅)
                "s" "/tmp/voice_sampler_abc/output" [])
      as (chunks & m' & _ & E & _ & Ht & Hr);
      [repeat split; eauto | reflexivity | reflexivity | reflexivity
      | reflexivity | reflexivity |].
    exists m'. repeat split; assumption.
Defined.

Lemma X6_regenerate_repeats_the_request_witness :
  exists m' chunks,
    Terminal.steps (studio ["main.py"; "hi"] never false) 3
      (at_ Terminal.LoopHead (entered "hi") (Terminal.boot ["R"] ∅))
    = at_ Terminal.Menu (bumped (bumped (entered "hi"))) m'
    /\ Terminal.tts_log m'
       = [request_for (entered "hi"); request_for (entered "hi")]
    /\ convert (studio ["main.py"; "hi"] never false) 1 (request_for (entered "hi"))
       = inr chunks
    /\ Terminal.temp_file m' = Some (join_bytes chunks).
Proof.
  apply (X6_regenerate_repeats_the_request (studio ["main.py"; "hi"] never false)
           (entered "hi") (Terminal.boot ["R"] ∅) "R" []);
    [apply studio_reliable | reflexivity | reflexivity].
Defined.

Lemma X7_new_phrase_changes_the_text_only_witness :
  exists rq,
    Terminal.tts_log
      (Terminal.machine_of
         (Terminal.steps (studio ["main.py"; "hi"] never false) 2
            (at_ Terminal.Menu (entered "hi") (Terminal.boot ["n"; " bye "] ∅))))
    = [rq]
    /\ rq_text rq = "bye"
    /\ rq_voice_id rq = rq_voice_id (request_for (entered "hi"))
    /\ rq_voice_settings rq = rq_voice_settings (request_for (entered "hi")).
Proof.
  apply (X7_new_phrase_changes_the_text_only (studio ["main.py"; "hi"] never false)
           (entered "hi") (Terminal.boot ["n"; " bye "] ∅) "n" " bye " []);
    reflexivity.
Defined.

Lemma X8_blank_answers_keep_the_settings_witness :
  exists m',
    Terminal.step (studio ["main.py"; "hi"] never false)
      (at_ Terminal.Menu (entered "hi") (Terminal.boot ["e"; ""; " "; ""] ∅))
    = at_ Terminal.LoopHead
        (Terminal.set_settings Terminal.initial_settings (entered "hi")) m'
    /\ Terminal.stdin m' = []
    /\ Terminal.tts_log
         (Terminal.machine_of
            (Terminal.steps (studio ["main.py"; "hi"] never false) 2
               (at_ Terminal.Menu (entered "hi")
                  (Terminal.boot ["e"; ""; " "; ""] ∅))))
       = [request_for (entered "hi")].
Proof.
  apply (X8_blank_answers_keep_the_settings (studio ["main.py"; "hi"] never false)
           (entered "hi") (Terminal.boot ["e"; ""; " "; ""] ∅) "e" "" " " "" []);
    try reflexivity.
  repeat split.
Defined.

Lemma X9_playback_failure_after_synthesis_witness :
  Terminal.temp_file
    (Terminal.machine_of
       (Terminal.step silent_studio
          (at_ Terminal.LoopHead (entered "hi") (Terminal.boot ["y"] ∅))))
  = Some (take_ 0).
Proof.
  refine (proj2 (proj2 (X9_playback_failure_after_synthesis silent_studio
                          (entered "hi") (Terminal.boot ["y"] ∅) [take_ 0]
                          "aplay" "y" (CalledProcessError "aplay") []
                          eq_refl eq_refl eq_refl eq_refl eq_refl eq_refl)
                   eq_refl)).
Defined.

Lemma X10_play_again_witness :
  Terminal.tts_log
    (Terminal.machine_of
       (Terminal.step silent_studio
          (at_ Terminal.Menu (entered "hi") (Terminal.boot ["p"] ∅))))
  = [].
Proof.
  exact (proj1 (X10_play_again silent_studio (entered "hi")
                  (Terminal.boot ["p"] ∅) "p" [] eq_refl eq_refl)).
Defined.

Lemma X11_no_api_key_no_session_witness :
  Terminal.steps keyless 4 (Terminal.start keyless (Terminal.boot ["hi"] ∅))
  = {| Terminal.status_of := Terminal.Finished (Terminal.Raise (SystemExit 1));
       Terminal.machine_of :=
         wrote [Terminal.SayApiKeyNotSet] (Terminal.boot ["hi"] ∅) |}.
Proof.
  apply X11_no_api_key_no_session. intros k H. discriminate.
Defined.

Lemma X12_list_voices_witness :
  let w := studio ["main.py"; "--list-voices"; "hi"] never false in
  Terminal.catalog_calls
    (Terminal.machine_of (Terminal.steps w 3 (Terminal.start w (Terminal.boot [] ∅))))
  = 1%nat.
Proof.
  exact (proj1 (proj2 (X12_list_voices
                         (studio ["main.py"; "--list-voices"; "hi"] never false)
                         (Terminal.boot [] ∅) "sk-sample" "main.py" ["hi"] 3
                         eq_refl eq_refl eq_refl))).
Defined.

Lemma X13_ascii_answers_and_the_digit_limit_witness :
  (exists v m',
     Terminal.select_voice (studio ["main.py"; "hi"] never false) "V2"
       (Terminal.boot ["1_0"] ∅)
     = (Terminal.Ret v, m')
     /\ (v = "V2" \/ v ∈ map voice_id sample_voices))
  /\ (Terminal.select_voice (studio ["main.py"; "hi"] never false) "V2"
        (Terminal.boot [long_ordinal] ∅)).1
     = Terminal.Raise ValueError.
Proof.
  split.
  - apply (X13_ascii_answers_and_the_digit_limit
             (studio ["main.py"; "hi"] never false)
             "V2" (Terminal.boot ["1_0"] ∅) sample_voices "1_0" []);
      reflexivity.
  - pose proof (X13_ascii_answers_and_the_digit_limit
                  (studio ["main.py"; "hi"] never false)
                  "V2" (Terminal.boot [long_ordinal] ∅) sample_voices
                  long_ordinal [] eq_refl eq_refl) as H.
    assert (Ha : is_ascii (Py.strip long_ordinal) = true)
      by (vm_compute; reflexivity).
    assert (Hd : Py.isdigit (Py.strip long_ordinal)
                 && (Py.int_max_str_digits
                     <? String.length (Py.strip long_ordinal))%nat = true)
      by (vm_compute; reflexivity).
    specialize (H Ha). rewrite Hd in H. exact H.
Defined.

Lemma X14_the_number_shown_selects_the_voice_witness :
  (Terminal.select_voice (studio ["main.py"; "hi"] never false) "V1"
     (Terminal.boot [" 2 "] ∅)).1
  = Terminal.Ret "V2".
Proof.
  rewrite (proj2 (X14_the_number_shown_selects_the_voice
                    (studio ["main.py"; "hi"] never false) "V1"
                    (Terminal.boot [" 2 "] ∅) sample_voices " 2 " [] 1
                    {| voice_id := "V2"; name := "Bob"; category := IsNone |}
                    eq_refl eq_refl eq_refl eq_refl eq_refl)).
  reflexivity.
Defined.

Lemma X15_reactive_calls_need_a_click_witness :
  Reactive.tts_log
    (Reactive.run_script (studio [] never false) 0
       (form "hi" 0 (Reactive.value Reactive.speed_slider) false true "take1")
       (Reactive.initial ∅)).2
  = Reactive.tts_log (Reactive.initial ∅).
Proof.
  apply (proj1 (X15_reactive_calls_need_a_click (studio [] never false) 0
                  (form "hi" 0 (Reactive.value Reactive.speed_slider) false true
                     "take1")
                  (Reactive.initial ∅))).
  left. reflexivity.
Defined.

Lemma X17_generate_needs_a_voice_witness :
  Reactive.run_script (studio [] never false) 0
    (form "hi" 0 (Reactive.value Reactive.speed_slider) true false "")
    no_voices
  = (Reactive.Uncaught (KeyError "None"), no_voices).
Proof.
  apply (X17_generate_needs_a_voice (studio [] never false) 0
           (form "hi" 0 (Reactive.value Reactive.speed_slider) true false "")
           no_voices no_voices "sk-sample" []); reflexivity.
Defined.


Lemma X19_refresh_clears_the_cache_witness :
  Reactive.voices_cache
    (Reactive.run_script (studio [] never false) 10 refresh_click hello_session).2
  = None.
Proof.
  exact (proj1 (proj2 (X19_refresh_clears_the_cache (studio [] never false) 10
                         refresh_click hello_session
                         (Reactive.clear_page hello_session) "sk-sample"
                         (rows_of sample_voices)
                         eq_refl eq_refl eq_refl eq_refl))).
Defined.

Lemma X20_reactive_without_api_key_witness :
  Reactive.page
    (Reactive.run_script keyless 0
       (form "hi" 0 (Reactive.value Reactive.speed_slider) true false "")
       (Reactive.initial ∅)).2
  = [Reactive.ErrorNoApiKey].
Proof.
  refine (proj1 (proj2 (X20_reactive_without_api_key keyless 0 _ _ _))).
  intros k H. discriminate.
Defined.

Lemma X21_only_quit_removes_the_working_copy_witness :
  Terminal.temp_file littered_machine = Some (take_ 0)
  /\ Terminal.temp_dir
       (Terminal.machine_of
          (Terminal.step nested_studio
             (at_ Terminal.Menu (bumped (entered "hi")) littered_machine)))
     = true.
Proof.
  split; [reflexivity|].
  refine (proj1 (X21_only_quit_removes_the_working_copy nested_studio
                   (at_ Terminal.Menu (bumped (entered "hi")) littered_machine)
                   _ _));
    vm_compute; discriminate.
Defined.

Lemma X22_failed_write_of_the_working_copy_witness :
  Terminal.temp_file ready_machine = Some (take_ 0)
  /\ Terminal.temp_file
       (Terminal.machine_of
          (Terminal.step full_disk_studio
             (at_ Terminal.LoopHead (bumped (entered "hi")) ready_machine)))
     = Some [].
Proof.
  split; [reflexivity|].
  exact (proj2 (proj2 (proj2 (proj2
           (X22_failed_write_of_the_working_copy full_disk_studio
              (bumped (entered "hi")) ready_machine [take_ 1] "y" []
              eq_refl eq_refl eq_refl eq_refl))))).
Defined.
